(** * kit: the [Repository] facade over a repository snapshot

    A shallow embedding of [src/kit/repository.py].  The methods of the
    [Repository] class are embedded as computations in a state-and-exception
    monad over a [World] holding the disk and the repository object.
    The collaborating classes ([RepoMapper], [CodeSearcher],
    [ContextExtractor], [VectorSearcher]) are imported by [repository.py]
    from sibling modules; their behaviour is taken from the design
    document and each such definition says so. *)

From Stdlib Require Import ZArith QArith String Ascii List Sorted Lia.
From stdpp Require Import base option list strings pretty gmap fin_maps.

#[local] Set Warnings "-register-all".

Local Open Scope string_scope.
Local Open Scope list_scope.
Local Open Scope Z_scope.

(* ===================================================================== *)
(** ** Python values, dictionaries and exceptions                         *)
(* ===================================================================== *)

Module Py.

(** The fragment of Python's object universe the facade hands around:
    [None], integers, strings, lists and insertion-ordered dictionaries
    with string keys. *)
Inductive value : Type :=
| VNone
| VInt (z : Z)
| VStr (s : string)
| VList (l : list value)
| VDict (d : list (string * value)).

(** A [dict] keeps its items in insertion order. *)
Definition dict : Type := list (string * value).

(** The exceptions the facade and its collaborators raise.  [NotFound]
    is the condition the design document names for a path absent from
    the snapshot; the others are Python built-ins. *)
Inductive exn : Type :=
| ValueError (msg : string)
| FileNotFoundError (msg : string)
| IOError (msg : string)
| IsADirectoryError (msg : string)
| NotADirectoryError (msg : string)
| PermissionError (msg : string)
| KeyError (key : string)
| AttributeError (msg : string)
| TypeError (msg : string)
| NotFound (path : string).

Inductive outcome (A : Type) : Type :=
| Ret (a : A)
| Raise (e : exn).
Arguments Ret {A} a.
Arguments Raise {A} e.

(** [d.get(k)] on the item list: first item with key [k]. *)
Fixpoint lookup_item (k : string) (d : dict) : option value :=
  match d with
  | [] => None
  | (k', v) :: d' => if String.eqb k k' then Some v else lookup_item k d'
  end.

(** [d.get(k)]: [None] when the key is absent. *)
Definition get (d : dict) (k : string) : value :=
  match lookup_item k d with
  | Some v => v
  | None => VNone
  end.

(** [d.get(k, default)]. *)
Definition get_default (d : dict) (k : string) (default : value) : value :=
  match lookup_item k d with
  | Some v => v
  | None => default
  end.

(** [d[k]]: raises [KeyError] when the key is absent. *)
Definition getitem (d : dict) (k : string) : outcome value :=
  match lookup_item k d with
  | Some v => Ret v
  | None => Raise (KeyError k)
  end.

(** [list(d.keys())]. *)
Definition keys (d : dict) : list string := map fst d.

(** Truth value of an object, as used by [or] and [if]. *)
Definition truthy (v : value) : bool :=
  match v with
  | VNone => false
  | VInt z => negb (Z.eqb z 0)
  | VStr s => negb (String.eqb s "")
  | VList l => match l with [] => false | _ => true end
  | VDict d => match d with [] => false | _ => true end
  end.

(** [a or b]. *)
Definition or_ (a b : value) : value := if truthy a then a else b.

(** [v == s] for a string [s]: only an equal string compares equal. *)
Definition eq_str (v : value) (s : string) : bool :=
  match v with
  | VStr t => String.eqb t s
  | _ => false
  end.

(** [v.items()] : only dictionaries have the method. *)
Definition items (v : value) : outcome (list (string * value)) :=
  match v with
  | VDict d => Ret d
  | _ => Raise (AttributeError "items")
  end.

(** [v.values()]. *)
Definition values (v : value) : outcome (list value) :=
  match v with
  | VDict d => Ret (map snd d)
  | _ => Raise (AttributeError "values")
  end.

(** The characters of a string, each as a one-character string. *)
Fixpoint chars (s : string) : list value :=
  match s with
  | EmptyString => []
  | String c s' => VStr (String c EmptyString) :: chars s'
  end.

(** Iterating [v] in [list.extend(v)] or in a comprehension: the
    elements of a list in order, the keys of a dictionary, the
    characters of a string. *)
Definition iter (v : value) : outcome (list value) :=
  match v with
  | VList l => Ret l
  | VDict d => Ret (map (fun kv => VStr (fst kv)) d)
  | VStr s => Ret (chars s)
  | VNone | VInt _ => Raise (TypeError "object is not iterable")
  end.

(** [v[k]] on an arbitrary object. *)
Definition subscript (v : value) (k : string) : outcome value :=
  match v with
  | VDict d => getitem d k
  | _ => Raise (TypeError "object is not subscriptable")
  end.

End Py.

Import Py.

(* ===================================================================== *)
(** ** Text and paths                                                     *)
(* ===================================================================== *)

Module Text.

Definition LF : ascii := "010"%char.

(** The lines of a text, each keeping its terminating line feed (what
    iterating an open file yields). *)
Fixpoint lines_of (s : string) : list string :=
  match s with
  | EmptyString => []
  | String c s' =>
      if Ascii.eqb c LF then String c EmptyString :: lines_of s'
      else match lines_of s' with
           | [] => [String c EmptyString]
           | l :: ls => String c l :: ls
           end
  end.

(** [[""].join(parts)]. *)
Definition join (parts : list string) : string :=
  fold_right String.append EmptyString parts.

(** [s.split(sep)] for a one-character separator. *)
Fixpoint split_on (sep : ascii) (s : string) : list string :=
  match s with
  | EmptyString => [EmptyString]
  | String c s' =>
      if Ascii.eqb c sep then EmptyString :: split_on sep s'
      else match split_on sep s' with
           | [] => [String c EmptyString]
           | l :: ls => String c l :: ls
           end
  end.

(** A path is absolute when it starts with a slash. *)
Definition is_absolute (p : string) : bool :=
  match p with
  | String c _ => Ascii.eqb c "/"%char
  | EmptyString => false
  end.

(** The components of a path that name nothing: the empty one, left by
    a doubled or trailing slash, and [.]. *)
Definition is_blank (c : string) : bool := String.eqb c "" || String.eqb c ".".

(** The parts a [Path] keeps of a string: its components but the blank
    ones; [..] is kept. *)
Definition path_parts (p : string) : list string :=
  List.filter (fun c => negb (is_blank c)) (split_on "/" p).

(** The root of a [Path]: none for a relative path, [//] for a path
    that starts with exactly two slashes, [/] for any other absolute
    path. *)
Definition path_root (p : string) : string :=
  match p with
  | String "/" (String "/" (String "/" _)) => "/"
  | String "/" (String "/" _) => "//"
  | String "/" _ => "/"
  | _ => ""
  end.

(** [str] of the [Path] with a root and parts. *)
Definition path_str (root : string) (parts : list string) : string :=
  match root, parts with
  | EmptyString, [] => "."
  | _, _ => root +:+ String.concat "/" parts
  end.

(** [str(Path(base) / p)]: an absolute right operand replaces the base,
    a relative one is appended below it; blank components and trailing
    slashes are dropped on both sides. *)
Definition joinpath (base p : string) : string :=
  if is_absolute p then path_str (path_root p) (path_parts p)
  else path_str (path_root base) (path_parts base ++ path_parts p).

End Text.

Import Text.

(* ===================================================================== *)
(** ** The disk                                                           *)
(* ===================================================================== *)

(** A disk without symbolic links: directories and regular files, each
    held under its canonical path, the names from the root down joined
    by single slashes.  The root is always there and needs no entry. *)
Inductive FsNode : Type :=
| Directory
| RegularFile (data : string).

Definition canonical (names : list string) : string :=
  "/" +:+ String.concat "/" names.

(** Why a path leads nowhere: a component is missing, or a component
    that is not the last is a regular file. *)
Inductive errno : Type :=
| ENOENT
| ENOTDIR.

(** Where a path leads: to a directory reached through [.], [..] or a
    bare root; to an entry, there or not, of a directory that is there,
    named with or without a trailing slash; or nowhere. *)
Inductive located : Type :=
| AtDirectory (dir : list string)
| AtEntry (dir : list string) (name : string) (slash : bool)
| Fails (e : errno).

(** The operating system following the components of a path from the
    directory [cur]: blank components stay, [..] goes up (the root is
    its own parent), and a name followed by more than slashes must be a
    directory. *)
Fixpoint walk (disk : gmap string FsNode) (cur : list string) (cs : list string) : located :=
  match cs with
  | [] => AtDirectory cur
  | c :: rest =>
      if is_blank c then walk disk cur rest
      else if String.eqb c ".." then walk disk (removelast cur) rest
      else if forallb (String.eqb "") rest
      then AtEntry cur c (match rest with [] => false | _ => true end)
      else match disk !! canonical (cur ++ [c]) with
           | Some Directory => walk disk (cur ++ [c]) rest
           | Some (RegularFile _) => Fails ENOTDIR
           | None => Fails ENOENT
           end
  end.

(** Resolving the path [p] for a process whose working directory is
    [cwd]: the empty path leads nowhere, a relative one starts at the
    working directory. *)
Definition locate (disk : gmap string FsNode) (cwd p : string) : located :=
  match p with
  | EmptyString => Fails ENOENT
  | _ => walk disk [] (split_on "/" (if is_absolute p then p else cwd +:+ "/" +:+ p))
  end.

(** [os.stat]: what is at the end of a path, if anything.  A regular
    file named with a trailing slash is not found. *)
Definition stat (disk : gmap string FsNode) (cwd p : string) : option FsNode :=
  match locate disk cwd p with
  | AtDirectory _ => Some Directory
  | AtEntry dir name slash =>
      match disk !! canonical (dir ++ [name]) with
      | Some Directory => Some Directory
      | Some (RegularFile data) => if slash then None else Some (RegularFile data)
      | None => None
      end
  | Fails _ => None
  end.

(** The canonical path of what a path leads to, whether or not anything
    is there. *)
Definition reaches (disk : gmap string FsNode) (cwd p : string) : option string :=
  match locate disk cwd p with
  | AtDirectory dir => Some (canonical dir)
  | AtEntry dir name _ => Some (canonical (dir ++ [name]))
  | Fails _ => None
  end.

(** Where [open(p, "w")] would create or truncate a file, or the error
    it raises: a directory cannot be opened for writing, and a name with
    a trailing slash is taken for one. *)
Definition open_target (disk : gmap string FsNode) (cwd p : string) : outcome string :=
  match locate disk cwd p with
  | AtDirectory _ => Raise (IsADirectoryError p)
  | AtEntry dir name slash =>
      if slash then Raise (IsADirectoryError p)
      else match disk !! canonical (dir ++ [name]) with
           | Some Directory => Raise (IsADirectoryError p)
           | _ => Ret (canonical (dir ++ [name]))
           end
  | Fails ENOENT => Raise (FileNotFoundError p)
  | Fails ENOTDIR => Raise (NotADirectoryError p)
  end.

(** The methods of [Path] that look at the disk are called on absolute
    paths: the root stands in for the working directory. *)

(** [Path.is_file()]. *)
Definition is_file (disk : gmap string FsNode) (p : string) : bool :=
  match stat disk "/" p with
  | Some (RegularFile _) => true
  | _ => false
  end.

(** The bytes of a regular file, when [p] names one. *)
Definition file_data (disk : gmap string FsNode) (p : string) : option string :=
  match stat disk "/" p with
  | Some (RegularFile data) => Some data
  | _ => None
  end.

(* ===================================================================== *)
(** ** Data model                                                         *)
(* ===================================================================== *)

(** Modelled from the spec: a [Symbol] as section 3 of the design document
    describes it (the parser that produces symbols lives in the absent
    [repo_mapper] module). Line ranges are inclusive. *)
Record Symbol : Type := {
  sym_name : string;
  sym_kind : string;
  sym_file : string;
  sym_start : Z;
  sym_end : Z;
  sym_parent : option string;
  sym_context : option string
}.

Definition opt_str (o : option string) : value :=
  match o with
  | Some s => VStr s
  | None => VNone
  end.

(** Modelled from the spec: the dictionary a [Symbol] serialises to, with
    the field names of section 6 ([file], [type], [name], [line],
    [context]); the end line and the enclosing symbol are carried under
    [end_line] and [parent]. *)
Definition symbol_to_dict (s : Symbol) : dict :=
  [ ("name", VStr (sym_name s));
    ("type", VStr (sym_kind s));
    ("file", VStr (sym_file s));
    ("line", VInt (sym_start s));
    ("end_line", VInt (sym_end s));
    ("parent", opt_str (sym_parent s));
    ("context", opt_str (sym_context s)) ].

(** Modelled from the spec: a [SearchHit] (file path, 1-based line number,
    line content), the hits of the absent [code_searcher] module. *)
Record SearchHit : Type := {
  hit_file : string;
  hit_line : Z;
  hit_content : string
}.

(** Modelled from the spec: the dictionary of a hit; its keys are the
    ones [find_symbol_usages] reads with [hit.get]. *)
Definition hit_to_dict (h : SearchHit) : dict :=
  [ ("file", VStr (hit_file h));
    ("line", VInt (hit_line h));
    ("line_content", VStr (hit_content h)) ].

(** Modelled from the spec: a [Chunk] (file path, inclusive line range,
    content, originating symbol when symbol-derived). *)
Record Chunk : Type := {
  chunk_file : string;
  chunk_start : Z;
  chunk_end : Z;
  chunk_content : string;
  chunk_symbol : option Symbol
}.

(** Modelled from the spec: an [EmbeddingRecord]; the vector components
    are rationals standing for the floating-point components. *)
Record EmbeddingRecord : Type := {
  rec_file : string;
  rec_start : Z;
  rec_end : Z;
  rec_vector : list Q;
  rec_hash : string
}.

(** Modelled from the spec: the [RepoMap] of the symbol indexer, per
    recognised file (keyed by absolute path, as [extract_symbols] notes)
    its symbols in source order. *)
Definition RepoMap : Type := list (string * list Symbol).

(** Modelled from the spec: the state of a [RepoMapper], an explicit cache
    cell that is [None] until the first scan. *)
Record RepoMapper : Type := {
  mapper_repo_path : string;
  mapper_cache : option RepoMap
}.

(** Modelled from the spec: a [CodeSearcher] caches nothing; it holds the
    path [__init__] constructs it with. *)
Record CodeSearcher : Type := { searcher_repo_path : string }.

(** Modelled from the spec: a [ContextExtractor] likewise holds only the
    path [__init__] constructs it with. *)
Record ContextExtractor : Type := { context_repo_path : string }.

(** An injected embedding function: text to vector, or an exception. *)
Definition EmbedFn : Type := string -> outcome (list Q).

(** Modelled from the spec: a [VectorSearcher] holds the embedding
    function it was built with, the backend selector, the persistence
    directory and its in-memory index.  [vs_oid] is the identity of the
    object: every construction draws a fresh one from the world. *)
Record VectorSearcher : Type := {
  vs_oid : nat;
  vs_repo_path : string;
  vs_embed_fn : EmbedFn;
  vs_backend : option string;
  vs_persist_dir : option string;
  vs_index : list EmbeddingRecord
}.

(** The attributes [Repository.__init__] sets. *)
Record Repository : Type := {
  ref : option string;
  local_path : string;
  repo_path : string;
  mapper : RepoMapper;
  searcher : CodeSearcher;
  context : ContextExtractor;
  vector_searcher : option VectorSearcher
}.

(** What a method of [Repository] can read or change: the disk, the
    process's working directory, the snapshot's ordered in-scope paths
    (relative to the root), the next free object identity and the
    repository object [self]. *)
Record World : Type := {
  disk : gmap string FsNode;
  cwd : string;
  in_scope : list string;
  next_oid : nat;
  self : Repository
}.

Definition set_self (r : Repository) (w : World) : World :=
  {| disk := disk w; cwd := cwd w; in_scope := in_scope w;
     next_oid := next_oid w; self := r |}.

Definition set_next_oid (n : nat) (w : World) : World :=
  {| disk := disk w; cwd := cwd w; in_scope := in_scope w;
     next_oid := n; self := self w |}.

Definition set_disk (d : gmap string FsNode) (w : World) : World :=
  {| disk := d; cwd := cwd w; in_scope := in_scope w;
     next_oid := next_oid w; self := self w |}.

Definition set_mapper (m : RepoMapper) (r : Repository) : Repository :=
  {| ref := ref r; local_path := local_path r; repo_path := repo_path r;
     mapper := m; searcher := searcher r; context := context r;
     vector_searcher := vector_searcher r |}.

Definition set_vector_searcher (v : option VectorSearcher) (r : Repository) : Repository :=
  {| ref := ref r; local_path := local_path r; repo_path := repo_path r;
     mapper := mapper r; searcher := searcher r; context := context r;
     vector_searcher := v |}.

(* ===================================================================== *)
(** ** Computations: state passing with exceptions                        *)
(* ===================================================================== *)

(** A method body: it runs in a world and either returns or raises, and
    in both cases leaves a world behind. *)
Definition Eff (A : Type) : Type := World -> outcome A * World.

Definition ret {A} (a : A) : Eff A := fun w => (Ret a, w).

Definition raise {A} (e : exn) : Eff A := fun w => (Raise e, w).

Definition bind {A B} (m : Eff A) (k : A -> Eff B) : Eff B :=
  fun w =>
    match m w with
    | (Ret a, w') => k a w'
    | (Raise e, w') => (Raise e, w')
    end.

(** A pure step that may raise. *)
Definition lift {A} (o : outcome A) : Eff A := fun w => (o, w).

Definition get_world : Eff World := fun w => (Ret w, w).

Definition put_world (w' : World) : Eff unit := fun _ => (Ret tt, w').

Declare Scope eff_scope.
Delimit Scope eff_scope with eff.
Notation "x <- m ;; k" := (bind m (fun x => k))
  (at level 100, m at next level, right associativity) : eff_scope.
Notation "m ;;; k" := (bind m (fun _ => k))
  (at level 100, right associativity) : eff_scope.
Local Open Scope eff_scope.

(** A [for] loop that threads an accumulator. *)
Fixpoint for_each {A B} (xs : list A) (acc : B) (body : B -> A -> Eff B) : Eff B :=
  match xs with
  | [] => ret acc
  | x :: xs' => acc' <- body acc x ;; for_each xs' acc' body
  end.

(** Numbering the elements of a list from [n] on ([enumerate(xs, n)]). *)
Fixpoint enumerate_from {A} (n : Z) (xs : list A) : list (Z * A) :=
  match xs with
  | [] => []
  | x :: xs' => (n, x) :: enumerate_from (n + 1) xs'
  end.

(** Lines [a..b] (1-based, inclusive) of a list of lines, joined. *)
Definition slice_lines (lines : list string) (a b : Z) : string :=
  join (take (Z.to_nat (b - a + 1)) (drop (Z.to_nat (a - 1)) lines)).

(** Cutting a list into consecutive windows of [n] elements; [fuel]
    bounds the number of windows. *)
Fixpoint windows {A} (fuel n : nat) (xs : list A) : list (list A) :=
  match fuel with
  | O => []
  | S fuel' =>
      match xs with
      | [] => []
      | _ :: _ => take n xs :: windows fuel' n (drop n xs)
      end
  end.

(** With a positive window size there are at most [length xs] windows. *)
Definition windows_of {A} (n : nat) (xs : list A) : list (list A) :=
  windows (length xs) n xs.

(** Modelled from the spec: the windows as chunks of [file], each window
    with its inclusive 1-based line range, the first window starting at
    line [start]. *)
Fixpoint chunks_from (file : string) (start : Z) (ws : list (list string)) : list Chunk :=
  match ws with
  | [] => []
  | win :: ws' =>
      {| chunk_file := file;
         chunk_start := start;
         chunk_end := start + Z.of_nat (length win) - 1;
         chunk_content := join win;
         chunk_symbol := None |}
      :: chunks_from file (start + Z.of_nat (length win)) ws'
  end.

(** Modelled from the spec: the dictionary a [Chunk] serialises to. *)
Definition chunk_to_dict (c : Chunk) : dict :=
  [ ("file", VStr (chunk_file c));
    ("start_line", VInt (chunk_start c));
    ("end_line", VInt (chunk_end c));
    ("content", VStr (chunk_content c));
    ("symbol", match chunk_symbol c with
               | Some s => VStr (sym_name s)
               | None => VNone
               end) ].

(** [Repository(path)] for a local path and no ref: the attributes set
    by [__init__], with [Path(path).absolute()] as the root. *)
Definition Repository_init (working_dir path : string) : Repository :=
  let root := joinpath working_dir path in
  {| ref := None;
     local_path := root;
     repo_path := root;
     mapper := {| mapper_repo_path := root; mapper_cache := None |};
     searcher := {| searcher_repo_path := root |};
     context := {| context_repo_path := root |};
     vector_searcher := None |}.

(* ===================================================================== *)
(** ** External processes and the string methods used on their output     *)
(* ===================================================================== *)

(** [subprocess.CompletedProcess] as [capture_output=True, text=True]
    fills it. *)
Record CompletedProcess : Type := {
  returncode : Z;
  stdout : string;
  stderr : string
}.

(** What [subprocess.run(..., check=True)] hands to the enclosing [try]:
    the completed process, or the [CalledProcessError] raised for a
    non-zero return code, which carries the process. *)
Inductive run_result : Type :=
| Completed (p : CompletedProcess)
| CalledProcessError (p : CompletedProcess).

(** [str.isspace] on a character below 256: the ASCII white space, the
    separators 28 to 31, NEL and the no-break space. *)
Definition is_space (c : ascii) : bool :=
  let n := nat_of_ascii c in
  (Nat.leb 9 n && Nat.leb n 13) || (Nat.leb 28 n && Nat.leb n 32)
  || Nat.eqb n 133 || Nat.eqb n 160.

(** [s.lstrip(chars)], the characters given as a predicate. *)
Fixpoint lstrip_with (p : ascii -> bool) (s : string) : string :=
  match s with
  | EmptyString => EmptyString
  | String c s' => if p c then lstrip_with p s' else s
  end.

(** [s.rstrip(chars)]. *)
Fixpoint rstrip_with (p : ascii -> bool) (s : string) : string :=
  match s with
  | EmptyString => EmptyString
  | String c s' =>
      match rstrip_with p s' with
      | EmptyString => if p c then EmptyString else String c EmptyString
      | String _ _ as r => String c r
      end
  end.

(** [s.strip(chars)]. *)
Definition strip_with (p : ascii -> bool) (s : string) : string :=
  lstrip_with p (rstrip_with p s).

(** [s.strip()]. *)
Definition strip (s : string) : string := strip_with is_space s.

(** [s.replace(a, b)] for one-character [a] and [b]. *)
Fixpoint replace_char (a b : ascii) (s : string) : string :=
  match s with
  | EmptyString => EmptyString
  | String c s' => String (if Ascii.eqb c a then b else c) (replace_char a b s')
  end.

(** Whether a character occurs in a string. *)
Fixpoint occurs (a : ascii) (s : string) : bool :=
  match s with
  | EmptyString => false
  | String c s' => Ascii.eqb c a || occurs a s'
  end.

(** Whether some character of the string is not white space. *)
Fixpoint has_nonspace (s : string) : bool :=
  match s with
  | EmptyString => false
  | String c s' => negb (is_space c) || has_nonspace s'
  end.

(** Truth value of a string. *)
Definition nonempty (s : string) : bool :=
  match s with
  | EmptyString => false
  | String _ _ => true
  end.

(** Truth value of an optional string: [None] and [""] are false. *)
Definition given (o : option string) : bool :=
  match o with
  | Some s => nonempty s
  | None => false
  end.

(** [Path.exists()] and [Path.is_dir()]. *)
Definition path_exists (disk : gmap string FsNode) (p : string) : bool :=
  match stat disk "/" p with
  | Some _ => true
  | None => false
  end.

Definition is_dir (disk : gmap string FsNode) (p : string) : bool :=
  match stat disk "/" p with
  | Some Directory => true
  | _ => false
  end.

(** [try: body except Exception: handler]. *)
Definition try_except {A} (body : Eff A) (handler : exn -> Eff A) : Eff A :=
  fun w =>
    match body w with
    | (Raise e, w') => handler e w'
    | (Ret a, w') => (Ret a, w')
    end.

(* ===================================================================== *)
(** ** A small concrete repository                                        *)
(* ===================================================================== *)

(** Concrete stand-ins for the injected parts and a three-file snapshot,
    used to run the methods on actual inputs. *)
Module Demo.

Definition ends_with (suffix s : string) : bool :=
  let n := String.length s in
  let k := String.length suffix in
  String.eqb (substring (n - k) k s) suffix.

Definition strip_lf (s : string) : string :=
  if ends_with (String LF "") s
  then substring 0 (String.length s - 1) s
  else s.

Fixpoint contains (q s : string) : bool :=
  String.prefix q s ||
  match s with
  | EmptyString => false
  | String _ s' => contains q s'
  end.

(** Every line [def name] of a [.py] file is a one-line function symbol. *)
Definition def_symbol (p : string) (nl : Z * string) : list Symbol :=
  if String.prefix "def " (snd nl)
  then [ {| sym_name := strip_lf (substring 4 (String.length (snd nl) - 4) (snd nl));
            sym_kind := "function";
            sym_file := p;
            sym_start := fst nl;
            sym_end := fst nl;
            sym_parent := None;
            sym_context := Some (strip_lf (snd nl)) |} ]
  else [].

Definition parse (p data : string) : option (list Symbol) :=
  if ends_with ".py" p
  then Some (flat_map (def_symbol p) (enumerate_from 1 (lines_of data)))
  else None.

Definition build_file_tree (root : string) (files : list string)
    (d : gmap string FsNode) : list dict :=
  map (fun rel =>
         [ ("path", VStr rel);
           ("is_dir", VInt (if is_file d (joinpath root rel) then 0 else 1)) ])
      files.

Definition glob_match (pattern path : string) : bool :=
  String.eqb pattern "*" || String.eqb pattern path.

Definition line_matches (query line : string) : bool := contains query line.

Definition is_ascii (c : ascii) : bool :=
  match c with
  | Ascii _ _ _ _ _ _ _ b7 => negb b7
  end.

Fixpoint all_ascii (s : string) : bool :=
  match s with
  | EmptyString => true
  | String c s' => is_ascii c && all_ascii s'
  end.

Definition utf8_decode (data : string) : option string :=
  if all_ascii data then Some data else None.

Fixpoint dot (u v : list Q) : Q :=
  match u, v with
  | x :: u', y :: v' => (x * y + dot u' v')%Q
  | _, _ => 0%Q
  end.

Definition cosine (u v : list Q) : Q := dot u v.

(** A stand-in for the serialiser: it only tells the shapes apart. *)
Definition json_dumps (v : value) : string :=
  match v with
  | VNone => "null"
  | VInt _ => "0"
  | VStr s => s
  | VList l => "[" +:+ pretty (length l) +:+ "]"
  | VDict d => "{" +:+ pretty (length d) +:+ "}"
  end.

Definition context_radius : Z := 2.

Definition line (s : string) : string := s +:+ String LF "".

Definition a_py : string :=
  line "def foo" +:+ line "  return 1" +:+ line "def bar" +:+ line "  return foo".

Definition notes_txt : string := line "foo is used here".

Definition data_bin : string := String "255"%char "".

Definition files : gmap string FsNode :=
  <["/repo/a.py" := RegularFile a_py]>
    (<["/repo/notes.txt" := RegularFile notes_txt]>
       (<["/repo/data.bin" := RegularFile data_bin]>
          (<["/repo/sub" := Directory]>
             (<["/repo" := Directory]> (<["/work" := Directory]> ∅))))).

Definition world : World :=
  {| disk := files;
     cwd := "/work";
     in_scope := ["a.py"; "notes.txt"; "data.bin"];
     next_oid := 0;
     self := Repository_init "/work" "/repo" |}.

(** An embedding function: the text's length on one axis. *)
Definition embed : EmbedFn :=
  fun text => Ret [inject_Z (Z.of_nat (String.length text)); 1%Q].

(** A file of 120 lines. *)
Definition long_txt : string := join (repeat (line "x") 120).

Definition long_world : World :=
  set_disk (<["/repo/long.txt" := RegularFile long_txt]> files) world.

(** The searcher the first [get_vector_searcher] call builds in [world],
    and the world with that searcher stored. *)
Definition searcher : VectorSearcher :=
  {| vs_oid := 0;
     vs_repo_path := "/repo";
     vs_embed_fn := embed;
     vs_backend := None;
     vs_persist_dir := None;
     vs_index := [] |}.

Definition configured_world : World :=
  set_self (set_vector_searcher (Some searcher) (self world)) (set_next_oid 1 world).

(** Another embedding function, one that always fails. *)
Definition failing_embed : EmbedFn := fun _ => Raise (TypeError "no model").

(** A stand-in for git, by command line. *)
Definition same_cmd (a b : list string) : bool :=
  String.eqb (String.concat " " a) (String.concat " " b).

Definition completed (rc : Z) (out err : string) : CompletedProcess :=
  {| returncode := rc; stdout := out; stderr := err |}.

Definition git (cmd : list string) (dir : string) (d : gmap string FsNode)
    : outcome CompletedProcess * gmap string FsNode :=
  if same_cmd cmd ["git"; "rev-parse"; "--abbrev-ref"; "HEAD"]
  then (Ret (completed 0 (line "main") ""), d)
  else if same_cmd cmd ["git"; "rev-parse"; "--short"; "HEAD"]
  then (Ret (completed 0 (line "0a1b2c3") ""), d)
  else if same_cmd cmd ["git"; "tag"; "--list"]
  then (Ret (completed 0 (line "v1.0" +:+ line "v1.1") ""), d)
  else if same_cmd cmd ["git"; "branch"; "--format=%(refname:short)"]
  then (Ret (completed 0 (line "main" +:+ line "dev") ""), d)
  else if same_cmd cmd ["git"; "status"; "--porcelain"]
  then (Ret (completed 0 (line " M a.py") ""), d)
  else if same_cmd cmd ["git"; "fetch"; "origin"; "nowhere"]
  then (Ret (completed 128 "" "fatal: no remote"), d)
  else if same_cmd cmd ["git"; "checkout"; "nowhere"]
  then (Ret (completed 1 "" "error: pathspec"), d)
  else (Ret (completed 1 "" "unknown"), d).

(** A machine on which git cannot be started. *)
Definition no_git_program (cmd : list string) (dir : string) (d : gmap string FsNode)
    : outcome CompletedProcess * gmap string FsNode :=
  (Raise (FileNotFoundError "git"), d).

(** The path component of a URL: what follows the host. *)
Definition urlparse_path (url : string) : string :=
  match index 0 "://" url with
  | Some i =>
      let rest := substring (i + 3) (String.length url - (i + 3)) url in
      match index 0 "/" rest with
      | Some j => substring j (String.length rest - j) rest
      | None => EmptyString
      end
  | None => url
  end.

(** A stand-in for cloning: every clone lands in one place. *)
Definition clone (url : string) (token cache_dir ref : option string) : Eff string :=
  fun w => (Ret "/tmp/kit-repo-cache/clone", w).

(** A machine that lets the process write wherever the directories
    allow, and one that protects the repository's files. *)
Definition permissive (d : gmap string FsNode) (p : string) : option exn := None.

Definition read_only_repo (d : gmap string FsNode) (p : string) : option exn :=
  if String.prefix "/repo/" p then Some (PermissionError p) else None.

(** The demo repository as a git working tree. *)
Definition git_world : World :=
  set_disk (<["/repo/.git" := Directory]> files) world.


(** The demo repository used from inside its root. *)
Definition inside_world : World :=
  {| disk := files;
     cwd := "/repo";
     in_scope := ["a.py"; "notes.txt"; "data.bin"];
     next_oid := 0;
     self := Repository_init "/work" "/repo" |}.

End Demo.

(* ===================================================================== *)
(** ** The collaborators of [Repository]                                  *)
(* ===================================================================== *)

Section Kit.

(** The grammar-selected parser: path and file data to the file's
    symbols in source order, [None] for an unrecognised extension or a
    parse failure. *)
Variable parse : string -> string -> option (list Symbol).

(** Building the file tree from the root, the in-scope paths and the
    live disk (the tree builder of the absent [repo_mapper] module). *)
Variable build_file_tree : string -> list string -> gmap string FsNode -> list dict.

(** [glob_match pattern path]. *)
Variable glob_match : string -> string -> bool.

(** [line_matches query line]: the per-line match policy. *)
Variable line_matches : string -> string -> bool.

(** Decoding file data as UTF-8 text. *)
Variable utf8_decode : string -> option string.

(** Similarity score of two vectors. *)
Variable cosine : list Q -> list Q -> Q.

(** [json.dumps(v, indent=2)]. *)
Variable json_dumps : value -> string.

(** Half-width of the fallback window of [extract_context_around_line]. *)
Variable context_radius : Z.

(** *** RepoMapper *)

(** Modelled from the spec: a full scan parses every in-scope file the
    parser recognises; unreadable or unparsable files are skipped. *)
Definition scan_repo (root : string) (files : list string)
    (d : gmap string FsNode) : RepoMap :=
  flat_map
    (fun rel =>
       let p := joinpath root rel in
       match file_data d p with
       | Some data =>
           match parse p data with
           | Some syms => [(p, syms)]
           | None => []
           end
       | None => []
       end)
    files.

(** A symbol, and a file's symbol list, as Python objects. *)
Definition symbol_value (s : Symbol) : value := VDict (symbol_to_dict s).

Definition symbols_value (syms : list Symbol) : value :=
  VList (map symbol_value syms).

(** Modelled from the spec: the dictionary [get_repo_map] hands to its
    callers, the per-file symbol lists under the key [symbols] that
    [Repository] reads. *)
Definition repo_map_dict (rm : RepoMap) : dict :=
  [ ("symbols", VDict (map (fun fs => (fst fs, symbols_value (snd fs))) rm)) ].

(** Modelled from the spec: [RepoMapper.get_repo_map] builds the map on
    first use, memoises it and returns the cached map afterwards. *)
Definition RepoMapper_get_repo_map : Eff dict :=
  fun w =>
    let m := mapper (self w) in
    match mapper_cache m with
    | Some rm => (Ret (repo_map_dict rm), w)
    | None =>
        let rm := scan_repo (mapper_repo_path m) (in_scope w) (disk w) in
        let m' := {| mapper_repo_path := mapper_repo_path m;
                     mapper_cache := Some rm |} in
        (Ret (repo_map_dict rm), set_self (set_mapper m' (self w)) w)
    end.

(** Modelled from the spec: [RepoMapper.get_file_tree] is re-derived
    from the live file listing and does not touch the cached map. *)
Definition RepoMapper_get_file_tree : Eff (list dict) :=
  fun w =>
    (Ret (build_file_tree (mapper_repo_path (mapper (self w))) (in_scope w) (disk w)), w).

(** Modelled from the spec: [RepoMapper.extract_symbols] parses the one
    named file afresh; a file that is absent is [NotFound], a file the
    parser rejects contributes no symbols. *)
Definition RepoMapper_extract_symbols (file_path : string) : Eff (list value) :=
  fun w =>
    let p := joinpath (mapper_repo_path (mapper (self w))) file_path in
    match file_data (disk w) p with
    | None => (Raise (NotFound file_path), w)
    | Some data =>
        match parse p data with
        | Some syms => (Ret (map symbol_value syms), w)
        | None => (Ret [], w)
        end
    end.

(** *** CodeSearcher *)

(** Modelled from the spec: the hits of one file, one per matching line,
    in ascending line number. *)
Definition hits_in_text (query rel text : string) : list SearchHit :=
  flat_map
    (fun nl =>
       if line_matches query (snd nl)
       then [ {| hit_file := rel; hit_line := fst nl; hit_content := snd nl |} ]
       else [])
    (enumerate_from 1 (lines_of text)).

(** Modelled from the spec: a text search scans the in-scope files
    matching the glob in listing order, skipping files that are missing
    or do not decode; within a file the hits come in ascending line
    number. *)
Definition search_files (root : string) (files : list string)
    (d : gmap string FsNode) (query file_pattern : string) : list dict :=
  flat_map
    (fun rel =>
       if glob_match file_pattern rel then
         match file_data d (joinpath root rel) with
         | Some data =>
             match utf8_decode data with
             | Some text => map hit_to_dict (hits_in_text query rel text)
             | None => []
             end
         | None => []
         end
       else [])
    files.

(** Modelled from the spec: [CodeSearcher.search_text] searches the
    snapshot; hits are produced per query and nothing is cached. *)
Definition CodeSearcher_search_text (query file_pattern : string) : Eff (list dict) :=
  fun w =>
    (Ret (search_files (searcher_repo_path (searcher (self w)))
            (in_scope w) (disk w) query file_pattern),
     w).

(** *** ContextExtractor *)

(** Modelled from the spec: the line windows of a file as chunks. *)
Definition line_chunks (file : string) (max_lines : Z) (data : string) : list Chunk :=
  chunks_from file 1 (windows_of (Z.to_nat max_lines) (lines_of data)).

(** Modelled from the spec: [ContextExtractor.chunk_file_by_lines]
    fails with [NotFound] for a file absent from the snapshot and
    otherwise returns the contents of the consecutive windows of at
    most [max_lines] lines.  The design document fixes no behaviour for
    a non-positive [max_lines]; the model rejects it. *)
Definition ContextExtractor_chunk_file_by_lines
    (file_path : string) (max_lines : Z) : Eff (list string) :=
  fun w =>
    let p := joinpath (context_repo_path (context (self w))) file_path in
    match file_data (disk w) p with
    | None => (Raise (NotFound file_path), w)
    | Some data =>
        if max_lines <=? 0
        then (Raise (ValueError "max_lines must be positive"), w)
        else (Ret (map chunk_content (line_chunks file_path max_lines data)), w)
    end.

(** Modelled from the spec: the chunk of a symbol, the lines of its
    range. *)
Definition symbol_chunk (file : string) (lines : list string) (s : Symbol) : Chunk :=
  {| chunk_file := file;
     chunk_start := sym_start s;
     chunk_end := sym_end s;
     chunk_content := slice_lines lines (sym_start s) (sym_end s);
     chunk_symbol := Some s |}.

(** Modelled from the spec: the chunk of the lines [a..b] between two
    symbols, when there are any. *)
Definition gap_chunk (file : string) (lines : list string) (a b : Z) : list Chunk :=
  if a <=? b
  then [ {| chunk_file := file; chunk_start := a; chunk_end := b;
            chunk_content := slice_lines lines a b; chunk_symbol := None |} ]
  else [].

(** Modelled from the spec: one chunk per symbol, with the gap before
    each symbol and the gap after the last one emitted as chunks of their
    own. *)
Fixpoint cover (file : string) (lines : list string) (next : Z)
    (syms : list Symbol) : list Chunk :=
  match syms with
  | [] => gap_chunk file lines next (Z.of_nat (length lines))
  | s :: syms' =>
      gap_chunk file lines next (sym_start s - 1)
        ++ symbol_chunk file lines s
        :: cover file lines (sym_end s + 1) syms'
  end.

(** Modelled from the spec: a symbol without enclosing symbol. *)
Definition is_top_level (s : Symbol) : bool :=
  match sym_parent s with
  | None => true
  | Some _ => false
  end.

(** Modelled from the spec: the symbols of one file; a file the parser
    rejects contributes none. *)
Definition file_symbols (p data : string) : list Symbol :=
  match parse p data with
  | Some syms => syms
  | None => []
  end.

(** Modelled from the spec: [ContextExtractor.chunk_file_by_symbols]
    emits one chunk per top-level symbol in source order and the gaps
    between them. *)
Definition ContextExtractor_chunk_file_by_symbols (file_path : string) : Eff (list dict) :=
  fun w =>
    let p := joinpath (context_repo_path (context (self w))) file_path in
    match file_data (disk w) p with
    | None => (Raise (NotFound file_path), w)
    | Some data =>
        (Ret (map chunk_to_dict
                (cover file_path (lines_of data) 1
                   (filter is_top_level (file_symbols p data)))),
         w)
    end.

(** Modelled from the spec: [line] falls within the inclusive range of
    the symbol. *)
Definition encloses (line : Z) (s : Symbol) : bool :=
  (sym_start s <=? line) && (line <=? sym_end s).

(** Modelled from the spec: the size of a symbol's range. *)
Definition span (s : Symbol) : Z := sym_end s - sym_start s.

(** Modelled from the spec: the first symbol of smallest span among
    [syms]. *)
Fixpoint smallest (syms : list Symbol) : option Symbol :=
  match syms with
  | [] => None
  | s :: syms' =>
      match smallest syms' with
      | Some t => if span t <? span s then Some t else Some s
      | None => Some s
      end
  end.

(** Modelled from the spec: [ContextExtractor.extract_context_around_line]
    returns null for a line outside the file's bounds, the chunk of the
    smallest enclosing symbol when there is one, and otherwise a fixed
    window centred on the line. *)
Definition ContextExtractor_extract_context_around_line
    (file_path : string) (line : Z) : Eff (option dict) :=
  fun w =>
    let p := joinpath (context_repo_path (context (self w))) file_path in
    match file_data (disk w) p with
    | None => (Raise (NotFound file_path), w)
    | Some data =>
        let lines := lines_of data in
        let n := Z.of_nat (length lines) in
        if (line <? 1) || (n <? line) then (Ret None, w)
        else
          match smallest (filter (encloses line) (file_symbols p data)) with
          | Some s => (Ret (Some (chunk_to_dict (symbol_chunk file_path lines s))), w)
          | None =>
              let a := Z.max 1 (line - context_radius) in
              let b := Z.min n (line + context_radius) in
              (Ret (Some (chunk_to_dict
                            {| chunk_file := file_path; chunk_start := a;
                               chunk_end := b;
                               chunk_content := slice_lines lines a b;
                               chunk_symbol := None |})),
               w)
          end
    end.

(** *** VectorSearcher *)

(** Modelled from the spec: the score of a record against the embedded
    query. *)
Definition score_of (qv : list Q) (r : EmbeddingRecord) : Q :=
  cosine qv (rec_vector r).

(** Modelled from the spec: inserting a record into a ranking kept by
    descending score, behind every record that scores at least as high. *)
Fixpoint insert_ranked (qv : list Q) (r : EmbeddingRecord)
    (ranked : list EmbeddingRecord) : list EmbeddingRecord :=
  match ranked with
  | [] => [r]
  | r' :: ranked' =>
      if Qle_bool (score_of qv r) (score_of qv r')
      then r' :: insert_ranked qv r ranked'
      else r :: ranked
  end.

(** Modelled from the spec: the index ranked by descending score, ties
    in first-indexed order. *)
Definition rank (qv : list Q) (records : list EmbeddingRecord) : list EmbeddingRecord :=
  fold_left (fun ranked r => insert_ranked qv r ranked) records [].

(** Modelled from the spec: the location a search result reports for a
    record. *)
Definition record_hit (r : EmbeddingRecord) : dict :=
  [ ("file", VStr (rec_file r));
    ("line", VInt (rec_start r));
    ("end_line", VInt (rec_end r)) ].

(** Modelled from the spec: constructing a [VectorSearcher] for the
    repository records the embedding function, the backend selector and
    the persistence directory, and starts from an empty index. *)
Definition VectorSearcher_init (embed_fn : EmbedFn)
    (backend persist_dir : option string) : Eff VectorSearcher :=
  fun w =>
    (Ret {| vs_oid := next_oid w;
            vs_repo_path := repo_path (self w);
            vs_embed_fn := embed_fn;
            vs_backend := backend;
            vs_persist_dir := persist_dir;
            vs_index := [] |},
     set_next_oid (S (next_oid w)) w).

(** Modelled from the spec: [VectorSearcher.search] yields an empty
    result for [top_k <= 0]; otherwise it embeds the query, scores every
    record and returns the [top_k] best. *)
Definition VectorSearcher_search (vs : VectorSearcher)
    (query : string) (top_k : Z) : Eff (list dict) :=
  if top_k <=? 0 then ret []
  else
    qv <- lift (vs_embed_fn vs query) ;;
    ret (map record_hit (take (Z.to_nat top_k) (rank qv (vs_index vs)))).

(* =================================================================== *)
(** ** The methods of [Repository]                                      *)
(* =================================================================== *)

(** [Repository.get_file_tree]. *)
Definition get_file_tree : Eff (list dict) := RepoMapper_get_file_tree.

(** [Repository.extract_symbols]: one file on demand, or the per-file
    lists of the repository map appended one after the other. *)
Definition extract_symbols (file_path : option string) : Eff (list value) :=
  match file_path with
  | Some fp => RepoMapper_extract_symbols fp
  | None =>
      repo_map <- RepoMapper_get_repo_map ;;
      items <- lift (Py.items (Py.get_default repo_map "symbols" (VDict []))) ;;
      for_each items []
        (fun all_symbols item =>
           symbols_in_file <- lift (Py.iter (snd item)) ;;
           ret (all_symbols ++ symbols_in_file))
  end.

(** [Repository.search_text]. *)
Definition search_text (query file_pattern : string) : Eff (list dict) :=
  CodeSearcher_search_text query file_pattern.

(** [Repository.get_code_searcher]. *)
Definition get_code_searcher : Eff CodeSearcher :=
  fun w => (Ret (searcher (self w)), w).

(** [Repository.chunk_file_by_lines]. *)
Definition chunk_file_by_lines (file_path : string) (max_lines : Z) : Eff (list string) :=
  ContextExtractor_chunk_file_by_lines file_path max_lines.

(** [Repository.chunk_file_by_symbols]. *)
Definition chunk_file_by_symbols (file_path : string) : Eff (list dict) :=
  ContextExtractor_chunk_file_by_symbols file_path.

(** [Repository.extract_context_around_line]. *)
Definition extract_context_around_line (file_path : string) (line : Z) : Eff (option dict) :=
  ContextExtractor_extract_context_around_line file_path line.

(** [Repository.get_file_content]: [FileNotFoundError] unless the joined
    path is a regular file, [IOError] when reading it as UTF-8 fails (the
    message's tail, the text of the underlying error, is left out). *)
Definition get_file_content (file_path : string) : Eff string :=
  fun w =>
    let full_path := joinpath (local_path (self w)) file_path in
    if negb (is_file (disk w) full_path)
    then (Raise (FileNotFoundError ("File not found in repository: " +:+ file_path)), w)
    else
      match file_data (disk w) full_path ≫= utf8_decode with
      | Some text => (Ret text, w)
      | None => (Raise (IOError ("Error reading file " +:+ file_path)), w)
      end.

(** [Repository.index]: the tree under both keys, then the symbols of
    the repository map. *)
Definition index : Eff dict :=
  tree <- get_file_tree ;;
  repo_map <- RepoMapper_get_repo_map ;;
  symbols <- lift (Py.getitem repo_map "symbols") ;;
  ret [ ("file_tree", VList (map VDict tree));
        ("files", VList (map VDict tree));
        ("symbols", symbols) ].

(** [Repository.get_vector_searcher]: the searcher is constructed and
    stored only while the attribute is [None]; the attribute is returned. *)
Definition get_vector_searcher (embed_fn : option EmbedFn)
    (backend persist_dir : option string) : Eff (option VectorSearcher) :=
  w <- get_world ;;
  match vector_searcher (self w) with
  | None =>
      match embed_fn with
      | None =>
          raise (ValueError
                   "embed_fn must be provided on first use (e.g. OpenAI/HF embedding function)")
      | Some f =>
          vs <- VectorSearcher_init f backend persist_dir ;;
          w' <- get_world ;;
          put_world (set_self (set_vector_searcher (Some vs) (self w')) w')
      end
  | Some _ => ret tt
  end ;;;
  w'' <- get_world ;;
  ret (vector_searcher (self w'')).

(** [Repository.search_semantic]. *)
Definition search_semantic (query : string) (top_k : Z)
    (embed_fn : option EmbedFn) : Eff (list dict) :=
  vs <- get_vector_searcher embed_fn None None ;;
  match vs with
  | Some v => VectorSearcher_search v query top_k
  | None => raise (AttributeError "search")
  end.

(** The body of the inner loop of [find_symbol_usages], for one symbol
    of [file]: [and] and [or] evaluate their right operand only when
    needed. *)
Definition usages_in_file (symbol_name : string) (symbol_type : option string)
    (file : string) (usages : list dict) (sym : value) : Eff (list dict) :=
  name <- lift (Py.subscript sym "name") ;;
  matches <-
    (if Py.eq_str name symbol_name then
       match symbol_type with
       | None => ret true
       | Some ty => t <- lift (Py.subscript sym "type") ;; ret (Py.eq_str t ty)
       end
     else ret false) ;;
  if matches : bool then
    ty <- lift (Py.subscript sym "type") ;;
    nm <- lift (Py.subscript sym "name") ;;
    match sym with
    | VDict d =>
        ret (usages ++ [ [ ("file", VStr file);
                           ("type", ty);
                           ("name", nm);
                           ("line", Py.get d "line");
                           ("context", Py.get d "context") ] ])
    | _ => raise (AttributeError "get")
    end
  else ret usages.

(** The entry [find_symbol_usages] appends for a text-search hit. *)
Definition usage_of_hit (hit : dict) : dict :=
  [ ("file", Py.get hit "file");
    ("line", Py.get hit "line");
    ("context", Py.or_ (Py.or_ (Py.get hit "line_content") (Py.get hit "line")) (VStr "")) ].

(** [Repository.find_symbol_usages]: the matching symbols of the
    repository map, then the hits of a text search for the name. *)
Definition find_symbol_usages (symbol_name : string)
    (symbol_type : option string) : Eff (list dict) :=
  repo_map <- RepoMapper_get_repo_map ;;
  by_file <- lift (Py.getitem repo_map "symbols") ;;
  items <- lift (Py.items by_file) ;;
  usages <-
    for_each items []
      (fun usages item =>
         symbols <- lift (Py.iter (snd item)) ;;
         for_each symbols usages (usages_in_file symbol_name symbol_type (fst item))) ;;
  text_hits <- CodeSearcher_search_text symbol_name "*" ;;
  for_each text_hits usages (fun usages hit => ret (usages ++ [usage_of_hit hit])).

(** Whatever else makes the operating system refuse to create or
    truncate the file at a path of the disk (permissions, a read-only or
    full file system): the exception [open] raises then. *)
Variable os_refuses : gmap string FsNode -> string -> option exn.

(** [open(file_path, "w")]: the path is resolved from the working
    directory; where it leads to a file, or to a free name in a
    directory, and the operating system does not refuse, the file is
    created or truncated. *)
Definition open_w (file_path : string) : Eff string :=
  fun w =>
    match open_target (disk w) (cwd w) file_path with
    | Ret p =>
        match os_refuses (disk w) p with
        | Some e => (Raise e, w)
        | None => (Ret p, set_disk (<[p := RegularFile ""]> (disk w)) w)
        end
    | Raise e => (Raise e, w)
    end.

(** [json.dump(v, f, indent=2)] followed by closing [f]. *)
Definition json_dump (v : value) (p : string) : Eff unit :=
  fun w => (Ret tt, set_disk (<[p := RegularFile (json_dumps v)]> (disk w)) w).

(** [Repository.write_index]: the file is opened before the index is
    built. *)
Definition write_index (file_path : string) : Eff unit :=
  f <- open_w file_path ;;
  idx <- index ;;
  json_dump (VDict idx) f.

(** The list [write_symbols] serialises: the given one, or the per-file
    lists of [index()] flattened. *)
Definition symbols_to_write (symbols : option (list value)) : Eff (list value) :=
  match symbols with
  | Some l => ret l
  | None =>
      idx <- index ;;
      by_file <- lift (Py.getitem idx "symbols") ;;
      vals <- lift (Py.values by_file) ;;
      for_each vals []
        (fun acc file_syms => ss <- lift (Py.iter file_syms) ;; ret (acc ++ ss))
  end.

(** [Repository.write_symbols]: the list is computed before the file is
    opened. *)
Definition write_symbols (file_path : string) (symbols : option (list value)) : Eff unit :=
  syms <- symbols_to_write symbols ;;
  f <- open_w file_path ;;
  json_dump (VList syms) f.

(** [Repository.write_file_tree]. *)
Definition write_file_tree (file_path : string) : Eff unit :=
  f <- open_w file_path ;;
  tree <- get_file_tree ;;
  json_dump (VList (map VDict tree)) f.

(** [Repository.write_symbol_usages]. *)
Definition write_symbol_usages (symbol_name file_path : string)
    (symbol_type : option string) : Eff unit :=
  usages <- find_symbol_usages symbol_name symbol_type ;;
  f <- open_w file_path ;;
  json_dump (VList (map VDict usages)) f.

(* =================================================================== *)
(** ** Vocabulary of the statements                                      *)
(* =================================================================== *)

(** The repository map a call sees: the cached one, or the result of the
    full scan that the first use triggers. *)
Definition current_map (w : World) : RepoMap :=
  match mapper_cache (mapper (self w)) with
  | Some rm => rm
  | None => scan_repo (mapper_repo_path (mapper (self w))) (in_scope w) (disk w)
  end.

(** The world with the repository map memoised. *)
Definition memoised (w : World) : World :=
  match mapper_cache (mapper (self w)) with
  | Some _ => w
  | None =>
      set_self
        (set_mapper
           {| mapper_repo_path := mapper_repo_path (mapper (self w));
              mapper_cache := Some (current_map w) |}
           (self w))
        w
  end.

(** All symbols of a repository map, file after file in the map's order. *)
Definition all_symbols (rm : RepoMap) : list value :=
  flat_map (fun fs => map symbol_value (snd fs)) rm.

(** The attributes a repository built by [__init__] agrees on: every
    collaborator is rooted at the repository's own path. *)
Definition rooted (r : Repository) : Prop :=
  repo_path r = local_path r
  /\ mapper_repo_path (mapper r) = local_path r
  /\ searcher_repo_path (searcher r) = local_path r
  /\ context_repo_path (context r) = local_path r.

(** Whether [find_symbol_usages] selects a symbol. *)
Definition symbol_matches (symbol_name : string) (symbol_type : option string)
    (s : Symbol) : bool :=
  String.eqb (sym_name s) symbol_name
  && match symbol_type with
     | None => true
     | Some ty => String.eqb (sym_kind s) ty
     end.

(** The usage entry of a selected symbol of [file]. *)
Definition symbol_usage (file : string) (s : Symbol) : dict :=
  [ ("file", VStr file);
    ("type", VStr (sym_kind s));
    ("name", VStr (sym_name s));
    ("line", VInt (sym_start s));
    ("context", opt_str (sym_context s)) ].

(** The usage entries derived from a repository map. *)
Definition map_usages (symbol_name : string) (symbol_type : option string)
    (rm : RepoMap) : list dict :=
  flat_map
    (fun fs => map (symbol_usage (fst fs))
                 (filter (symbol_matches symbol_name symbol_type) (snd fs)))
    rm.

(** The hits of a text search in a world. *)
Definition text_hits (query file_pattern : string) (w : World) : list dict :=
  search_files (searcher_repo_path (searcher (self w))) (in_scope w) (disk w)
    query file_pattern.

(** Two worlds that hold the same snapshot for a text search: the same
    root, the same in-scope listing and, under the root, the same
    contents, or absence, of every listed file.  They may differ in
    everything else: other files, the working directory, the caches. *)
Definition same_snapshot (w1 w2 : World) : Prop :=
  searcher_repo_path (searcher (self w1)) = searcher_repo_path (searcher (self w2))
  /\ in_scope w1 = in_scope w2
  /\ Forall (fun rel =>
               file_data (disk w1) (joinpath (searcher_repo_path (searcher (self w1))) rel)
               = file_data (disk w2) (joinpath (searcher_repo_path (searcher (self w1))) rel))
       (in_scope w1).

(** The line number a hit carries. *)
Definition line_of (hit : dict) : Z :=
  match Py.get hit "line" with
  | VInt n => n
  | _ => 0
  end.

(** Hits in the order of the snapshot: file by file in the order of the
    listing and, within a file, by ascending line number. *)
Definition in_snapshot_order (files : list string) (hits : list dict) : Prop :=
  exists per_file,
    hits = concat per_file
    /\ Forall2 (fun rel hs =>
                  Forall (fun h => Py.get h "file" = VStr rel) hs
                  /\ StronglySorted Z.lt (map line_of hs))
         files per_file.

(** The file tree of a world. *)
Definition file_tree_value (w : World) : value :=
  VList (map VDict
           (build_file_tree (mapper_repo_path (mapper (self w))) (in_scope w) (disk w))).

(** The symbol mapping of a repository map as a Python object. *)
Definition symbols_dict (rm : RepoMap) : value :=
  VDict (map (fun fs => (fst fs, symbols_value (snd fs))) rm).

(** The field names the design document lists for symbols and usages. *)
Definition usage_fields : list string := ["file"; "type"; "name"; "line"; "context"].

(** The field names of a usage derived from a text-search hit. *)
Definition hit_usage_fields : list string := ["file"; "line"; "context"].

(** [d] has an item for each of the keys [ks]. *)
Definition has_fields (ks : list string) (d : dict) : bool :=
  forallb (fun k => match Py.lookup_item k d with Some _ => true | None => false end) ks.

(** The object [get_vector_searcher] constructs on first use in [w]. *)
Definition built_searcher (f : EmbedFn) (backend persist_dir : option string)
    (w : World) : VectorSearcher :=
  {| vs_oid := next_oid w;
     vs_repo_path := repo_path (self w);
     vs_embed_fn := f;
     vs_backend := backend;
     vs_persist_dir := persist_dir;
     vs_index := [] |}.

(** The world after [vs] has been constructed and stored in [self]. *)
Definition with_searcher (vs : VectorSearcher) (w : World) : World :=
  set_self (set_vector_searcher (Some vs) (self w)) (set_next_oid (S (next_oid w)) w).

(** The message of the [ValueError] raised when no embedding function is
    given on first use. *)
Definition embed_fn_required : string :=
  "embed_fn must be provided on first use (e.g. OpenAI/HF embedding function)".

(** The number of lines of a chunk. *)
Definition chunk_lines (c : Chunk) : Z := chunk_end c - chunk_start c + 1.

(** Chunks that tile the lines [start..stop]: each chunk is non-empty and
    begins on the line after the one its predecessor ends on, the first
    begins on [start] and the last ends on [stop]. *)
Fixpoint tiles (start : Z) (cs : list Chunk) (stop : Z) : Prop :=
  match cs with
  | [] => start = stop + 1
  | c :: cs' =>
      chunk_start c = start
      /\ chunk_start c <= chunk_end c
      /\ tiles (chunk_end c + 1) cs' stop
  end.

(** The line range of a chunk. *)
Definition chunk_range (c : Chunk) : Z * Z := (chunk_start c, chunk_end c).

(** A text without line feed. *)
Fixpoint no_lf (s : string) : bool :=
  match s with
  | EmptyString => true
  | String c s' => negb (Ascii.eqb c LF) && no_lf s'
  end.

(** A complete line: a text without line feed followed by one line feed. *)
Fixpoint terminated (s : string) : bool :=
  match s with
  | EmptyString => false
  | String c s' =>
      if Ascii.eqb c LF
      then match s' with EmptyString => true | String _ _ => false end
      else terminated s'
  end.

(** The last line of a text that does not end in a line feed. *)
Definition open_line (s : string) : bool :=
  no_lf s && match s with EmptyString => false | String _ _ => true end.

(** A list of lines as [lines_of] yields them: complete lines, the last
    one possibly open. *)
Fixpoint proper_lines (ls : list string) : bool :=
  match ls with
  | [] => true
  | l :: ls' =>
      match ls' with
      | [] => terminated l || open_line l
      | _ :: _ => terminated l && proper_lines ls'
      end
  end.

(** The calls a client can make on a repository object.  The git
    properties, [__str__], [get_abs_path] and the factories for the
    summarizer, the context assembler and the dependency analyzer are not
    among them: they run git or construct objects of modules that the
    design document places outside the core. *)
Inductive Call : Type :=
| call_get_file_tree
| call_extract_symbols (file_path : option string)
| call_search_text (query file_pattern : string)
| call_get_code_searcher
| call_chunk_file_by_lines (file_path : string) (max_lines : Z)
| call_chunk_file_by_symbols (file_path : string)
| call_extract_context_around_line (file_path : string) (line : Z)
| call_get_file_content (file_path : string)
| call_index
| call_get_vector_searcher (embed_fn : option EmbedFn) (backend persist_dir : option string)
| call_search_semantic (query : string) (top_k : Z) (embed_fn : option EmbedFn)
| call_find_symbol_usages (symbol_name : string) (symbol_type : option string)
| call_write_index (file_path : string)
| call_write_symbols (file_path : string) (symbols : option (list value))
| call_write_file_tree (file_path : string)
| call_write_symbol_usages (symbol_name file_path : string) (symbol_type : option string).

(** The world a computation leaves behind, whether it returns or raises. *)
Definition effect {A} (m : Eff A) (w : World) : World := snd (m w).

Definition perform (c : Call) : World -> World :=
  match c with
  | call_get_file_tree => effect get_file_tree
  | call_extract_symbols fp => effect (extract_symbols fp)
  | call_search_text q pat => effect (search_text q pat)
  | call_get_code_searcher => effect get_code_searcher
  | call_chunk_file_by_lines fp n => effect (chunk_file_by_lines fp n)
  | call_chunk_file_by_symbols fp => effect (chunk_file_by_symbols fp)
  | call_extract_context_around_line fp l => effect (extract_context_around_line fp l)
  | call_get_file_content fp => effect (get_file_content fp)
  | call_index => effect index
  | call_get_vector_searcher e b p => effect (get_vector_searcher e b p)
  | call_search_semantic q k e => effect (search_semantic q k e)
  | call_find_symbol_usages n t => effect (find_symbol_usages n t)
  | call_write_index fp => effect (write_index fp)
  | call_write_symbols fp syms => effect (write_symbols fp syms)
  | call_write_file_tree fp => effect (write_file_tree fp)
  | call_write_symbol_usages n fp t => effect (write_symbol_usages n fp t)
  end.

(** A client session: calls performed one after the other. *)
Definition session (calls : list Call) (w : World) : World :=
  fold_left (fun w' c => perform c w') calls w.

(** A computation that leaves a view of the world as it found it,
    whether it returns or raises. *)
Definition preserves {T A} (view : World -> T) (m : Eff A) : Prop :=
  forall w, view (snd (m w)) = view w.

(** A computation that changes nothing at all. *)
Definition unchanged {A} (m : Eff A) : Prop :=
  forall w, snd (m w) = w.

(** The [vector_searcher] attribute of the repository object. *)
Definition searcher_slot (w : World) : option VectorSearcher :=
  vector_searcher (self w).

(** The root paths held by the repository object and its collaborators. *)
Definition roots_view (w : World) : string * string * string * string * string :=
  (local_path (self w), repo_path (self w), mapper_repo_path (mapper (self w)),
   searcher_repo_path (searcher (self w)), context_repo_path (context (self w))).

(** The calls that write a file. *)
Definition writes (c : Call) : bool :=
  match c with
  | call_write_index _ | call_write_symbols _ _
  | call_write_file_tree _ | call_write_symbol_usages _ _ _ => true
  | _ => false
  end.

(* =================================================================== *)
(** ** The git helpers, [__str__] and [__init__]                         *)
(* =================================================================== *)

(** The operating system running a command in a directory over a disk:
    the completed process, or the exception raised when the program
    cannot be started, and the disk it leaves. *)
Variable subprocess_run :
  list string -> string -> gmap string FsNode ->
  outcome CompletedProcess * gmap string FsNode.

(** [urlparse(url).path]. *)
Variable urlparse_path : string -> string.

(** [Repository._clone_github_repo], whose cache management and cloning
    are not embedded: it returns the path of the clone. *)
Variable clone_github_repo :
  string -> option string -> option string -> option string -> Eff string.

(** [subprocess.run(cmd, cwd=cwd, capture_output=True, text=True,
    check=False)]. *)
Definition run_unchecked (cmd : list string) (dir : string) : Eff CompletedProcess :=
  fun w =>
    match subprocess_run cmd dir (disk w) with
    | (Ret p, d) => (Ret p, set_disk d w)
    | (Raise e, d) => (Raise e, set_disk d w)
    end.

(** [subprocess.run(..., check=True)]. *)
Definition run_checked (cmd : list string) (dir : string) : Eff run_result :=
  p <- run_unchecked cmd dir ;;
  ret (if returncode p =? 0 then Completed p else CalledProcessError p).

(** [git_dir.exists() and git_dir.is_dir()] for [git_dir = root / ".git"]. *)
Definition has_git_dir (root : string) (w : World) : bool :=
  let git_dir := joinpath root ".git" in
  path_exists (disk w) git_dir && is_dir (disk w) git_dir.

(** [Repository._git_command]. *)
Definition _git_command (cmd : list string) : Eff (option string) :=
  w <- get_world ;;
  if negb (has_git_dir (local_path (self w)) w) then ret None
  else
    result <- run_checked cmd (repo_path (self w)) ;;
    match result with
    | Completed p =>
        ret (if nonempty (stdout p) then Some (strip (stdout p)) else None)
    | CalledProcessError _ => ret None
    end.

(** [Repository.current_sha]. *)
Definition current_sha : Eff (option string) :=
  _git_command ["git"; "rev-parse"; "HEAD"].

(** [Repository.current_sha_short]. *)
Definition current_sha_short : Eff (option string) :=
  _git_command ["git"; "rev-parse"; "--short"; "HEAD"].

(** [Repository.current_branch]. *)
Definition current_branch : Eff (option string) :=
  branch <- _git_command ["git"; "rev-parse"; "--abbrev-ref"; "HEAD"] ;;
  ret (match branch with
       | Some b => if nonempty b && negb (String.eqb b "HEAD") then Some b else None
       | None => None
       end).

(** [Repository.remote_url]. *)
Definition remote_url : Eff (option string) :=
  _git_command ["git"; "config"; "--get"; "remote.origin.url"].

(** [result.split("\n") if result else []]. *)
Definition lines_or_nothing (result : option string) : list string :=
  match result with
  | Some r => if nonempty r then split_on LF r else []
  | None => []
  end.

(** [Repository.tags]. *)
Definition tags : Eff (list string) :=
  result <- _git_command ["git"; "tag"; "--list"] ;;
  ret (lines_or_nothing result).

(** [Repository.branches]. *)
Definition branches : Eff (list string) :=
  result <- _git_command ["git"; "branch"; "--format=%(refname:short)"] ;;
  ret (lines_or_nothing result).

(** [Repository.is_dirty]: [bool(result and result.strip())]. *)
Definition is_dirty : Eff bool :=
  result <- _git_command ["git"; "status"; "--porcelain"] ;;
  ret (match result with
       | Some r => if nonempty r then nonempty (strip r) else false
       | None => false
       end).

(** The text [__str__] formats. *)
Definition repository_text (path_info ref_info : string) (file_count : nat) : string :=
  "<Repository path='" +:+ path_info +:+ "'" +:+ ref_info
  +:+ ", files: " +:+ pretty file_count +:+ ">".

(** The [try] block of [__str__]: the branch when on one, the short
    commit otherwise, nothing when git reports neither. *)
Definition describe_ref (dir : string) : Eff string :=
  branch_result <- run_unchecked ["git"; "rev-parse"; "--abbrev-ref"; "HEAD"] dir ;;
  if (returncode branch_result =? 0)
     && negb (String.eqb (strip (stdout branch_result)) "HEAD")
  then ret (", branch: " +:+ strip (stdout branch_result))
  else
    sha_result <- run_unchecked ["git"; "rev-parse"; "--short"; "HEAD"] dir ;;
    if returncode sha_result =? 0
    then ret (", commit: " +:+ strip (stdout sha_result))
    else ret "".

(** [Repository.__str__]: any exception of the [try] block is swallowed
    and leaves the reference information empty. *)
Definition __str__ : Eff string :=
  tree <- get_file_tree ;;
  w <- get_world ;;
  ref_info <-
    (if has_git_dir (local_path (self w)) w
     then try_except (describe_ref (repo_path (self w))) (fun _ => ret "")
     else ret "") ;;
  ret (repository_text (repo_path (self w)) ref_info (length tree)).

(** The body of [Repository._checkout_ref] for a repository rooted at
    [root]: [__init__] runs it when only [local_path] is set. *)
Definition checkout_ref_at (root ref : string) : Eff unit :=
  w <- get_world ;;
  if negb (has_git_dir root w)
  then raise (ValueError ("Cannot checkout ref '" +:+ ref +:+ "': not a git repository"))
  else
    run_unchecked ["git"; "fetch"; "origin"; ref] root ;;;
    result <- run_checked ["git"; "checkout"; ref] root ;;
    match result with
    | Completed _ => ret tt
    | CalledProcessError p =>
        raise (ValueError ("Failed to checkout ref '" +:+ ref +:+ "': " +:+ stderr p))
    end.

(** [Repository._checkout_ref]. *)
Definition _checkout_ref (ref : string) : Eff unit :=
  w <- get_world ;;
  checkout_ref_at (local_path (self w)) ref.

(** Whether [__init__] takes its argument for a remote repository. *)
Definition is_remote (path_or_url : string) : bool :=
  String.prefix "http://" path_or_url || String.prefix "https://" path_or_url.

(** [Repository.__init__]: the object it constructs.  A remote
    repository is cloned; a local one is taken at its absolute path and,
    when a ref is given, checked out there. *)
Definition __init__ (path_or_url : string)
    (github_token cache_dir ref : option string) : Eff Repository :=
  root <-
    (if is_remote path_or_url
     then clone_github_repo path_or_url github_token cache_dir ref
     else
       w <- get_world ;;
       let root := joinpath (cwd w) path_or_url in
       match ref with
       | Some r => if nonempty r then checkout_ref_at root r else ret tt
       | None => ret tt
       end ;;;
       ret root) ;;
  ret {| ref := ref;
         local_path := root;
         repo_path := root;
         mapper := {| mapper_repo_path := root; mapper_cache := None |};
         searcher := {| searcher_repo_path := root |};
         context := {| context_repo_path := root |};
         vector_searcher := None |}.

(** The name of the cache directory [_clone_github_repo] computes for a
    URL and a ref (its first statements). *)
Definition clone_cache_name (url : string) (ref : option string) : string :=
  let repo_name :=
    replace_char "/" "-" (strip_with (Ascii.eqb "/") (urlparse_path url)) in
  match ref with
  | Some r => if nonempty r then repo_name +:+ "-" +:+ replace_char "/" "-" r else repo_name
  | None => repo_name
  end.

(** The object [__init__] constructs for a root and a ref. *)
Definition constructed (root : string) (r : option string) : Repository :=
  {| ref := r;
     local_path := root;
     repo_path := root;
     mapper := {| mapper_repo_path := root; mapper_cache := None |};
     searcher := {| searcher_repo_path := root |};
     context := {| context_repo_path := root |};
     vector_searcher := None |}.

(** What opening [file_path] for writing comes to in a world: the
    canonical path of the file created or truncated, or the exception
    raised. *)
Definition opening (file_path : string) (w : World) : outcome string :=
  match open_target (disk w) (cwd w) file_path with
  | Ret p =>
      match os_refuses (disk w) p with
      | Some e => Raise e
      | None => Ret p
      end
  | Raise e => Raise e
  end.

(** The calls that may construct the vector searcher, whose persistent
    backend is outside this development. *)
Definition builds_searcher (c : Call) : bool :=
  match c with
  | call_get_vector_searcher _ _ _ | call_search_semantic _ _ _ => true
  | _ => false
  end.

(** The world once [path] has been opened for writing: the file is
    there and empty. *)
Definition truncated (path : string) (w : World) : World :=
  set_disk (<[path := RegularFile ""]> (disk w)) w.

(** The world once [content] has been written to [path]. *)
Definition written (path content : string) (w : World) : World :=
  set_disk (<[path := RegularFile content]> (disk w)) w.

(** The dictionary [index] returns in a world. *)
Definition index_dict (w : World) : dict :=
  [ ("file_tree", file_tree_value w);
    ("files", file_tree_value w);
    ("symbols", symbols_dict (current_map w)) ].

(** The list [find_symbol_usages] returns in a world. *)
Definition usages_of (symbol_name : string) (symbol_type : option string)
    (w : World) : list dict :=
  map_usages symbol_name symbol_type (current_map w)
  ++ map usage_of_hit (text_hits symbol_name "*" w).

(** The path a [write_*] call opens, for the calls that write. *)
Definition write_target (c : Call) : option string :=
  match c with
  | call_write_index fp | call_write_symbols fp _
  | call_write_file_tree fp | call_write_symbol_usages _ fp _ => Some fp
  | _ => None
  end.

(* =================================================================== *)
(** ** Facts about the repository map                                    *)
(* =================================================================== *)

Lemma get_repo_map_runs (w : World) :
  RepoMapper_get_repo_map w = (Ret (repo_map_dict (current_map w)), memoised w).
Proof.
  unfold RepoMapper_get_repo_map, memoised. unfold current_map.
  destruct (mapper_cache (mapper (self w))); reflexivity.
Qed.

Lemma memoised_cache (w : World) :
  mapper_cache (mapper (self (memoised w))) = Some (current_map w).
Proof.
  unfold memoised. unfold current_map.
  destruct (mapper_cache (mapper (self w))) eqn:E; simpl; [exact E | reflexivity].
Qed.

Lemma memoised_idem (w : World) : memoised (memoised w) = memoised w.
Proof.
  unfold memoised at 1. rewrite memoised_cache. reflexivity.
Qed.

(** The [extend] loop of [extract_symbols] over the items of the symbol
    mapping appends each file's symbols to what was collected so far. *)
Lemma extend_loop (rm : RepoMap) (acc : list value) (w : World) :
  for_each (map (fun fs => (fst fs, symbols_value (snd fs))) rm) acc
    (fun all item =>
       symbols_in_file <- lift (Py.iter (snd item)) ;;
       ret (all ++ symbols_in_file)) w
  = (Ret (acc ++ all_symbols rm), w).
Proof.
  revert acc. induction rm as [| [f syms] rm IH]; intros acc.
  - simpl. unfold ret. rewrite app_nil_r. reflexivity.
  - simpl. unfold bind at 1. simpl. rewrite IH.
    unfold all_symbols. simpl. rewrite app_assoc. reflexivity.
Qed.

Lemma extract_symbols_whole (w : World) :
  extract_symbols None w = (Ret (all_symbols (current_map w)), memoised w).
Proof.
  unfold extract_symbols, bind. rewrite get_repo_map_runs. simpl.
  apply extend_loop.
Qed.

Lemma extract_symbols_single (fp : string) (w : World) :
  extract_symbols (Some fp) w =
  (match file_data (disk w) (joinpath (mapper_repo_path (mapper (self w))) fp) with
   | Some data =>
       Ret (map symbol_value
              (file_symbols (joinpath (mapper_repo_path (mapper (self w))) fp) data))
   | None => Raise (NotFound fp)
   end, w).
Proof.
  unfold extract_symbols, RepoMapper_extract_symbols, file_symbols.
  destruct (file_data _ _) as [data |]; [| reflexivity].
  destruct (parse _ data); reflexivity.
Qed.

(** The comprehension of [write_symbols] over the values of the symbol
    mapping collects the same lists in the same order. *)
Lemma values_loop (rm : RepoMap) (acc : list value) (w : World) :
  for_each (map snd (map (fun fs => (fst fs, symbols_value (snd fs))) rm)) acc
    (fun collected file_syms =>
       ss <- lift (Py.iter file_syms) ;;
       ret (collected ++ ss)) w
  = (Ret (acc ++ all_symbols rm), w).
Proof.
  revert acc. induction rm as [| [f syms] rm IH]; intros acc.
  - simpl. unfold ret. rewrite app_nil_r. reflexivity.
  - simpl. unfold bind at 1. simpl. rewrite IH.
    unfold all_symbols. simpl. rewrite app_assoc. reflexivity.
Qed.

Lemma memoised_same_listing (w : World) :
  disk (memoised w) = disk w
  /\ in_scope (memoised w) = in_scope w
  /\ cwd (memoised w) = cwd w
  /\ next_oid (memoised w) = next_oid w
  /\ searcher (self (memoised w)) = searcher (self w)
  /\ context (self (memoised w)) = context (self w)
  /\ local_path (self (memoised w)) = local_path (self w)
  /\ vector_searcher (self (memoised w)) = vector_searcher (self w)
  /\ mapper_repo_path (mapper (self (memoised w))) = mapper_repo_path (mapper (self w)).
Proof.
  unfold memoised. destruct (mapper_cache (mapper (self w))); simpl;
    repeat split; reflexivity.
Qed.

Lemma index_runs (w : World) :
  index w =
  (Ret [ ("file_tree", file_tree_value w);
         ("files", file_tree_value w);
         ("symbols", symbols_dict (current_map w)) ],
   memoised w).
Proof.
  unfold index, bind, get_file_tree, RepoMapper_get_file_tree.
  rewrite get_repo_map_runs. reflexivity.
Qed.

Lemma symbols_to_write_runs (w : World) :
  symbols_to_write None w = (Ret (all_symbols (current_map w)), memoised w).
Proof.
  unfold symbols_to_write, bind. rewrite index_runs. simpl.
  apply values_loop.
Qed.

(* =================================================================== *)
(** ** Facts about [find_symbol_usages]                                  *)
(* =================================================================== *)

Lemma usages_in_file_runs (name : string) (ty : option string) (file : string)
    (usages : list dict) (s : Symbol) (w : World) :
  usages_in_file name ty file usages (symbol_value s) w =
  (Ret (usages ++ if symbol_matches name ty s then [symbol_usage file s] else []), w).
Proof.
  unfold usages_in_file, symbol_matches, symbol_usage, bind, lift, ret. simpl.
  destruct (String.eqb (sym_name s) name); simpl.
  - destruct ty as [t |]; simpl.
    + destruct (String.eqb (sym_kind s) t); simpl;
        [reflexivity | rewrite app_nil_r; reflexivity].
    + reflexivity.
  - rewrite app_nil_r. reflexivity.
Qed.

Lemma symbols_loop (name : string) (ty : option string) (file : string)
    (syms : list Symbol) (usages : list dict) (w : World) :
  for_each (map symbol_value syms) usages (usages_in_file name ty file) w =
  (Ret (usages ++ map (symbol_usage file) (filter (symbol_matches name ty) syms)), w).
Proof.
  revert usages. induction syms as [| s syms IH]; intros usages.
  - simpl. unfold ret. rewrite app_nil_r. reflexivity.
  - cbn [map for_each]. unfold bind at 1. rewrite usages_in_file_runs.
    rewrite IH. rewrite filter_cons.
    destruct (symbol_matches name ty s) eqn:E.
    + rewrite decide_True by exact I.
      cbn [map]. rewrite <- app_assoc. reflexivity.
    + rewrite decide_False by exact id.
      rewrite app_nil_r. reflexivity.
Qed.

Lemma files_loop (name : string) (ty : option string) (rm : RepoMap)
    (usages : list dict) (w : World) :
  for_each (map (fun fs => (fst fs, symbols_value (snd fs))) rm) usages
    (fun acc item =>
       symbols <- lift (Py.iter (snd item)) ;;
       for_each symbols acc (usages_in_file name ty (fst item))) w
  = (Ret (usages ++ map_usages name ty rm), w).
Proof.
  revert usages. induction rm as [| [f syms] rm IH]; intros usages.
  - simpl. unfold ret. rewrite app_nil_r. reflexivity.
  - cbn [map for_each fst snd]. unfold bind at 1.
    unfold bind at 1. cbn [lift symbols_value Py.iter].
    rewrite symbols_loop. rewrite IH.
    unfold map_usages. cbn [flat_map fst snd]. rewrite <- app_assoc. reflexivity.
Qed.

Lemma hits_loop (hits : list dict) (usages : list dict) (w : World) :
  for_each hits usages (fun acc hit => ret (acc ++ [usage_of_hit hit])) w =
  (Ret (usages ++ map usage_of_hit hits), w).
Proof.
  revert usages. induction hits as [| h hits IH]; intros usages.
  - simpl. unfold ret. rewrite app_nil_r. reflexivity.
  - cbn [for_each map]. unfold bind at 1, ret at 1. rewrite IH.
    rewrite <- app_assoc. reflexivity.
Qed.

Lemma text_hits_memoised (q pat : string) (w : World) :
  text_hits q pat (memoised w) = text_hits q pat w.
Proof.
  unfold text_hits.
  destruct (memoised_same_listing w) as (-> & -> & _ & _ & -> & _).
  reflexivity.
Qed.

Lemma getitem_symbols (rm : RepoMap) :
  Py.getitem (repo_map_dict rm) "symbols" = Ret (symbols_dict rm).
Proof. reflexivity. Qed.

Lemma find_symbol_usages_runs (name : string) (ty : option string) (w : World) :
  find_symbol_usages name ty w =
  (Ret (map_usages name ty (current_map w) ++ map usage_of_hit (text_hits name "*" w)),
   memoised w).
Proof.
  unfold find_symbol_usages. unfold bind at 1. rewrite get_repo_map_runs.
  unfold bind at 1, lift at 1. rewrite getitem_symbols.
  unfold bind at 1, lift at 1. cbn [symbols_dict Py.items].
  unfold bind at 1. rewrite files_loop. cbn [app].
  unfold bind at 1, CodeSearcher_search_text.
  fold (text_hits name "*" (memoised w)). rewrite text_hits_memoised.
  apply hits_loop.
Qed.

Lemma symbol_usage_keys (file : string) (s : Symbol) :
  Py.keys (symbol_usage file s) = usage_fields.
Proof. reflexivity. Qed.

Lemma usage_of_hit_keys (hit : dict) :
  Py.keys (usage_of_hit hit) = hit_usage_fields.
Proof. reflexivity. Qed.

(* =================================================================== *)
(** ** Facts about the vector searcher                                   *)
(* =================================================================== *)

Lemma get_vector_searcher_cached (w : World) (vs : VectorSearcher)
    (e : option EmbedFn) (b p : option string) :
  vector_searcher (self w) = Some vs ->
  get_vector_searcher e b p w = (Ret (Some vs), w).
Proof.
  intros H. unfold get_vector_searcher, bind, get_world. rewrite H. simpl.
  rewrite H. reflexivity.
Qed.

Lemma get_vector_searcher_unconfigured (w : World) (b p : option string) :
  vector_searcher (self w) = None ->
  get_vector_searcher None b p w = (Raise (ValueError embed_fn_required), w).
Proof.
  intros H. unfold get_vector_searcher, bind, get_world. rewrite H. reflexivity.
Qed.

Lemma get_vector_searcher_first (w : World) (f : EmbedFn) (b p : option string) :
  vector_searcher (self w) = None ->
  get_vector_searcher (Some f) b p w =
  (Ret (Some (built_searcher f b p w)), with_searcher (built_searcher f b p w) w).
Proof.
  intros H. unfold get_vector_searcher, bind, get_world. rewrite H. reflexivity.
Qed.

Lemma search_leaves_world (vs : VectorSearcher) (q : string) (k : Z) (w : World) :
  snd (VectorSearcher_search vs q k w) = w.
Proof.
  unfold VectorSearcher_search. destruct (k <=? 0); [reflexivity |].
  unfold bind, lift, ret. destruct (vs_embed_fn vs q); reflexivity.
Qed.

Lemma search_nonpositive (vs : VectorSearcher) (q : string) (k : Z) (w : World) :
  k <= 0 -> VectorSearcher_search vs q k w = (Ret [], w).
Proof.
  intros H. unfold VectorSearcher_search.
  destruct (Z.leb_spec k 0); [reflexivity | lia].
Qed.

(* =================================================================== *)
(** ** Frame lemmas: what each method leaves alone                       *)
(* =================================================================== *)

Lemma preserves_ret {T A} (view : World -> T) (a : A) : preserves view (ret a).
Proof. intros w. reflexivity. Qed.

Lemma preserves_raise {T A} (view : World -> T) (e : exn) : preserves view (@raise A e).
Proof. intros w. reflexivity. Qed.

Lemma preserves_lift {T A} (view : World -> T) (o : outcome A) : preserves view (lift o).
Proof. intros w. reflexivity. Qed.

Lemma preserves_get_world {T} (view : World -> T) : preserves view get_world.
Proof. intros w. reflexivity. Qed.

Lemma preserves_bind {T A B} (view : World -> T) (m : Eff A) (k : A -> Eff B) :
  preserves view m -> (forall a, preserves view (k a)) -> preserves view (bind m k).
Proof.
  intros Hm Hk w. unfold bind. specialize (Hm w).
  destruct (m w) as [[a | e] w']; simpl in Hm |- *.
  - rewrite Hk. exact Hm.
  - exact Hm.
Qed.

Lemma preserves_for_each {T A B} (view : World -> T) (xs : list A)
    (body : B -> A -> Eff B) :
  (forall acc x, preserves view (body acc x)) ->
  forall acc, preserves view (for_each xs acc body).
Proof.
  intros Hbody. induction xs as [| x xs IH]; intros acc; simpl.
  - apply preserves_ret.
  - apply preserves_bind; [apply Hbody | intros a; apply IH].
Qed.

Lemma unchanged_preserves {T A} (view : World -> T) (m : Eff A) :
  unchanged m -> preserves view m.
Proof. intros H w. rewrite H. reflexivity. Qed.

(** The collaborators' read-only methods change nothing. *)

Lemma unchanged_get_file_tree : unchanged get_file_tree.
Proof. intros w. reflexivity. Qed.

Lemma unchanged_mapper_extract (fp : string) : unchanged (RepoMapper_extract_symbols fp).
Proof.
  intros w. unfold RepoMapper_extract_symbols.
  destruct (file_data _ _) as [data |]; [| reflexivity].
  destruct (parse _ data); reflexivity.
Qed.

Lemma unchanged_search_text (q pat : string) : unchanged (CodeSearcher_search_text q pat).
Proof. intros w. reflexivity. Qed.

Lemma unchanged_get_code_searcher : unchanged get_code_searcher.
Proof. intros w. reflexivity. Qed.

Lemma unchanged_chunk_by_lines (fp : string) (n : Z) :
  unchanged (ContextExtractor_chunk_file_by_lines fp n).
Proof.
  intros w. unfold ContextExtractor_chunk_file_by_lines.
  destruct (file_data _ _); [| reflexivity].
  destruct (n <=? 0); reflexivity.
Qed.

Lemma unchanged_chunk_by_symbols (fp : string) :
  unchanged (ContextExtractor_chunk_file_by_symbols fp).
Proof.
  intros w. unfold ContextExtractor_chunk_file_by_symbols.
  destruct (file_data _ _); reflexivity.
Qed.

Lemma unchanged_context_around (fp : string) (line : Z) :
  unchanged (ContextExtractor_extract_context_around_line fp line).
Proof.
  intros w. unfold ContextExtractor_extract_context_around_line.
  destruct (file_data _ _); [| reflexivity].
  destruct (_ || _); [reflexivity |].
  destruct (smallest _); reflexivity.
Qed.

Lemma unchanged_get_file_content (fp : string) : unchanged (get_file_content fp).
Proof.
  intros w. unfold get_file_content.
  destruct (negb _); [reflexivity |].
  destruct (_ ≫= _); reflexivity.
Qed.

Lemma unchanged_search (vs : VectorSearcher) (q : string) (k : Z) :
  unchanged (VectorSearcher_search vs q k).
Proof. intros w. apply search_leaves_world. Qed.

(** Memoising the repository map touches the mapper's cache only. *)

Lemma get_repo_map_slot : preserves searcher_slot RepoMapper_get_repo_map.
Proof.
  intros w. rewrite get_repo_map_runs. unfold searcher_slot. simpl.
  destruct (memoised_same_listing w) as (_ & _ & _ & _ & _ & _ & _ & H & _).
  exact H.
Qed.


Lemma get_repo_map_roots : preserves roots_view RepoMapper_get_repo_map.
Proof.
  intros w. rewrite get_repo_map_runs. unfold roots_view, memoised. simpl.
  destruct (mapper_cache (mapper (self w))); reflexivity.
Qed.

(** Writing a file touches the disk only. *)

Lemma open_w_self (fp : string) (w : World) :
  self (snd (open_w fp w)) = self w
  /\ cwd (snd (open_w fp w)) = cwd w
  /\ in_scope (snd (open_w fp w)) = in_scope w.
Proof.
  unfold open_w.
  destruct (open_target (disk w) (cwd w) fp) as [p | e]; [| repeat split; reflexivity].
  destruct (os_refuses (disk w) p); repeat split; reflexivity.
Qed.

Lemma open_w_slot (fp : string) : preserves searcher_slot (open_w fp).
Proof.
  intros w. unfold searcher_slot. destruct (open_w_self fp w) as (-> & _). reflexivity.
Qed.

Lemma open_w_roots (fp : string) : preserves roots_view (open_w fp).
Proof.
  intros w. unfold roots_view. destruct (open_w_self fp w) as (-> & _). reflexivity.
Qed.

Lemma json_dump_slot (v : value) (f : string) : preserves searcher_slot (json_dump v f).
Proof. intros w. reflexivity. Qed.

Lemma json_dump_roots (v : value) (f : string) : preserves roots_view (json_dump v f).
Proof. intros w. reflexivity. Qed.

(** Constructing the vector searcher leaves the roots. *)

Lemma get_vector_searcher_roots (e : option EmbedFn) (b p : option string) :
  preserves roots_view (get_vector_searcher e b p).
Proof.
  intros w. destruct (vector_searcher (self w)) as [vs |] eqn:E.
  - rewrite (get_vector_searcher_cached w vs e b p E). reflexivity.
  - destruct e as [f |].
    + rewrite (get_vector_searcher_first w f b p E). reflexivity.
    + rewrite (get_vector_searcher_unconfigured w b p E). reflexivity.
Qed.

Create HintDb frame.

#[local] Hint Resolve preserves_ret preserves_raise preserves_lift preserves_get_world
  unchanged_preserves
  unchanged_get_file_tree unchanged_mapper_extract unchanged_search_text
  unchanged_get_code_searcher unchanged_chunk_by_lines unchanged_chunk_by_symbols
  unchanged_context_around unchanged_get_file_content unchanged_search
  get_repo_map_slot get_repo_map_roots
  open_w_slot open_w_roots json_dump_slot json_dump_roots
  get_vector_searcher_roots : frame.

(** Splitting a method body along its binds, loops and case analyses. *)
Ltac frame :=
  repeat first
    [ progress eauto with frame
    | apply preserves_bind; [| intros ?]
    | apply preserves_for_each; intros ? ?
    | match goal with
      | |- preserves _ (match ?x with _ => _ end) => destruct x
      end ].

Lemma index_preserves {T} (view : World -> T) :
  preserves view RepoMapper_get_repo_map -> preserves view index.
Proof. intros H. unfold index. frame. Qed.

Lemma extract_symbols_preserves {T} (view : World -> T) (fp : option string) :
  preserves view RepoMapper_get_repo_map -> preserves view (extract_symbols fp).
Proof. intros H. unfold extract_symbols. destruct fp; frame. Qed.

Lemma find_symbol_usages_preserves {T} (view : World -> T)
    (name : string) (ty : option string) :
  preserves view RepoMapper_get_repo_map -> preserves view (find_symbol_usages name ty).
Proof. intros H. unfold find_symbol_usages. frame. Qed.

Lemma search_semantic_preserves {T} (view : World -> T)
    (q : string) (k : Z) (e : option EmbedFn) :
  preserves view (get_vector_searcher e None None) ->
  preserves view (search_semantic q k e).
Proof. intros H. unfold search_semantic. frame. Qed.

Lemma symbols_to_write_preserves {T} (view : World -> T) (symbols : option (list value)) :
  preserves view RepoMapper_get_repo_map -> preserves view (symbols_to_write symbols).
Proof.
  intros H. unfold symbols_to_write. destruct symbols; [frame |].
  apply preserves_bind; [apply index_preserves; exact H | intros idx]. frame.
Qed.

Lemma writes_preserve {T} (view : World -> T) :
  preserves view RepoMapper_get_repo_map ->
  (forall fp, preserves view (open_w fp)) ->
  (forall v f, preserves view (json_dump v f)) ->
  forall c, writes c = true -> forall w, view (perform c w) = view w.
Proof.
  intros Hmap Hopen Hdump c Hc w.
  destruct c; try discriminate Hc; unfold perform, effect.
  - apply (preserves_bind view); [apply Hopen | intros f].
    apply preserves_bind; [apply index_preserves; exact Hmap | intros idx]. apply Hdump.
  - apply (preserves_bind view);
      [apply symbols_to_write_preserves; exact Hmap | intros syms].
    apply preserves_bind; [apply Hopen | intros f]. apply Hdump.
  - apply (preserves_bind view); [apply Hopen | intros f].
    apply preserves_bind; [frame | intros tree]. apply Hdump.
  - apply (preserves_bind view);
      [apply find_symbol_usages_preserves; exact Hmap | intros us].
    apply preserves_bind; [apply Hopen | intros f]. apply Hdump.
Qed.

(** The methods that neither write a file nor build the vector searcher
    preserve every view that memoising the repository map preserves. *)
Lemma plain_call_preserves {T} (view : World -> T) (c : Call) :
  preserves view RepoMapper_get_repo_map ->
  writes c = false ->
  match c with
  | call_get_vector_searcher _ _ _ | call_search_semantic _ _ _ => True
  | _ => forall w, view (perform c w) = view w
  end.
Proof.
  intros Hmap Hc.
  destruct c; try discriminate Hc; try exact I; unfold perform, effect;
    first
      [ apply (extract_symbols_preserves view); exact Hmap
      | apply (index_preserves view); exact Hmap
      | apply (find_symbol_usages_preserves view); exact Hmap
      | apply (unchanged_preserves view); eauto with frame ].
Qed.

Lemma perform_slot (c : Call) (w : World) (vs : VectorSearcher) :
  searcher_slot w = Some vs -> searcher_slot (perform c w) = Some vs.
Proof.
  intros H.
  destruct (writes c) eqn:Hw.
  - rewrite (writes_preserve searcher_slot get_repo_map_slot open_w_slot json_dump_slot c Hw).
    exact H.
  - pose proof (plain_call_preserves searcher_slot c get_repo_map_slot Hw) as Hplain.
    destruct c; try (rewrite Hplain; exact H); unfold perform, effect.
    + rewrite (get_vector_searcher_cached w vs _ _ _ H). exact H.
    + unfold search_semantic, bind.
      rewrite (get_vector_searcher_cached w vs _ _ _ H).
      rewrite search_leaves_world. exact H.
Qed.


Lemma perform_roots (c : Call) (w : World) :
  roots_view (perform c w) = roots_view w.
Proof.
  destruct (writes c) eqn:Hw.
  - apply (writes_preserve roots_view get_repo_map_roots open_w_roots json_dump_roots c Hw).
  - pose proof (plain_call_preserves roots_view c get_repo_map_roots Hw) as Hplain.
    destruct c; try (apply Hplain); unfold perform, effect.
    + apply get_vector_searcher_roots.
    + apply (search_semantic_preserves roots_view). apply get_vector_searcher_roots.
Qed.

Lemma session_slot (calls : list Call) (w : World) (vs : VectorSearcher) :
  searcher_slot w = Some vs -> searcher_slot (session calls w) = Some vs.
Proof.
  revert w. induction calls as [| c calls IH]; intros w H; simpl.
  - exact H.
  - apply IH. apply perform_slot. exact H.
Qed.


Lemma rooted_by_view (w w' : World) :
  roots_view w' = roots_view w -> rooted (self w) -> rooted (self w').
Proof.
  unfold roots_view, rooted. intros H (H1 & H2 & H3 & H4).
  injection H as -> -> -> -> ->. repeat split; assumption.
Qed.

Lemma session_rooted (calls : list Call) (w : World) :
  rooted (self w) -> rooted (self (session calls w)).
Proof.
  revert w. induction calls as [| c calls IH]; intros w H; simpl.
  - exact H.
  - apply IH. apply (rooted_by_view w); [apply perform_roots | exact H].
Qed.

Lemma Repository_init_rooted (working_dir path : string) :
  rooted (Repository_init working_dir path).
Proof. unfold rooted. simpl. repeat split; reflexivity. Qed.


Lemma search_text_runs (q pat : string) (w : World) :
  search_text q pat w = (Ret (text_hits q pat w), w).
Proof. reflexivity. Qed.


(* =================================================================== *)
(** ** Facts about line windows                                          *)
(* =================================================================== *)

Lemma append_assoc (a b c : string) : (a +:+ b) +:+ c = a +:+ (b +:+ c).
Proof.
  induction a as [| ch a IH]; [reflexivity |].
  change (String ch ((a +:+ b) +:+ c) = String ch (a +:+ (b +:+ c))).
  f_equal. exact IH.
Qed.

Lemma join_cons (x : string) (xs : list string) : join (x :: xs) = x +:+ join xs.
Proof. reflexivity. Qed.

Lemma join_app (xs ys : list string) : join (xs ++ ys) = join xs +:+ join ys.
Proof.
  induction xs as [| x xs IH].
  - reflexivity.
  - cbn [app]. rewrite !join_cons, IH, append_assoc. reflexivity.
Qed.

Lemma join_concat (ws : list (list string)) : join (map join ws) = join (concat ws).
Proof.
  induction ws as [| win ws IH].
  - reflexivity.
  - cbn [map concat]. rewrite join_cons, join_app, IH. reflexivity.
Qed.

Lemma join_lines_of (s : string) : join (lines_of s) = s.
Proof.
  induction s as [| c s IH].
  - reflexivity.
  - cbn [lines_of]. destruct (Ascii.eqb c LF).
    + rewrite join_cons, IH. reflexivity.
    + destruct (lines_of s) as [| l ls]; rewrite <- IH; reflexivity.
Qed.

Section Windows.

Context {A : Type}.
Implicit Types (xs : list A) (n fuel i : nat).

Lemma windows_concat fuel n xs :
  (0 < n)%nat -> (length xs <= fuel)%nat -> concat (windows fuel n xs) = xs.
Proof.
  intros Hn. revert xs. induction fuel as [| fuel IH]; intros xs Hlen.
  - destruct xs; [reflexivity | simpl in Hlen; lia].
  - destruct xs as [| x xs]; [reflexivity |].
    cbn [windows concat]. rewrite IH.
    + apply take_drop.
    + rewrite length_drop. simpl in Hlen |- *. lia.
Qed.

Lemma windows_bounds fuel n xs :
  (0 < n)%nat ->
  Forall (fun win => (0 < length win <= n)%nat) (windows fuel n xs).
Proof.
  intros Hn. revert xs. induction fuel as [| fuel IH]; intros xs.
  - constructor.
  - destruct xs as [| x xs]; [constructor |].
    cbn [windows]. constructor; [| apply IH].
    rewrite length_take. simpl. lia.
Qed.

Lemma windows_full fuel n xs i win :
  windows fuel n xs !! i = Some win ->
  (S i < length (windows fuel n xs))%nat ->
  length win = n.
Proof.
  revert xs i. induction fuel as [| fuel IH]; intros xs i Hwin Hi.
  - discriminate Hwin.
  - destruct xs as [| x xs]; [discriminate Hwin |].
    cbn [windows] in Hwin, Hi |- *. destruct i as [| i].
    + injection Hwin as <-. rewrite length_take.
      destruct (decide (n < length (x :: xs))%nat) as [Hlt | Hge]; [lia |].
      rewrite (drop_ge (x :: xs) n) in Hi by lia.
      destruct fuel; simpl in Hi; lia.
    + simpl in Hwin, Hi. apply (IH (drop n (x :: xs)) i Hwin). lia.
Qed.

Lemma windows_shape {B} fuel n xs (ys : list B) :
  length xs = length ys ->
  map length (windows fuel n xs) = map length (windows fuel n ys).
Proof.
  revert xs ys. induction fuel as [| fuel IH]; intros xs ys Hlen.
  - reflexivity.
  - destruct xs as [| x xs], ys as [| y ys]; try discriminate Hlen; [reflexivity |].
    cbn [windows map]. f_equal.
    + rewrite !length_take. rewrite Hlen. reflexivity.
    + apply IH. rewrite !length_drop. rewrite Hlen. reflexivity.
Qed.

(** The windows are consecutive slices: the rest after a window is cut
    [n] elements further into the list. *)
Lemma windows_drop fuel n xs (k : nat) :
  (0 < n)%nat ->
  windows (S fuel) n (drop k xs) =
  match drop k xs with
  | [] => []
  | _ :: _ => take n (drop k xs) :: windows fuel n (drop (k + n) xs)
  end.
Proof.
  intros Hn. cbn [windows]. destruct (drop k xs) eqn:E; [reflexivity |].
  rewrite <- E. rewrite drop_drop. reflexivity.
Qed.

End Windows.

Lemma windows_nil {A} (fuel n : nat) : windows fuel n (@nil A) = [].
Proof. destruct fuel; reflexivity. Qed.

Lemma take_length_take {A} (n : nat) (xs : list A) :
  take (length (take n xs)) xs = take n xs.
Proof.
  rewrite length_take.
  destruct (Nat.le_gt_cases n (length xs)) as [Hle | Hgt].
  - rewrite Nat.min_l by exact Hle. reflexivity.
  - rewrite Nat.min_r by lia. rewrite !take_ge by lia. reflexivity.
Qed.

Lemma chunks_from_length (file : string) (start : Z) (ws : list (list string)) :
  length (chunks_from file start ws) = length ws.
Proof.
  revert start. induction ws as [| win ws IH]; intros start; simpl;
    [reflexivity | rewrite IH; reflexivity].
Qed.

Lemma chunks_from_contents (file : string) (start : Z) (ws : list (list string)) :
  map chunk_content (chunks_from file start ws) = map join ws.
Proof.
  revert start. induction ws as [| win ws IH]; intros start; simpl;
    [reflexivity | rewrite IH; reflexivity].
Qed.

Lemma chunks_from_lookup (file : string) (start : Z) (ws : list (list string))
    (i : nat) (c : Chunk) :
  chunks_from file start ws !! i = Some c ->
  exists win, ws !! i = Some win /\ chunk_lines c = Z.of_nat (length win).
Proof.
  revert start i. induction ws as [| win ws IH]; intros start i H.
  - discriminate H.
  - destruct i as [| i]; simpl in H.
    + injection H as <-. exists win. split; [reflexivity |].
      unfold chunk_lines. simpl. lia.
    + apply (IH _ _ H).
Qed.

Lemma chunks_from_tiles (file : string) (start : Z) (ws : list (list string)) :
  Forall (fun win => (0 < length win)%nat) ws ->
  tiles start (chunks_from file start ws) (start + Z.of_nat (length (concat ws)) - 1).
Proof.
  intros Hne. revert start. induction Hne as [| win ws Hwin _ IH]; intros start.
  - simpl. lia.
  - cbn [chunks_from tiles chunk_start chunk_end concat].
    split; [reflexivity |]. split; [lia |].
    rewrite length_app.
    replace (start + Z.of_nat (length win) - 1 + 1) with (start + Z.of_nat (length win)) by lia.
    replace (start + Z.of_nat (length win + length (concat ws)) - 1)
      with (start + Z.of_nat (length win) + Z.of_nat (length (concat ws)) - 1) by lia.
    apply IH.
Qed.

Lemma chunks_from_ranges (file file' : string) (start : Z) (ws ws' : list (list string)) :
  map length ws = map length ws' ->
  map chunk_range (chunks_from file start ws) = map chunk_range (chunks_from file' start ws').
Proof.
  revert start ws'. induction ws as [| win ws IH]; intros start [| win' ws'] H;
    try discriminate H; [reflexivity |].
  cbn [map] in H. injection H as Hlen Hrest.
  cbn [chunks_from map]. unfold chunk_range at 1 3. cbn [chunk_start chunk_end].
  rewrite Hlen. f_equal. apply IH. exact Hrest.
Qed.

(** Every chunk holds exactly the lines of its range. *)
Lemma chunks_from_slices (file : string) (lines : list string) (n fuel k : nat) :
  (0 < n)%nat ->
  Forall (fun c => chunk_content c = slice_lines lines (chunk_start c) (chunk_end c))
    (chunks_from file (Z.of_nat k + 1) (windows fuel n (drop k lines))).
Proof.
  intros Hn. revert k. induction fuel as [| fuel IH]; intros k.
  - constructor.
  - rewrite windows_drop by exact Hn.
    destruct (drop k lines) as [| x xs] eqn:E; [constructor |].
    rewrite <- E. cbn [chunks_from]. constructor.
    + cbn [chunk_content chunk_start chunk_end]. unfold slice_lines.
      replace (Z.to_nat (Z.of_nat k + 1 + Z.of_nat (length (take n (drop k lines))) - 1
                         - (Z.of_nat k + 1) + 1))
        with (length (take n (drop k lines))) by lia.
      replace (Z.to_nat (Z.of_nat k + 1 - 1)) with k by lia.
      rewrite take_length_take. reflexivity.
    + destruct (Nat.le_gt_cases n (length (drop k lines))) as [Hle | Hgt].
      * rewrite length_take, Nat.min_l by exact Hle.
        replace (Z.of_nat k + 1 + Z.of_nat n) with (Z.of_nat (k + n) + 1) by lia.
        apply IH.
      * rewrite (drop_ge lines (k + n)) by (rewrite length_drop in Hgt; lia).
        rewrite windows_nil. constructor.
Qed.

(** *** Lines survive joining and splitting again *)

Lemma terminated_cons (c : ascii) (l : string) :
  Ascii.eqb c LF = false -> terminated (String c l) = terminated l.
Proof. intros H. simpl. rewrite H. reflexivity. Qed.

Lemma open_line_cons (c : ascii) (l : string) :
  Ascii.eqb c LF = false -> open_line (String c l) = no_lf l.
Proof. intros H. unfold open_line. simpl. rewrite H, andb_true_r. reflexivity. Qed.

Lemma open_line_no_lf (l : string) : open_line l = true -> no_lf l = true.
Proof. unfold open_line. intros H. apply andb_prop in H. destruct H as [H _]. exact H. Qed.

Lemma lines_of_proper (s : string) : proper_lines (lines_of s) = true.
Proof.
  induction s as [| c s IH]; [reflexivity |].
  cbn [lines_of]. destruct (Ascii.eqb c LF) eqn:Ec.
  - cbn [proper_lines]. destruct (lines_of s) as [| l ls].
    + simpl. rewrite Ec. reflexivity.
    + cbn [terminated]. rewrite Ec. exact IH.
  - destruct (lines_of s) as [| l ls].
    + simpl. unfold open_line. simpl. rewrite Ec. reflexivity.
    + cbn [proper_lines] in IH |- *. destruct ls as [| l' ls'].
      * rewrite terminated_cons, open_line_cons by exact Ec.
        apply orb_prop in IH. destruct IH as [Ht | Ho].
        -- rewrite Ht. reflexivity.
        -- rewrite (open_line_no_lf l Ho). apply orb_true_r.
      * rewrite terminated_cons by exact Ec. exact IH.
Qed.

Lemma lines_of_terminated (l s : string) :
  terminated l = true -> lines_of (l +:+ s) = l :: lines_of s.
Proof.
  induction l as [| c l IH]; [discriminate |].
  intros H. cbn [terminated] in H. change (String c l +:+ s) with (String c (l +:+ s)).
  cbn [lines_of]. destruct (Ascii.eqb c LF).
  - destruct l; [reflexivity | discriminate H].
  - rewrite (IH H). reflexivity.
Qed.

Lemma lines_of_open (l : string) : open_line l = true -> lines_of l = [l].
Proof.
  induction l as [| c l IH]; [discriminate |].
  unfold open_line. cbn [no_lf lines_of]. intros H.
  destruct (Ascii.eqb c LF); [discriminate H |].
  simpl in H. rewrite andb_true_r in H.
  destruct l as [| c' l']; [reflexivity |].
  rewrite IH; [reflexivity |]. unfold open_line. rewrite H. reflexivity.
Qed.

Lemma join_nil_r (l : string) : l +:+ "" = l.
Proof.
  induction l as [| c l IH]; [reflexivity |].
  change (String c l +:+ "") with (String c (l +:+ "")). rewrite IH. reflexivity.
Qed.

Lemma lines_of_join (ls : list string) :
  proper_lines ls = true -> lines_of (join ls) = ls.
Proof.
  induction ls as [| l ls IH]; [reflexivity |].
  intros H. rewrite join_cons. cbn [proper_lines] in H.
  destruct ls as [| l' ls'].
  - change (join []) with "". rewrite join_nil_r.
    apply orb_prop in H. destruct H as [Ht | Ho].
    + rewrite <- (join_nil_r l) at 1. rewrite (lines_of_terminated l "" Ht). reflexivity.
    + apply lines_of_open. exact Ho.
  - apply andb_prop in H. destruct H as [Ht Hrest].
    rewrite (lines_of_terminated l _ Ht), (IH Hrest). reflexivity.
Qed.

Lemma proper_lines_app (xs ys : list string) :
  proper_lines (xs ++ ys) = true -> proper_lines xs = true /\ proper_lines ys = true.
Proof.
  induction xs as [| x xs IH]; intros H.
  - split; [reflexivity | exact H].
  - cbn [app proper_lines] in H, IH |- *. destruct xs as [| x' xs'].
    + destruct ys as [| y ys'].
      * split; [exact H | reflexivity].
      * cbn [app] in H. apply andb_prop in H. destruct H as [Ht Hys].
        rewrite Ht. split; [reflexivity | exact Hys].
    + cbn [app] in H. apply andb_prop in H. destruct H as [Ht Hrest].
      destruct (IH Hrest) as [Hxs Hys]. rewrite Ht. split; assumption.
Qed.

Lemma windows_proper (fuel n : nat) (ls : list string) :
  proper_lines ls = true ->
  Forall (fun win => proper_lines win = true) (windows fuel n ls).
Proof.
  revert ls. induction fuel as [| fuel IH]; intros ls H; [constructor |].
  destruct ls as [| l ls]; [constructor |]. cbn [windows].
  rewrite <- (take_drop n (l :: ls)) in H. apply proper_lines_app in H.
  destruct H as [Htake Hdrop]. constructor; [exact Htake | apply IH; exact Hdrop].
Qed.

Lemma chunks_from_line_counts (file : string) (start : Z) (ws : list (list string)) :
  Forall (fun win => proper_lines win = true) ws ->
  Forall (fun c => Z.of_nat (length (lines_of (chunk_content c))) = chunk_lines c)
    (chunks_from file start ws).
Proof.
  intros H. revert start. induction H as [| win ws Hwin _ IH]; intros start.
  - constructor.
  - cbn [chunks_from]. constructor; [| apply IH].
    unfold chunk_lines. cbn [chunk_content chunk_start chunk_end].
    rewrite (lines_of_join win Hwin). lia.
Qed.

Lemma is_file_true_data (d : gmap string FsNode) (p : string) :
  is_file d p = true -> exists data, file_data d p = Some data.
Proof.
  unfold is_file, file_data. destruct (stat d "/" p) as [[| data] |]; try discriminate.
  intros _. exists data. reflexivity.
Qed.

(* =================================================================== *)
(** ** Facts about stripping and splitting                                *)
(* =================================================================== *)

Lemma has_nonspace_lstrip (s : string) :
  has_nonspace (lstrip_with is_space s) = has_nonspace s.
Proof.
  induction s as [| c s IH]; [reflexivity |].
  cbn [lstrip_with has_nonspace]. destruct (is_space c) eqn:E.
  - rewrite IH. reflexivity.
  - cbn [has_nonspace]. rewrite E. reflexivity.
Qed.

Lemma nonempty_lstrip (s : string) :
  nonempty (lstrip_with is_space s) = has_nonspace s.
Proof.
  induction s as [| c s IH]; [reflexivity |].
  cbn [lstrip_with has_nonspace]. destruct (is_space c); [exact IH | reflexivity].
Qed.

Lemma has_nonspace_rstrip (s : string) :
  has_nonspace (rstrip_with is_space s) = has_nonspace s.
Proof.
  induction s as [| c s IH]; [reflexivity |].
  cbn [rstrip_with has_nonspace]. rewrite <- IH.
  destruct (rstrip_with is_space s) as [| c' r].
  - destruct (is_space c) eqn:E; cbn [has_nonspace]; rewrite ?E; reflexivity.
  - reflexivity.
Qed.

Lemma nonempty_strip (s : string) : nonempty (strip s) = has_nonspace s.
Proof.
  unfold strip, strip_with. rewrite nonempty_lstrip. apply has_nonspace_rstrip.
Qed.

Lemma has_nonspace_strip (s : string) : has_nonspace (strip s) = has_nonspace s.
Proof.
  unfold strip, strip_with. rewrite has_nonspace_lstrip. apply has_nonspace_rstrip.
Qed.

Lemma lstrip_idem (p : ascii -> bool) (s : string) :
  lstrip_with p (lstrip_with p s) = lstrip_with p s.
Proof.
  induction s as [| c s IH]; [reflexivity |].
  cbn [lstrip_with]. destruct (p c) eqn:E; [exact IH |].
  cbn [lstrip_with]. rewrite E. reflexivity.
Qed.

Lemma rstrip_idem (p : ascii -> bool) (s : string) :
  rstrip_with p (rstrip_with p s) = rstrip_with p s.
Proof.
  induction s as [| c s IH]; [reflexivity |].
  cbn [rstrip_with]. destruct (rstrip_with p s) as [| c' r] eqn:E.
  - destruct (p c) eqn:Ec; [reflexivity |]. cbn [rstrip_with]. rewrite Ec. reflexivity.
  - cbn [rstrip_with]. cbn [rstrip_with] in IH.
    destruct (rstrip_with p r) as [| c'' r'] eqn:Er.
    + destruct (p c'); [discriminate IH |]. rewrite IH. reflexivity.
    + rewrite IH. reflexivity.
Qed.

(** Stripping on the left keeps a string stripped on the right. *)
Lemma rstrip_lstrip (p : ascii -> bool) (s : string) :
  rstrip_with p s = s -> rstrip_with p (lstrip_with p s) = lstrip_with p s.
Proof.
  induction s as [| c s IH]; [reflexivity |].
  intros H. cbn [lstrip_with]. destruct (p c) eqn:Ec; [| exact H].
  apply IH. cbn [rstrip_with] in H. rewrite Ec in H.
  destruct (rstrip_with p s) as [| c' r]; [discriminate H |].
  injection H as H. exact H.
Qed.

Lemma strip_idem (p : ascii -> bool) (s : string) :
  strip_with p (strip_with p s) = strip_with p s.
Proof.
  unfold strip_with.
  rewrite (rstrip_lstrip p (rstrip_with p s) (rstrip_idem p s)).
  apply lstrip_idem.
Qed.

Lemma nonempty_true (s : string) : nonempty s = true <-> s <> "".
Proof. destruct s; simpl; split; congruence. Qed.

Lemma split_on_cons (sep : ascii) (s : string) :
  exists l ls, split_on sep s = l :: ls.
Proof.
  destruct s as [| c s]; [exists "", []; reflexivity |].
  cbn [split_on]. destruct (Ascii.eqb c sep); [eauto |].
  destruct (split_on sep s); eauto.
Qed.

(** Joining the pieces with the separator gives the string back. *)
Lemma join_split_on (sep : ascii) (s : string) :
  String.concat (String sep "") (split_on sep s) = s.
Proof.
  induction s as [| c s IH]; [reflexivity |].
  cbn [split_on]. destruct (split_on_cons sep s) as (l & ls & E). rewrite E in IH |- *.
  destruct (Ascii.eqb_spec c sep) as [-> | _].
  - change (String.concat (String sep "") ("" :: l :: ls))
      with ("" +:+ String sep "" +:+ String.concat (String sep "") (l :: ls)).
    rewrite IH. reflexivity.
  - destruct ls as [| l' ls'].
    + change (String c l = String c s). f_equal. exact IH.
    + change (String c (l +:+ String sep "" +:+ String.concat (String sep "") (l' :: ls'))
              = String c s).
      f_equal. exact IH.
Qed.

Lemma split_on_pieces (sep : ascii) (s : string) :
  Forall (fun piece => occurs sep piece = false) (split_on sep s).
Proof.
  induction s as [| c s IH]; [repeat constructor |].
  cbn [split_on]. destruct (Ascii.eqb c sep) eqn:E.
  - constructor; [reflexivity | exact IH].
  - destruct (split_on sep s) as [| l ls]; [repeat constructor; simpl; rewrite E; reflexivity |].
    apply Forall_cons in IH as [Hl Hls].
    constructor; [| exact Hls]. cbn [occurs]. rewrite E, Hl. reflexivity.
Qed.

Lemma occurs_app (a : ascii) (s t : string) :
  occurs a (s +:+ t) = occurs a s || occurs a t.
Proof.
  induction s as [| c s IH]; [reflexivity |].
  change (String c s +:+ t) with (String c (s +:+ t)). cbn [occurs].
  rewrite IH, orb_assoc. reflexivity.
Qed.

Lemma occurs_replace_char (a b : ascii) (s : string) :
  a <> b -> occurs a (replace_char a b s) = false.
Proof.
  intros Hab. induction s as [| c s IH]; [reflexivity |].
  cbn [replace_char occurs]. rewrite IH, orb_false_r.
  destruct (Ascii.eqb_spec c a) as [_ | Hca].
  - apply Ascii.eqb_neq. congruence.
  - apply Ascii.eqb_neq. exact Hca.
Qed.

Lemma replace_char_idem (a b : ascii) (s : string) :
  a <> b -> replace_char a b (replace_char a b s) = replace_char a b s.
Proof.
  intros Hab. induction s as [| c s IH]; [reflexivity |].
  cbn [replace_char]. rewrite IH. f_equal.
  destruct (Ascii.eqb_spec c a) as [_ | Hca].
  - destruct (Ascii.eqb_spec b a); congruence.
  - destruct (Ascii.eqb_spec c a); congruence.
Qed.

Lemma nonempty_replace_char (a b : ascii) (s : string) :
  nonempty (replace_char a b s) = nonempty s.
Proof. destruct s; reflexivity. Qed.

Lemma split_on_absent (sep : ascii) (s : string) :
  occurs sep s = false -> split_on sep s = [s].
Proof.
  induction s as [| c s IH]; [reflexivity |].
  cbn [occurs split_on]. destruct (Ascii.eqb c sep); [discriminate |].
  cbn [orb]. intros H. rewrite (IH H). reflexivity.
Qed.

(** Joining a name without a slash to a path appends one part, or none
    when the name is blank. *)
Lemma joinpath_name (base name : string) :
  occurs "/" name = false ->
  joinpath base name
  = path_str (path_root base) (path_parts base ++ (if is_blank name then [] else [name])).
Proof.
  intros Hname. unfold joinpath.
  assert (Hrel : is_absolute name = false).
  { destruct name as [| c name']; [reflexivity |].
    cbn [occurs] in Hname. cbn [is_absolute].
    destruct (Ascii.eqb c "/"); [discriminate Hname | reflexivity]. }
  rewrite Hrel. unfold path_parts at 2. rewrite (split_on_absent "/" name Hname).
  cbn [List.filter]. destruct (is_blank name); reflexivity.
Qed.

Lemma lines_or_nothing_facts (result : option string) :
  Forall (fun name => occurs LF name = false) (lines_or_nothing result)
  /\ lines_or_nothing result <> [""]
  /\ (lines_or_nothing result <> [] ->
      exists out, result = Some out
                  /\ String.concat (String LF "") (lines_or_nothing result) = out).
Proof.
  destruct result as [out |]; cbn [lines_or_nothing].
  - destruct (nonempty out) eqn:Hne.
    + split; [apply split_on_pieces |]. split.
      * intros Hone. pose proof (join_split_on LF out) as Hjoin.
        rewrite Hone in Hjoin. cbn in Hjoin. subst out. discriminate Hne.
      * intros _. exists out. split; [reflexivity | apply join_split_on].
    + split; [constructor |]. split; [discriminate | intros Hnil; contradiction].
  - split; [constructor |]. split; [discriminate | intros Hnil; contradiction].
Qed.

(* =================================================================== *)
(** ** Facts about the git helpers                                       *)
(* =================================================================== *)

Lemma git_command_outside (cmd : list string) (w : World) :
  has_git_dir (local_path (self w)) w = false ->
  _git_command cmd w = (Ret None, w).
Proof.
  intros H. unfold _git_command, bind, get_world. rewrite H. reflexivity.
Qed.

Lemma git_command_runs (cmd : list string) (w : World) :
  has_git_dir (local_path (self w)) w = true ->
  _git_command cmd w =
  match subprocess_run cmd (repo_path (self w)) (disk w) with
  | (Ret p, d) =>
      (Ret (if (returncode p =? 0) && nonempty (stdout p)
            then Some (strip (stdout p)) else None),
       set_disk d w)
  | (Raise e, d) => (Raise e, set_disk d w)
  end.
Proof.
  intros H. unfold _git_command, bind, get_world. rewrite H. cbn [negb].
  unfold run_checked, bind, run_unchecked.
  destruct (subprocess_run cmd (repo_path (self w)) (disk w)) as [[p | e] d];
    [| reflexivity].
  unfold ret. destruct (returncode p =? 0); [| reflexivity].
  destruct (nonempty (stdout p)); reflexivity.
Qed.

(** What [_git_command] returns is stripped output of a successful run. *)
Lemma git_command_some (cmd : list string) (w w' : World) (out : string) :
  _git_command cmd w = (Ret (Some out), w') ->
  has_git_dir (local_path (self w)) w = true
  /\ exists p,
       fst (subprocess_run cmd (repo_path (self w)) (disk w)) = Ret p
       /\ returncode p = 0
       /\ out = strip (stdout p).
Proof.
  intros H. destruct (has_git_dir (local_path (self w)) w) eqn:Hgit.
  - split; [reflexivity |]. rewrite (git_command_runs cmd w Hgit) in H.
    destruct (subprocess_run cmd (repo_path (self w)) (disk w)) as [[p | e] d];
      [| discriminate H].
    destruct (Z.eqb_spec (returncode p) 0) as [Hrc | Hrc]; [| discriminate H].
    destruct (nonempty (stdout p)); [| discriminate H].
    injection H as <- _. exists p. repeat split; [exact Hrc].
  - rewrite (git_command_outside cmd w Hgit) in H. discriminate H.
Qed.

Lemma bind_ret_inv {A B} (m : Eff A) (f : A -> B) (w w' : World) (b : B) :
  bind m (fun a => ret (f a)) w = (Ret b, w') -> exists a, b = f a.
Proof.
  unfold bind, ret. destruct (m w) as [[a | e] w1]; [| discriminate].
  intros H. injection H as <- _. exists a. reflexivity.
Qed.

Lemma describe_ref_cases (dir : string) (w : World) :
  exists info w',
    try_except (describe_ref dir) (fun _ => ret "") w = (Ret info, w')
    /\ (info = ""
        \/ (exists b, info = ", branch: " +:+ b /\ b <> "HEAD")
        \/ exists c, info = ", commit: " +:+ c).
Proof.
  unfold try_except, describe_ref, bind, run_unchecked.
  destruct (subprocess_run ["git"; "rev-parse"; "--abbrev-ref"; "HEAD"] dir (disk w))
    as [[p | e] d]; [| eexists; eexists; split; [reflexivity | left; reflexivity]].
  destruct ((returncode p =? 0) && negb (String.eqb (strip (stdout p)) "HEAD")) eqn:Hon.
  - eexists. eexists. split; [reflexivity |]. right. left.
    exists (strip (stdout p)). split; [reflexivity |].
    apply andb_prop in Hon. destruct Hon as [_ Hne].
    destruct (String.eqb_spec (strip (stdout p)) "HEAD"); [discriminate Hne | assumption].
  - cbn [disk set_disk].
    destruct (subprocess_run ["git"; "rev-parse"; "--short"; "HEAD"] dir d)
      as [[q | e] d']; [| eexists; eexists; split; [reflexivity | left; reflexivity]].
    destruct (returncode q =? 0).
    + eexists. eexists. split; [reflexivity |]. right. right. eexists. reflexivity.
    + eexists. eexists. split; [reflexivity | left; reflexivity].
Qed.

(* =================================================================== *)
(** ** Facts about the [write_*] methods                                 *)
(* =================================================================== *)

Lemma open_w_runs (fp : string) (w : World) :
  open_w fp w =
  match opening fp w with
  | Ret p => (Ret p, truncated p w)
  | Raise e => (Raise e, w)
  end.
Proof.
  unfold open_w, opening.
  destruct (open_target (disk w) (cwd w) fp) as [p | e]; [| reflexivity].
  destruct (os_refuses (disk w) p); reflexivity.
Qed.

Lemma written_truncated (path content : string) (w : World) :
  written path content (truncated path w) = written path content w.
Proof.
  unfold written, truncated, set_disk. cbn. rewrite insert_insert_eq. reflexivity.
Qed.

Lemma memoised_truncated_disk (path : string) (w : World) :
  disk (memoised (truncated path w)) = <[path := RegularFile ""]> (disk w).
Proof.
  destruct (memoised_same_listing (truncated path w)) as (-> & _). reflexivity.
Qed.

Lemma write_then_dump (fp : string) (v : value) (w : World) :
  (f <- open_w fp ;; json_dump v f) w =
  match opening fp w with
  | Ret p => (Ret tt, written p (json_dumps v) w)
  | Raise e => (Raise e, w)
  end.
Proof.
  unfold bind. rewrite open_w_runs.
  destruct (opening fp w) as [p | e]; [| reflexivity].
  rewrite <- (written_truncated p (json_dumps v) w). reflexivity.
Qed.

Lemma opening_memoised (fp : string) (w : World) :
  opening fp (memoised w) = opening fp w.
Proof.
  unfold opening. destruct (memoised_same_listing w) as (-> & _ & -> & _). reflexivity.
Qed.

Lemma written_memoised (path content : string) (w : World) :
  written path content (memoised w)
  = set_disk (<[path := RegularFile content]> (disk w)) (memoised w).
Proof.
  unfold written. destruct (memoised_same_listing w) as (-> & _). reflexivity.
Qed.

Lemma write_symbols_given_runs (fp : string) (l : list value) (w : World) :
  write_symbols fp (Some l) w =
  match opening fp w with
  | Ret p => (Ret tt, written p (json_dumps (VList l)) w)
  | Raise e => (Raise e, w)
  end.
Proof.
  unfold write_symbols, symbols_to_write. unfold bind at 1, ret at 1.
  apply write_then_dump.
Qed.

Lemma write_symbols_all_runs (fp : string) (w : World) :
  write_symbols fp None w =
  match opening fp w with
  | Ret p =>
      (Ret tt,
       set_disk (<[p := RegularFile (json_dumps (VList (all_symbols (current_map w))))]>
                   (disk w))
         (memoised w))
  | Raise e => (Raise e, memoised w)
  end.
Proof.
  unfold write_symbols. unfold bind at 1. rewrite symbols_to_write_runs.
  rewrite write_then_dump, opening_memoised.
  destruct (opening fp w) as [p | e]; [| reflexivity].
  rewrite written_memoised. reflexivity.
Qed.

Lemma write_symbol_usages_runs (name fp : string) (ty : option string) (w : World) :
  write_symbol_usages name fp ty w =
  match opening fp w with
  | Ret p =>
      (Ret tt,
       set_disk (<[p := RegularFile (json_dumps (VList (map VDict (usages_of name ty w))))]>
                   (disk w))
         (memoised w))
  | Raise e => (Raise e, memoised w)
  end.
Proof.
  unfold write_symbol_usages. unfold bind at 1. rewrite find_symbol_usages_runs.
  rewrite write_then_dump, opening_memoised.
  destruct (opening fp w) as [p | e]; [| reflexivity].
  rewrite written_memoised. reflexivity.
Qed.

Lemma write_index_runs (fp : string) (w : World) :
  write_index fp w =
  match opening fp w with
  | Ret p =>
      (Ret tt,
       set_disk (<[p := RegularFile (json_dumps (VDict (index_dict (truncated p w))))]>
                   (disk w))
         (memoised (truncated p w)))
  | Raise e => (Raise e, w)
  end.
Proof.
  unfold write_index. unfold bind at 1. rewrite open_w_runs.
  destruct (opening fp w) as [p | e]; [| reflexivity].
  unfold bind. rewrite index_runs. unfold json_dump, index_dict.
  rewrite memoised_truncated_disk, insert_insert_eq. reflexivity.
Qed.

Lemma write_file_tree_runs (fp : string) (w : World) :
  write_file_tree fp w =
  match opening fp w with
  | Ret p => (Ret tt, written p (json_dumps (file_tree_value (truncated p w))) w)
  | Raise e => (Raise e, w)
  end.
Proof.
  unfold write_file_tree. unfold bind at 1. rewrite open_w_runs.
  destruct (opening fp w) as [p | e]; [| reflexivity].
  rewrite <- (written_truncated p _ w). reflexivity.
Qed.

Lemma get_repo_map_places :
  preserves (fun w => (disk w, cwd w, in_scope w)) RepoMapper_get_repo_map.
Proof.
  intros w. rewrite get_repo_map_runs. cbn [snd].
  destruct (memoised_same_listing w) as (-> & -> & -> & _). reflexivity.
Qed.

(** The calls that neither write a file nor may build the vector
    searcher leave the disk, the working directory and the listing. *)
Lemma plain_call_places (c : Call) (w : World) :
  writes c = false -> builds_searcher c = false ->
  (disk (perform c w), cwd (perform c w), in_scope (perform c w))
  = (disk w, cwd w, in_scope w).
Proof.
  intros Hw Hb.
  pose proof (plain_call_preserves (fun w => (disk w, cwd w, in_scope w)) c
                get_repo_map_places Hw) as Hplain.
  destruct c; try discriminate Hb; apply Hplain.
Qed.

(** A write either leaves the disk alone or changes the target only. *)
Lemma write_disk (c : Call) (fp : string) (w : World) :
  write_target c = Some fp ->
  cwd (perform c w) = cwd w /\ in_scope (perform c w) = in_scope w
  /\ (disk (perform c w) = disk w
      \/ exists target content,
           opening fp w = Ret target
           /\ disk (perform c w) = <[target := RegularFile content]> (disk w)).
Proof.
  intros Ht.
  destruct (memoised_same_listing w) as (Hd & Hs & Hc & _).
  destruct c; try discriminate Ht; injection Ht as ->; unfold perform, effect.
  - rewrite write_index_runs. destruct (opening fp w) as [p | e] eqn:Hopen;
      unfold written; cbn [snd set_disk cwd in_scope disk].
    + destruct (memoised_same_listing (truncated p w)) as (_ & -> & -> & _).
      split; [reflexivity |]. split; [reflexivity |]. right. eexists. eexists.
      split; reflexivity.
    + split; [reflexivity |]. split; [reflexivity |]. left. reflexivity.
  - destruct symbols as [l |].
    + rewrite write_symbols_given_runs. destruct (opening fp w) as [p | e] eqn:Hopen;
      unfold written; cbn [snd set_disk cwd in_scope disk].
      * split; [reflexivity |]. split; [reflexivity |]. right. eexists. eexists.
        split; reflexivity.
      * split; [reflexivity |]. split; [reflexivity |]. left. reflexivity.
    + rewrite write_symbols_all_runs. destruct (opening fp w) as [p | e] eqn:Hopen;
      unfold written; cbn [snd set_disk cwd in_scope disk].
      * split; [exact Hc |]. split; [exact Hs |]. right. eexists. eexists.
        split; reflexivity.
      * split; [exact Hc |]. split; [exact Hs |]. left. exact Hd.
  - rewrite write_file_tree_runs. destruct (opening fp w) as [p | e] eqn:Hopen;
      unfold written; cbn [snd set_disk cwd in_scope disk].
    + split; [reflexivity |]. split; [reflexivity |]. right. eexists. eexists.
      split; reflexivity.
    + split; [reflexivity |]. split; [reflexivity |]. left. reflexivity.
  - rewrite write_symbol_usages_runs. destruct (opening fp w) as [p | e] eqn:Hopen;
      unfold written; cbn [snd set_disk cwd in_scope disk].
    + split; [exact Hc |]. split; [exact Hs |]. right. eexists. eexists.
      split; reflexivity.
    + split; [exact Hc |]. split; [exact Hs |]. left. exact Hd.
Qed.

(** Opening what is a directory. *)
Lemma opening_directory (fp : string) (w : World) :
  stat (disk w) (cwd w) fp = Some Directory ->
  opening fp w = Raise (IsADirectoryError fp).
Proof.
  unfold stat, opening, open_target.
  destruct (locate (disk w) (cwd w) fp) as [dir | dir name slash | e];
    [reflexivity | | discriminate].
  destruct (disk w !! canonical (dir ++ [name])) as [[| data] |];
    [destruct slash; reflexivity | destruct slash; discriminate | discriminate].
Qed.

(** Opening for writing never succeeds on a directory, and what it
    opens is where the path leads. *)
Lemma opening_target (fp target : string) (w : World) :
  opening fp w = Ret target ->
  reaches (disk w) (cwd w) fp = Some target
  /\ disk w !! target <> Some Directory
  /\ os_refuses (disk w) target = None.
Proof.
  unfold opening, open_target, reaches.
  destruct (locate (disk w) (cwd w) fp) as [dir | dir name slash | []];
    try discriminate.
  destruct slash; [discriminate |].
  destruct (disk w !! canonical (dir ++ [name])) as [[| data] |] eqn:Hnode;
    try discriminate;
    (destruct (os_refuses (disk w) (canonical (dir ++ [name]))) eqn:Hos;
     [discriminate |]);
    intros H; injection H as <-; rewrite Hnode;
    (split; [reflexivity |]; split; [discriminate | exact Hos]).
Qed.

(** Creating or truncating a file changes what no other path leads to. *)
Lemma walk_insert_file (d : gmap string FsNode) (t content : string)
    (cs : list string) (cur : list string) :
  d !! t <> Some Directory ->
  walk (<[t := RegularFile content]> d) cur cs = walk d cur cs
  \/ exists e e',
       walk (<[t := RegularFile content]> d) cur cs = Fails e /\ walk d cur cs = Fails e'.
Proof.
  intros Ht. revert cur. induction cs as [| c rest IH]; intros cur; [left; reflexivity |].
  cbn [walk].
  destruct (is_blank c); [apply IH |].
  destruct (String.eqb c ".."); [apply IH |].
  destruct (forallb (String.eqb "") rest); [left; reflexivity |].
  destruct (decide (canonical (cur ++ [c]) = t)) as [<- | Hne].
  - rewrite lookup_insert_eq. right.
    destruct (d !! canonical (cur ++ [c])) as [[| data] |]; [contradiction | |];
      eexists; eexists; split; reflexivity.
  - rewrite lookup_insert_ne by (intros Heq; apply Hne; symmetry; exact Heq).
    destruct (d !! canonical (cur ++ [c])) as [[| data] |];
      [apply IH | left; reflexivity | left; reflexivity].
Qed.

Lemma stat_insert_file (d : gmap string FsNode) (t content dir s : string) :
  d !! t <> Some Directory ->
  reaches d dir s <> Some t ->
  stat (<[t := RegularFile content]> d) dir s = stat d dir s.
Proof.
  intros Ht Hs. unfold stat, reaches, locate in Hs |- *.
  destruct s as [| ch s']; [reflexivity |].
  set (cs := split_on "/" _) in Hs |- *.
  destruct (walk_insert_file d t content cs [] Ht) as [-> | (e & e' & -> & ->)];
    [| reflexivity].
  destruct (walk d [] cs) as [cur | cur name slash | e]; [reflexivity | | reflexivity].
  rewrite lookup_insert_ne; [reflexivity |].
  intros Heq. apply Hs. rewrite Heq. reflexivity.
Qed.

(** What is written can be read back by the path it was opened with. *)
Lemma stat_written (fp target content : string) (w : World) :
  opening fp w = Ret target ->
  stat (<[target := RegularFile content]> (disk w)) (cwd w) fp
  = Some (RegularFile content).
Proof.
  intros Hopen.
  assert (Hfree : disk w !! target <> Some Directory)
    by (apply (opening_target fp target w Hopen)).
  revert Hopen. unfold opening, open_target, stat, locate.
  destruct fp as [| ch fp']; [discriminate |].
  set (cs := split_on "/" _).
  destruct (walk_insert_file (disk w) target content cs [] Hfree)
    as [-> | (e & e' & _ & ->)]; [| destruct e'; discriminate].
  destruct (walk (disk w) [] cs) as [dir | dir name slash | []]; try discriminate.
  destruct slash; [discriminate |].
  destruct (disk w !! canonical (dir ++ [name])) as [[| data] |]; try discriminate;
    (destruct (os_refuses (disk w) (canonical (dir ++ [name]))); [discriminate |]);
    intros H; injection H as <-; rewrite lookup_insert_eq; reflexivity.
Qed.

(* =================================================================== *)
(** ** Facts about the order of text hits                                *)
(* =================================================================== *)

Lemma hits_from_line (q rel : string) (ls : list string) (n : Z) :
  let hs :=
    flat_map
      (fun nl =>
         if line_matches q (snd nl)
         then [ {| hit_file := rel; hit_line := fst nl; hit_content := snd nl |} ]
         else [])
      (enumerate_from n ls) in
  Forall (fun h => hit_file h = rel /\ n <= hit_line h) hs
  /\ StronglySorted Z.lt (map hit_line hs).
Proof.
  revert n. induction ls as [| l ls IH]; intros n hs.
  - split; constructor.
  - destruct (IH (n + 1)) as (Hall & Hsorted).
    assert (Hlater :
              Forall (fun h => hit_file h = rel /\ n < hit_line h)
                (flat_map
                   (fun nl =>
                      if line_matches q (snd nl)
                      then [ {| hit_file := rel; hit_line := fst nl; hit_content := snd nl |} ]
                      else [])
                   (enumerate_from (n + 1) ls))).
    { eapply Forall_impl; [exact Hall |]. intros h (Hf & Hl). split; [exact Hf | lia]. }
    unfold hs. cbn [enumerate_from flat_map snd fst].
    destruct (line_matches q l); cbn [app map].
    + split.
      * constructor; [split; [reflexivity | cbn; lia] |].
        eapply Forall_impl; [exact Hlater |]. intros h (Hf & Hl). split; [exact Hf | lia].
      * constructor; [exact Hsorted |].
        apply Forall_map. eapply Forall_impl; [exact Hlater |].
        intros h (_ & Hl). exact Hl.
    + split; [| exact Hsorted].
      eapply Forall_impl; [exact Hlater |]. intros h (Hf & Hl). split; [exact Hf | lia].
Qed.

Lemma hit_dicts_ordered (q rel text : string) :
  Forall (fun h => Py.get h "file" = VStr rel) (map hit_to_dict (hits_in_text q rel text))
  /\ StronglySorted Z.lt (map line_of (map hit_to_dict (hits_in_text q rel text))).
Proof.
  destruct (hits_from_line q rel (lines_of text) 1) as (Hall & Hsorted).
  fold (hits_in_text q rel text) in Hall, Hsorted. split.
  - apply Forall_map. eapply Forall_impl; [exact Hall |].
    intros h (Hf & _). cbn. rewrite Hf. reflexivity.
  - rewrite map_map.
    rewrite (map_ext _ hit_line) by (intros h; reflexivity). exact Hsorted.
Qed.

Lemma search_files_order (root : string) (files : list string) (d : gmap string FsNode)
    (q pat : string) :
  in_snapshot_order files (search_files root files d q pat).
Proof.
  unfold in_snapshot_order, search_files. eexists. split; [apply flat_map_concat_map |].
  induction files as [| rel files IH]; [constructor |].
  cbn [map]. constructor; [| exact IH].
  destruct (glob_match pat rel); [| split; constructor].
  destruct (file_data d (joinpath root rel)) as [data |]; [| split; constructor].
  destruct (utf8_decode data) as [text |]; [| split; constructor].
  apply hit_dicts_ordered.
Qed.

Lemma search_files_ext (root : string) (files : list string) (d1 d2 : gmap string FsNode)
    (q pat : string) :
  Forall (fun rel => file_data d1 (joinpath root rel) = file_data d2 (joinpath root rel))
    files ->
  search_files root files d1 q pat = search_files root files d2 q pat.
Proof.
  unfold search_files. induction 1 as [| rel files Hrel _ IH]; [reflexivity |].
  cbn [flat_map]. rewrite Hrel, IH. reflexivity.
Qed.

(* =================================================================== *)
(** ** The claims                                                        *)
(* =================================================================== *)

(** C1: in a repository whose vector searcher has not been constructed,
    [get_vector_searcher] without an embedding function (and
    [search_semantic], which calls it) raises the [ValueError] asking
    for one and leaves the world, hence the unset [vector_searcher], as
    it was; with an embedding function a [VectorSearcher] holding it is
    constructed, returned and stored in [vector_searcher]. *)
Theorem vector_searcher_first_use (w : World) (backend persist_dir : option string)
    (Hunset : vector_searcher (self w) = None) :
  get_vector_searcher None backend persist_dir w
    = (Raise (ValueError embed_fn_required), w)
  /\ (forall q k, search_semantic q k None w = (Raise (ValueError embed_fn_required), w))
  /\ (forall f,
        let vs := built_searcher f backend persist_dir w in
        get_vector_searcher (Some f) backend persist_dir w
          = (Ret (Some vs), with_searcher vs w)
        /\ vector_searcher (self (with_searcher vs w)) = Some vs
        /\ vs_embed_fn vs = f)
  /\ (forall f q k,
        vector_searcher (self (effect (search_semantic q k (Some f)) w))
          = Some (built_searcher f None None w)).
Proof.
  split; [apply get_vector_searcher_unconfigured; exact Hunset |].
  split.
  { intros q k. unfold search_semantic, bind.
    rewrite (get_vector_searcher_unconfigured w None None Hunset). reflexivity. }
  split.
  { intros f vs. split; [apply get_vector_searcher_first; exact Hunset |].
    split; reflexivity. }
  intros f q k. unfold effect, search_semantic, bind.
  rewrite (get_vector_searcher_first w f None None Hunset).
  rewrite search_leaves_world. reflexivity.
Qed.

(** C2: [extract_symbols] without a file path returns the symbol lists of
    the repository map concatenated file after file in the map's order;
    the map is the cached one, or, when none is cached yet, the result of
    a full scan, which is then memoised.  With a file path it parses that
    one file and leaves the world as it was; its result depends on
    nothing but that file under the mapper's root. *)
Theorem extract_symbols_spec (w : World) :
  RepoMapper_get_repo_map w = (Ret (repo_map_dict (current_map w)), memoised w)
  /\ extract_symbols None w = (Ret (all_symbols (current_map w)), memoised w)
  /\ match mapper_cache (mapper (self w)) with
     | Some rm => current_map w = rm /\ memoised w = w
     | None =>
         current_map w
           = scan_repo (mapper_repo_path (mapper (self w))) (in_scope w) (disk w)
         /\ mapper_cache (mapper (self (memoised w))) = Some (current_map w)
     end
  /\ forall fp,
       extract_symbols (Some fp) w =
       (match file_data (disk w) (joinpath (mapper_repo_path (mapper (self w))) fp) with
        | Some data =>
            Ret (map symbol_value
                   (file_symbols (joinpath (mapper_repo_path (mapper (self w))) fp) data))
        | None => Raise (NotFound fp)
        end, w)
       /\ forall w2,
            mapper_repo_path (mapper (self w2)) = mapper_repo_path (mapper (self w)) ->
            file_data (disk w2) (joinpath (mapper_repo_path (mapper (self w))) fp)
              = file_data (disk w) (joinpath (mapper_repo_path (mapper (self w))) fp) ->
            fst (extract_symbols (Some fp) w2) = fst (extract_symbols (Some fp) w).
Proof.
  split; [apply get_repo_map_runs |].
  split; [apply extract_symbols_whole |].
  split.
  - pose proof (memoised_cache w) as Hm. unfold current_map, memoised in Hm |- *.
    destruct (mapper_cache (mapper (self w))); split; try reflexivity. exact Hm.
  - intros fp. split; [apply extract_symbols_single |].
    intros w2 Hroot Hdata. rewrite !extract_symbols_single. cbn [fst].
    rewrite Hroot, Hdata. reflexivity.
Qed.

(** C3 (amended): [find_symbol_usages] returns the entries derived from
    the symbol map followed by the entries derived from the text-search
    hits; the former carry exactly the fields [file], [type], [name],
    [line], [context], the latter exactly [file], [line], [context]. *)
Theorem find_symbol_usages_fields (name : string) (ty : option string) (w : World) :
  let from_map := map_usages name ty (current_map w) in
  let from_hits := map usage_of_hit (text_hits name "*" w) in
  find_symbol_usages name ty w = (Ret (from_map ++ from_hits), memoised w)
  /\ Forall (fun u => Py.keys u = ["file"; "type"; "name"; "line"; "context"]) from_map
  /\ Forall (fun u => Py.keys u = ["file"; "line"; "context"]) from_hits.
Proof.
  intros from_map from_hits. split; [apply find_symbol_usages_runs |]. split.
  - unfold from_map, map_usages. apply Forall_forall. intros u Hu.
    apply list_elem_of_In, in_flat_map in Hu. destruct Hu as (fs & _ & Hu).
    apply in_map_iff in Hu. destruct Hu as (s & <- & _). apply symbol_usage_keys.
  - unfold from_hits. apply Forall_forall. intros u Hu.
    apply list_elem_of_In, in_map_iff in Hu. destruct Hu as (h & <- & _).
    apply usage_of_hit_keys.
Qed.


(** C5: with [top_k <= 0], [search_semantic] returns the empty list and
    raises nothing whenever a vector searcher exists already or an
    embedding function is passed, and so does the vector searcher's own
    [search]. *)
Theorem semantic_search_nonpositive_top_k (w : World) (q : string) (k : Z)
    (e : option EmbedFn)
    (Hk : k <= 0)
    (Hcan : vector_searcher (self w) <> None \/ e <> None) :
  search_semantic q k e w = (Ret [], effect (get_vector_searcher e None None) w)
  /\ forall vs, VectorSearcher_search vs q k w = (Ret [], w).
Proof.
  split; [| intros vs; apply search_nonpositive; exact Hk].
  unfold effect, search_semantic, bind.
  destruct (vector_searcher (self w)) as [vs |] eqn:E.
  - rewrite (get_vector_searcher_cached w vs e None None E).
    apply search_nonpositive. exact Hk.
  - destruct e as [f |]; [| destruct Hcan as [H | H]; contradiction].
    rewrite (get_vector_searcher_first w f None None E).
    apply search_nonpositive. exact Hk.
Qed.

(** C6: for an existing file and a positive [max_lines],
    [chunk_file_by_lines] returns the contents of chunks that tile the
    file's lines from the first to the last without gap or overlap; each
    chunk has between one and [max_lines] lines and holds exactly the
    lines of its range (so the returned text splits into that many
    lines), every chunk but the last has exactly [max_lines] lines, and
    the contents laid end to end are the file.  A file of 120 lines cut
    with [max_lines = 50] gives the three chunks of lines 1-50, 51-100
    and 101-120, of 50, 50 and 20 lines. *)
Theorem chunk_file_by_lines_windows (w : World) (fp data : string) (max_lines : Z)
    (Hfile : file_data (disk w) (joinpath (context_repo_path (context (self w))) fp)
             = Some data)
    (Hpos : 0 < max_lines) :
  let lines := lines_of data in
  let chunks := line_chunks fp max_lines data in
  chunk_file_by_lines fp max_lines w = (Ret (map chunk_content chunks), w)
  /\ tiles 1 chunks (Z.of_nat (length lines))
  /\ Forall (fun c => 1 <= chunk_lines c <= max_lines) chunks
  /\ (forall i c, chunks !! i = Some c -> (S i < length chunks)%nat ->
        chunk_lines c = max_lines)
  /\ Forall (fun c => chunk_content c = slice_lines lines (chunk_start c) (chunk_end c))
       chunks
  /\ Forall (fun c => Z.of_nat (length (lines_of (chunk_content c))) = chunk_lines c)
       chunks
  /\ join (map chunk_content chunks) = data
  /\ (length lines = 120%nat -> max_lines = 50 ->
        map chunk_range chunks = [(1, 50); (51, 100); (101, 120)]
        /\ map (fun text => length (lines_of text)) (map chunk_content chunks)
           = [50; 50; 20]%nat).
Proof.
  intros lines chunks.
  assert (Hn : (0 < Z.to_nat max_lines)%nat) by lia.
  pose proof (windows_bounds (length lines) (Z.to_nat max_lines) lines Hn) as Hbounds.
  pose proof (windows_concat (length lines) (Z.to_nat max_lines) lines Hn (Nat.le_refl _))
    as Hconcat.
  fold (windows_of (Z.to_nat max_lines) lines) in Hbounds, Hconcat.
  split.
  { unfold chunk_file_by_lines, ContextExtractor_chunk_file_by_lines.
    rewrite Hfile. destruct (Z.leb_spec max_lines 0); [lia | reflexivity]. }
  split.
  { unfold chunks, line_chunks. fold lines.
    replace (Z.of_nat (length lines))
      with (1 + Z.of_nat (length (concat (windows_of (Z.to_nat max_lines) lines))) - 1)
      by (rewrite Hconcat; lia).
    apply chunks_from_tiles.
    eapply Forall_impl; [exact Hbounds | intros win Hwin; simpl in Hwin; lia]. }
  split.
  { apply Forall_lookup. intros i c Hc.
    apply chunks_from_lookup in Hc. destruct Hc as (win & Hwin & ->).
    rewrite Forall_lookup in Hbounds. specialize (Hbounds i win Hwin).
    simpl in Hbounds. lia. }
  split.
  { intros i c Hc Hi. unfold chunks, line_chunks in Hc, Hi.
    rewrite chunks_from_length in Hi.
    apply chunks_from_lookup in Hc. destruct Hc as (win & Hwin & ->).
    fold lines in Hwin, Hi. unfold windows_of in Hwin, Hi.
    rewrite (windows_full _ _ _ _ _ Hwin Hi). lia. }
  split.
  { unfold chunks, line_chunks. fold lines.
    apply (chunks_from_slices fp lines (Z.to_nat max_lines) (length lines) 0 Hn). }
  assert (Hcounts :
            Forall (fun c => Z.of_nat (length (lines_of (chunk_content c))) = chunk_lines c)
              chunks).
  { unfold chunks, line_chunks. fold lines.
    apply chunks_from_line_counts, windows_proper, lines_of_proper. }
  split; [exact Hcounts |].
  split.
  { unfold chunks, line_chunks. fold lines.
    rewrite chunks_from_contents, join_concat, Hconcat. apply join_lines_of. }
  intros H120 H50.
  assert (Hranges : map chunk_range chunks = [(1, 50); (51, 100); (101, 120)]).
  { unfold chunks, line_chunks. fold lines. subst max_lines.
    rewrite (chunks_from_ranges fp fp 1 _ (windows_of 50 (replicate 120 ""))).
    - reflexivity.
    - unfold windows_of. rewrite H120, length_replicate.
      apply windows_shape. rewrite length_replicate. exact H120. }
  split; [exact Hranges |].
  destruct chunks as [| c1 [| c2 [| c3 [| c4 rest]]]]; try discriminate Hranges.
  cbn [map] in Hranges. unfold chunk_range in Hranges.
  injection Hranges as He3 Hs3 He2 Hs2 He1 Hs1.
  apply Forall_cons in Hcounts as [Hc1 Hcounts].
  apply Forall_cons in Hcounts as [Hc2 Hcounts].
  apply Forall_cons in Hcounts as [Hc3 _].
  unfold chunk_lines in Hc1, Hc2, Hc3.
  cbn [map]. f_equal; [lia |]. f_equal; [lia |]. f_equal. lia.
Qed.

(** C7: for an existing file and a line number beyond the file's line
    count, [extract_context_around_line] returns [None] and raises
    nothing. *)
Theorem context_beyond_last_line (w : World) (fp data : string) (line : Z)
    (Hfile : file_data (disk w) (joinpath (context_repo_path (context (self w))) fp)
             = Some data)
    (Hbeyond : Z.of_nat (length (lines_of data)) < line) :
  extract_context_around_line fp line w = (Ret None, w).
Proof.
  unfold extract_context_around_line, ContextExtractor_extract_context_around_line.
  rewrite Hfile.
  destruct (line <? 1); [reflexivity |].
  destruct (Z.ltb_spec (Z.of_nat (length (lines_of data))) line); [reflexivity | lia].
Qed.

(** C8: two calls of [search_text] with the same query and pattern,
    made in worlds that hold the same snapshot, return equal lists of
    hits in identical order, whatever else differs between the worlds;
    the call raises nothing and leaves its world as it was, so it does
    not modify the snapshot itself; and the order is the snapshot's:
    file by file as listed, by ascending line number within a file. *)
Theorem search_text_two_runs (q pat : string) (w1 w2 : World)
    (Hsame : same_snapshot w1 w2) :
  exists hits,
    search_text q pat w1 = (Ret hits, w1)
    /\ search_text q pat w2 = (Ret hits, w2)
    /\ in_snapshot_order (in_scope w1) hits.
Proof.
  destruct Hsame as (Hroot & Hlisting & Hfiles).
  exists (text_hits q pat w1). split; [apply search_text_runs |]. split.
  - rewrite search_text_runs.
    assert (Hhits : text_hits q pat w2 = text_hits q pat w1);
      [| rewrite Hhits; reflexivity].
    unfold text_hits. rewrite <- Hroot, <- Hlisting.
    symmetry. apply search_files_ext. exact Hfiles.
  - apply search_files_order.
Qed.

(** C9: once [vector_searcher] holds a searcher, [get_vector_searcher]
    returns that very object whatever arguments it is given and changes
    nothing, and no call or sequence of calls on the repository replaces
    it. *)
Theorem vector_searcher_never_replaced (w : World) (vs : VectorSearcher)
    (Hset : vector_searcher (self w) = Some vs) :
  (forall e b p, get_vector_searcher e b p w = (Ret (Some vs), w))
  /\ (forall c, vector_searcher (self (perform c w)) = Some vs)
  /\ (forall calls, vector_searcher (self (session calls w)) = Some vs)
  /\ (forall calls e b p,
        fst (get_vector_searcher e b p (session calls w)) = Ret (Some vs)).
Proof.
  split; [intros e b p; apply get_vector_searcher_cached; exact Hset |].
  split; [intros c; apply (perform_slot c w vs Hset) |].
  split; [intros calls; apply (session_slot calls w vs Hset) |].
  intros calls e b p.
  rewrite (get_vector_searcher_cached _ vs e b p (session_slot calls w vs Hset)).
  reflexivity.
Qed.

(** C10: [write_symbols] with [symbols=None] flattens the per-file lists
    of the repository map into the very list that [extract_symbols]
    without a file path returns, reaching the same world on the way, and
    that list, serialised, is what the file holds afterwards: where
    [open] succeeds the file read back by the path given holds the JSON
    text of the list, and where [open] raises nothing is written.  The
    dictionary returned by [index] holds the file tree, as
    [get_file_tree] returns it, under [file_tree] and under [files]. *)
Theorem write_symbols_serialises_extracted (w : World) (fp : string) :
  exists syms tree idx,
    extract_symbols None w = (Ret syms, memoised w)
    /\ syms = all_symbols (current_map w)
    /\ symbols_to_write None w = (Ret syms, memoised w)
    /\ match opening fp w with
       | Ret target =>
           write_symbols fp None w
           = (Ret tt, written target (json_dumps (VList syms)) (memoised w))
           /\ stat (disk (effect (write_symbols fp None) w)) (cwd w) fp
              = Some (RegularFile (json_dumps (VList syms)))
       | Raise e =>
           write_symbols fp None w = (Raise e, memoised w)
           /\ disk (effect (write_symbols fp None) w) = disk w
       end
    /\ get_file_tree w = (Ret tree, w)
    /\ index w = (Ret idx, memoised w)
    /\ Py.getitem idx "file_tree" = Ret (VList (map VDict tree))
    /\ Py.getitem idx "files" = Ret (VList (map VDict tree)).
Proof.
  eexists. eexists. eexists.
  split; [apply extract_symbols_whole |]. split; [reflexivity |].
  split; [apply symbols_to_write_runs |]. split.
  - unfold effect. rewrite write_symbols_all_runs.
    destruct (opening fp w) as [target | e] eqn:Hopen; cbn [snd].
    + split; [rewrite written_memoised; reflexivity |].
      cbn [set_disk disk]. apply stat_written. exact Hopen.
    + split; [reflexivity |]. apply memoised_same_listing.
  - split; [reflexivity |]. split; [apply index_runs |]. split; reflexivity.
Qed.

(* =================================================================== *)
(** ** Further properties: reading, usages, writing, searching           *)
(* =================================================================== *)

(** X1: [get_file_content] never changes the world and has three
    outcomes only: the decoded text of the file at [local_path / fp],
    [FileNotFoundError] when that path is not a regular file, and
    [IOError] when the file is there but does not decode. *)
Theorem get_file_content_outcomes (fp : string) (w : World) :
  exists o,
    get_file_content fp w = (o, w)
    /\ match o with
       | Ret text =>
           exists data,
             file_data (disk w) (joinpath (local_path (self w)) fp) = Some data
             /\ utf8_decode data = Some text
       | Raise (FileNotFoundError msg) =>
           is_file (disk w) (joinpath (local_path (self w)) fp) = false
           /\ msg = "File not found in repository: " +:+ fp
       | Raise (IOError _) =>
           exists data,
             file_data (disk w) (joinpath (local_path (self w)) fp) = Some data
             /\ utf8_decode data = None
       | Raise _ => False
       end.
Proof.
  unfold get_file_content.
  destruct (is_file (disk w) (joinpath (local_path (self w)) fp)) eqn:Hfile; cbn [negb].
  - destruct (is_file_true_data _ _ Hfile) as (data & Hdata). rewrite Hdata. cbn.
    destruct (utf8_decode data) as [text |] eqn:Hdec; eexists; (split; [reflexivity |]);
      exists data; split; [reflexivity | exact Hdec | reflexivity | exact Hdec].
  - eexists. split; [reflexivity |]. split; reflexivity.
Qed.

(** X2: the entries [find_symbol_usages] derives from the repository map
    are exactly the symbols that bear the searched name and, when a
    type is given, that type: every such entry names the searched symbol,
    carries the requested type and the path of a file of the map, and
    every such symbol of the map has its entry. *)
Theorem find_symbol_usages_selects (name : string) (ty : option string) (w : World) :
  let selected := map_usages name ty (current_map w) in
  (exists from_hits, fst (find_symbol_usages name ty w) = Ret (selected ++ from_hits))
  /\ Forall (fun u =>
               Py.get u "name" = VStr name
               /\ (forall t, ty = Some t -> Py.get u "type" = VStr t)
               /\ exists f syms,
                    In (f, syms) (current_map w) /\ Py.get u "file" = VStr f)
       selected
  /\ forall f syms s,
       In (f, syms) (current_map w) -> In s syms ->
       sym_name s = name -> (forall t, ty = Some t -> sym_kind s = t) ->
       In (symbol_usage f s) selected.
Proof.
  intros selected. split; [| split].
  - eexists. rewrite find_symbol_usages_runs. reflexivity.
  - apply Forall_forall. intros u Hu. unfold selected, map_usages in Hu.
    apply list_elem_of_In, in_flat_map in Hu. destruct Hu as ([f syms] & Hin & Hu).
    apply in_map_iff in Hu. destruct Hu as (s & <- & Hs).
    apply list_elem_of_In, list_elem_of_filter in Hs. destruct Hs as [Hm _].
    unfold symbol_matches in Hm. apply Is_true_true, andb_prop in Hm.
    destruct Hm as [Hname Htype]. apply String.eqb_eq in Hname.
    split; [cbn; rewrite Hname; reflexivity |]. split.
    + intros t ->. apply String.eqb_eq in Htype. cbn. rewrite Htype. reflexivity.
    + exists f, syms. split; [exact Hin | reflexivity].
  - intros f syms s Hin Hs Hname Htype. unfold selected, map_usages.
    apply in_flat_map. exists (f, syms). split; [exact Hin |].
    apply in_map. apply list_elem_of_In, list_elem_of_filter.
    split; [| apply list_elem_of_In; exact Hs].
    apply Is_true_true. unfold symbol_matches. apply andb_true_intro. split.
    + apply String.eqb_eq. exact Hname.
    + destruct ty as [t |]; [| reflexivity]. apply String.eqb_eq. apply Htype. reflexivity.
Qed.

(** X3: the entry built for a text-search hit takes its context from the
    hit's [line_content], from its [line] when that is missing or empty,
    and is the empty string when both are; it is never [None].
    [find_symbol_usages] ends with these entries, one per hit. *)
Theorem hit_usage_context (hit : dict) :
  let context := Py.get (usage_of_hit hit) "context" in
  context <> VNone
  /\ (Py.truthy (Py.get hit "line_content") = true ->
      context = Py.get hit "line_content")
  /\ (Py.truthy (Py.get hit "line_content") = false ->
      Py.truthy (Py.get hit "line") = true ->
      context = Py.get hit "line")
  /\ (Py.truthy (Py.get hit "line_content") = false ->
      Py.truthy (Py.get hit "line") = false ->
      context = VStr "")
  /\ forall name ty w,
       exists from_map,
         fst (find_symbol_usages name ty w)
         = Ret (from_map ++ map usage_of_hit (text_hits name "*" w)).
Proof.
  intros context.
  assert (Hor : forall a b,
             let c := Py.or_ (Py.or_ a b) (VStr "") in
             c <> VNone
             /\ (Py.truthy a = true -> c = a)
             /\ (Py.truthy a = false -> Py.truthy b = true -> c = b)
             /\ (Py.truthy a = false -> Py.truthy b = false -> c = VStr "")).
  { intros a b c. unfold c, Py.or_. destruct (Py.truthy a) eqn:Ha.
    - rewrite Ha. split; [intros ->; discriminate Ha |]. split; [reflexivity |].
      split; intros H; discriminate H.
    - destruct (Py.truthy b) eqn:Hb.
      + split; [intros ->; discriminate Hb |]. split; [intros H; discriminate H |].
        split; [reflexivity | intros _ H; discriminate H].
      + split; [discriminate |]. split; [intros H; discriminate H |].
        split; [intros _ H; discriminate H | reflexivity]. }
  destruct (Hor (Py.get hit "line_content") (Py.get hit "line")) as (H1 & H2 & H3 & H4).
  split; [exact H1 |]. split; [exact H2 |]. split; [exact H3 |]. split; [exact H4 |].
  intros name ty w. eexists. rewrite find_symbol_usages_runs. reflexivity.
Qed.

(** X4: the loop body of [find_symbol_usages] on an arbitrary symbol
    dictionary: a missing [name] raises [KeyError]; a symbol of another
    name is skipped without its [type] being read; a symbol of the
    searched name needs a [type], whose absence raises [KeyError] even
    when no type is asked for; [line] and [context] may be missing and
    are then [None] in the entry appended. *)
Theorem usages_in_file_keys (name : string) (ty : option string) (file : string)
    (usages : list dict) (d : dict) (w : World) :
  (Py.lookup_item "name" d = None ->
   usages_in_file name ty file usages (VDict d) w = (Raise (KeyError "name"), w))
  /\ (forall v, Py.lookup_item "name" d = Some v -> Py.eq_str v name = false ->
      usages_in_file name ty file usages (VDict d) w = (Ret usages, w))
  /\ (Py.lookup_item "name" d = Some (VStr name) -> Py.lookup_item "type" d = None ->
      usages_in_file name ty file usages (VDict d) w = (Raise (KeyError "type"), w))
  /\ (forall t, Py.lookup_item "name" d = Some (VStr name) ->
      Py.lookup_item "type" d = Some t ->
      usages_in_file name ty file usages (VDict d) w
      = (Ret (if match ty with Some asked => Py.eq_str t asked | None => true end
              then usages ++ [ [ ("file", VStr file); ("type", t); ("name", VStr name);
                                 ("line", Py.get d "line");
                                 ("context", Py.get d "context") ] ]
              else usages),
         w)).
Proof.
  unfold usages_in_file, bind, lift, ret, Py.subscript, Py.getitem.
  split; [intros ->; reflexivity |]. split.
  { intros v -> ->. reflexivity. }
  split.
  { intros -> ->. cbn [Py.eq_str]. rewrite String.eqb_refl.
    destruct ty; reflexivity. }
  intros t -> ->. cbn [Py.eq_str]. rewrite String.eqb_refl.
  destruct ty as [asked |]; [destruct (Py.eq_str t asked) |]; reflexivity.
Qed.

(** X5: with a directory as target, the methods that open the file
    first ([write_index], [write_file_tree]) raise and leave the world as
    it was, while those that compute first ([write_symbols] without a
    list, [write_symbol_usages]) raise after the repository map has been
    memoised. *)
Theorem writes_to_directory (w : World) (fp : string)
    (Hdir : stat (disk w) (cwd w) fp = Some Directory) :
  write_index fp w = (Raise (IsADirectoryError fp), w)
  /\ write_file_tree fp w = (Raise (IsADirectoryError fp), w)
  /\ (forall l, write_symbols fp (Some l) w = (Raise (IsADirectoryError fp), w))
  /\ write_symbols fp None w = (Raise (IsADirectoryError fp), memoised w)
  /\ forall name ty,
       write_symbol_usages name fp ty w = (Raise (IsADirectoryError fp), memoised w).
Proof.
  pose proof (opening_directory fp w Hdir) as H.
  split; [rewrite write_index_runs, H; reflexivity |].
  split; [rewrite write_file_tree_runs, H; reflexivity |].
  split; [intros l; rewrite write_symbols_given_runs, H; reflexivity |].
  split; [rewrite write_symbols_all_runs, H; reflexivity |].
  intros name ty. rewrite write_symbol_usages_runs, H. reflexivity.
Qed.

(** X6: [write_symbols] and [write_symbol_usages] compute what they
    write before they open the file: where the path leads to a file, or
    to a free name in a directory that is there, and the operating
    system lets it be opened, the file receives the symbols,
    respectively the usages, of the world as it was before the call.
    Given an explicit list, [write_symbols] writes that list and does not
    build the repository map. *)
Theorem write_symbols_contents (w : World) (fp target : string)
    (Hopen : opening fp w = Ret target) :
  (forall l,
     write_symbols fp (Some l) w
     = (Ret tt, written target (json_dumps (VList l)) w))
  /\ write_symbols fp None w
     = (Ret tt,
        set_disk (<[target := RegularFile (json_dumps (VList (all_symbols (current_map w))))]>
                    (disk w))
          (memoised w))
  /\ (forall name ty,
        write_symbol_usages name fp ty w
        = (Ret tt,
           set_disk (<[target
                       := RegularFile (json_dumps (VList (map VDict (usages_of name ty w))))]>
                       (disk w))
             (memoised w)))
  /\ forall content,
       stat (<[target := RegularFile content]> (disk w)) (cwd w) fp
       = Some (RegularFile content).
Proof.
  split; [intros l; rewrite write_symbols_given_runs, Hopen; reflexivity |].
  split; [rewrite write_symbols_all_runs, Hopen; reflexivity |].
  split; [intros name ty; rewrite write_symbol_usages_runs, Hopen; reflexivity |].
  intros content. apply stat_written. exact Hopen.
Qed.

(** X7: [write_index] and [write_file_tree] open the file before they
    compute: the index, respectively the tree, written is that of the
    world in which the target already exists as an empty file, and the
    repository map memoised by [write_index] is the map of that world. *)
Theorem write_index_after_truncation (w : World) (fp target : string)
    (Hopen : opening fp w = Ret target) :
  let opened := truncated target w in
  write_index fp w
  = (Ret tt,
     set_disk (<[target := RegularFile (json_dumps (VDict (index_dict opened)))]> (disk w))
       (memoised opened))
  /\ mapper_cache (mapper (self (effect (write_index fp) w))) = Some (current_map opened)
  /\ write_file_tree fp w
     = (Ret tt, written target (json_dumps (file_tree_value opened)) w).
Proof.
  intros opened.
  assert (Hrun : write_index fp w
                 = (Ret tt,
                    set_disk (<[target := RegularFile (json_dumps (VDict (index_dict opened)))]>
                                (disk w))
                      (memoised opened)))
    by (rewrite write_index_runs, Hopen; reflexivity).
  split; [exact Hrun |]. split.
  - unfold effect. rewrite Hrun. cbn [snd set_disk self]. apply memoised_cache.
  - rewrite write_file_tree_runs, Hopen. reflexivity.
Qed.

(** X19: when [open] raises, whatever it raises (a missing directory,
    a file where a directory is needed, a refusal of the operating
    system), the methods that open the file first raise it and leave the
    world as it was, those that compute first raise it after the
    repository map has been memoised, and none of them changes the
    disk. *)
Theorem writes_fail_as_open_fails (w : World) (fp : string) (e : exn)
    (Hfail : opening fp w = Raise e) :
  write_index fp w = (Raise e, w)
  /\ write_file_tree fp w = (Raise e, w)
  /\ (forall l, write_symbols fp (Some l) w = (Raise e, w))
  /\ write_symbols fp None w = (Raise e, memoised w)
  /\ (forall name ty, write_symbol_usages name fp ty w = (Raise e, memoised w))
  /\ disk (memoised w) = disk w.
Proof.
  split; [rewrite write_index_runs, Hfail; reflexivity |].
  split; [rewrite write_file_tree_runs, Hfail; reflexivity |].
  split; [intros l; rewrite write_symbols_given_runs, Hfail; reflexivity |].
  split; [rewrite write_symbols_all_runs, Hfail; reflexivity |].
  split; [intros name ty; rewrite write_symbol_usages_runs, Hfail; reflexivity |].
  apply memoised_same_listing.
Qed.

(** X8: no call but the two that may build the vector searcher changes
    the working directory or the in-scope listing, and none changes the
    disk but a [write_*] call, at the one file its path leads to: every
    path that does not lead there, from whatever directory it is read,
    shows after the call what it showed before. *)
Theorem calls_touch_only_their_target (c : Call) (w : World)
    (Hcore : builds_searcher c = false) :
  cwd (perform c w) = cwd w
  /\ in_scope (perform c w) = in_scope w
  /\ (disk (perform c w) = disk w
      \/ exists fp target content,
           write_target c = Some fp
           /\ opening fp w = Ret target
           /\ disk (perform c w) = <[target := RegularFile content]> (disk w))
  /\ forall dir s,
       (forall fp target,
          write_target c = Some fp -> opening fp w = Ret target ->
          reaches (disk w) dir s <> Some target) ->
       stat (disk (perform c w)) dir s = stat (disk w) dir s.
Proof.
  destruct (write_target c) as [fp |] eqn:Ht.
  - destruct (write_disk c fp w Ht) as (Hcwd & Hscope & [Hsame | (target & content & Hopen & Hd)]).
    + split; [exact Hcwd |]. split; [exact Hscope |]. split; [left; exact Hsame |].
      intros dir s _. rewrite Hsame. reflexivity.
    + split; [exact Hcwd |]. split; [exact Hscope |]. split.
      * right. exists fp, target, content. split; [reflexivity |]. split; [exact Hopen | exact Hd].
      * intros dir s Hs. rewrite Hd. apply stat_insert_file.
        -- apply (opening_target fp target w Hopen).
        -- apply (Hs fp target eq_refl Hopen).
  - assert (Hw : writes c = false) by (destruct c; try discriminate Ht; reflexivity).
    pose proof (plain_call_places c w Hw Hcore) as Hplaces.
    injection Hplaces as Hd Hcwd Hscope.
    split; [exact Hcwd |]. split; [exact Hscope |]. split; [left; exact Hd |].
    intros dir s _. rewrite Hd. reflexivity.
Qed.

(** X9: the embedding function of the first semantic search is the one
    every later search uses: once [search_semantic] has been called with
    an embedding function in a repository without searcher, whether or
    not that search raised, any later call searches with the searcher
    built then, whatever embedding function it is passed. *)
Theorem search_semantic_first_embed_fn (w : World) (f : EmbedFn) (q : string) (k : Z)
    (Hunset : vector_searcher (self w) = None) :
  let after := effect (search_semantic q k (Some f)) w in
  forall e q' k',
    search_semantic q' k' e after
    = VectorSearcher_search (built_searcher f None None w) q' k' after.
Proof.
  intros after e q' k'.
  assert (Hset : vector_searcher (self after) = Some (built_searcher f None None w)).
  { unfold after, effect, search_semantic, bind.
    rewrite (get_vector_searcher_first w f None None Hunset).
    rewrite search_leaves_world. reflexivity. }
  unfold search_semantic, bind.
  rewrite (get_vector_searcher_cached after _ e None None Hset). reflexivity.
Qed.

(* =================================================================== *)
(** ** Further properties: git helpers, [__str__], [__init__]            *)
(* =================================================================== *)

(** X10: in a directory without a [.git] directory no git helper depends
    on git: [_git_command] returns [None] for every command, the
    properties return [None], the empty list or [False], [__str__] shows
    no reference, and [_checkout_ref] raises [ValueError]; the world is
    left as it was. *)
Theorem outside_a_git_repository (w : World)
    (Hno : has_git_dir (local_path (self w)) w = false) :
  (forall cmd, _git_command cmd w = (Ret None, w))
  /\ current_sha w = (Ret None, w)
  /\ current_sha_short w = (Ret None, w)
  /\ current_branch w = (Ret None, w)
  /\ remote_url w = (Ret None, w)
  /\ tags w = (Ret [], w)
  /\ branches w = (Ret [], w)
  /\ is_dirty w = (Ret false, w)
  /\ __str__ w
     = (Ret (repository_text (repo_path (self w)) ""
               (length (build_file_tree (mapper_repo_path (mapper (self w)))
                          (in_scope w) (disk w)))),
        w)
  /\ forall r,
       _checkout_ref r w
       = (Raise (ValueError ("Cannot checkout ref '" +:+ r +:+ "': not a git repository")),
          w).
Proof.
  assert (Hcmd : forall cmd, _git_command cmd w = (Ret None, w))
    by (intros cmd; apply git_command_outside; exact Hno).
  split; [exact Hcmd |].
  split; [apply Hcmd |]. split; [apply Hcmd |].
  split; [unfold current_branch, bind; rewrite Hcmd; reflexivity |].
  split; [apply Hcmd |].
  split; [unfold tags, bind; rewrite Hcmd; reflexivity |].
  split; [unfold branches, bind; rewrite Hcmd; reflexivity |].
  split; [unfold is_dirty, bind; rewrite Hcmd; reflexivity |].
  split.
  - unfold __str__, bind, get_file_tree, RepoMapper_get_file_tree, get_world.
    rewrite Hno. reflexivity.
  - intros r. unfold _checkout_ref, checkout_ref_at, bind, get_world.
    rewrite Hno. reflexivity.
Qed.

(** X11: when [current_branch] returns a branch, it is the stripped
    output of a successful [git rev-parse --abbrev-ref HEAD], and it is
    neither ["HEAD"] (a detached head gives [None]) nor empty. *)
Theorem current_branch_is_a_branch (w w' : World) (b : string)
    (Hbranch : current_branch w = (Ret (Some b), w')) :
  b <> "HEAD"
  /\ b <> ""
  /\ exists p,
       fst (subprocess_run ["git"; "rev-parse"; "--abbrev-ref"; "HEAD"]
              (repo_path (self w)) (disk w)) = Ret p
       /\ returncode p = 0
       /\ b = strip (stdout p).
Proof.
  unfold current_branch, bind in Hbranch.
  destruct (_git_command ["git"; "rev-parse"; "--abbrev-ref"; "HEAD"] w)
    as [[[out |] | e] w1] eqn:Hcmd; try discriminate Hbranch.
  cbn [ret] in Hbranch.
  destruct (nonempty out) eqn:Hne; [| discriminate Hbranch].
  destruct (String.eqb_spec out "HEAD") as [| Hhead]; [discriminate Hbranch |].
  cbn [andb negb] in Hbranch. injection Hbranch as <- _.
  split; [exact Hhead |]. split; [apply nonempty_true; exact Hne |].
  apply git_command_some in Hcmd. destruct Hcmd as (_ & Hp). exact Hp.
Qed.

(** X12: the lists [tags] and [branches] return never hold a name with a
    line feed in it and are never the list of one empty name; a
    non-empty list, joined with line feeds, is the stripped output of the
    successful git command. *)
Theorem tags_and_branches_are_lines (w w' : World) (names : list string) :
  let listed cmd :=
    Forall (fun name => occurs LF name = false) names
    /\ names <> [""]
    /\ (names <> [] ->
        exists p,
          fst (subprocess_run cmd (repo_path (self w)) (disk w)) = Ret p
          /\ returncode p = 0
          /\ String.concat (String LF "") names = strip (stdout p)) in
  (tags w = (Ret names, w') -> listed ["git"; "tag"; "--list"])
  /\ (branches w = (Ret names, w') ->
      listed ["git"; "branch"; "--format=%(refname:short)"]).
Proof.
  intros listed.
  assert (Hgen : forall cmd,
             (result <- _git_command cmd ;; ret (lines_or_nothing result)) w
             = (Ret names, w') -> listed cmd).
  { intros cmd H. unfold bind in H.
    destruct (_git_command cmd w) as [[result | e] w1] eqn:Hcmd; [| discriminate H].
    cbn [ret] in H. injection H as <- _.
    destruct (lines_or_nothing_facts result) as (Hpieces & Hone & Hjoin).
    split; [exact Hpieces |]. split; [exact Hone |].
    intros Hsome. destruct (Hjoin Hsome) as (out & -> & Hout).
    apply git_command_some in Hcmd. destruct Hcmd as (_ & p & Hp & Hrc & ->).
    exists p. split; [exact Hp |]. split; [exact Hrc | exact Hout]. }
  split; intros H; apply Hgen; exact H.
Qed.

(** X13: [is_dirty] returns [True] exactly when the repository has a
    [.git] directory, [git status --porcelain] succeeds and its output
    holds a character that is not white space. *)
Theorem is_dirty_iff (w : World) :
  fst (is_dirty w) = Ret true
  <-> has_git_dir (local_path (self w)) w = true
      /\ exists p,
           fst (subprocess_run ["git"; "status"; "--porcelain"]
                  (repo_path (self w)) (disk w)) = Ret p
           /\ returncode p = 0
           /\ has_nonspace (stdout p) = true.
Proof.
  unfold is_dirty, bind.
  destruct (has_git_dir (local_path (self w)) w) eqn:Hgit.
  - rewrite (git_command_runs _ w Hgit).
    destruct (subprocess_run ["git"; "status"; "--porcelain"] (repo_path (self w)) (disk w))
      as [[p | e] d]; cbn [fst ret].
    + destruct (Z.eqb_spec (returncode p) 0) as [Hrc | Hrc]; cbn [andb].
      * destruct (nonempty (stdout p)) eqn:Hout; cbn [fst].
        -- rewrite !nonempty_strip, has_nonspace_strip.
           split.
           ++ intros H. split; [reflexivity |]. exists p.
              destruct (has_nonspace (stdout p)); [auto | discriminate H].
           ++ intros (_ & p' & Hp & _ & Hns). injection Hp as <-. rewrite Hns. reflexivity.
        -- split; [discriminate |].
           intros (_ & p' & Hp & _ & Hns). injection Hp as <-.
           destruct (stdout p); discriminate.
      * split; [discriminate |].
        intros (_ & p' & Hp & Hrc' & _). injection Hp as <-. contradiction.
    + split; [discriminate |]. intros (_ & p' & Hp & _). discriminate Hp.
  - rewrite (git_command_outside _ w Hgit). cbn.
    split; [discriminate | intros (H & _); discriminate H].
Qed.

(** X14: once the mapper has returned the file tree, [__str__] never
    raises, whatever git does, even when git cannot be started: it
    returns the repository text with the file count of the tree, and the
    reference shown is empty, a branch other than ["HEAD"], or a commit. *)
Theorem str_never_raises (w : World) :
  exists ref_info w',
    __str__ w
    = (Ret (repository_text (repo_path (self w)) ref_info
              (length (build_file_tree (mapper_repo_path (mapper (self w)))
                         (in_scope w) (disk w)))),
       w')
    /\ (ref_info = ""
        \/ (exists b, ref_info = ", branch: " +:+ b /\ b <> "HEAD")
        \/ exists c, ref_info = ", commit: " +:+ c).
Proof.
  unfold __str__, bind, get_file_tree, RepoMapper_get_file_tree, get_world.
  destruct (has_git_dir (local_path (self w)) w).
  - destruct (describe_ref_cases (repo_path (self w)) w) as (info & w' & Hrun & Hinfo).
    rewrite Hrun. exists info, w'. split; [reflexivity | exact Hinfo].
  - exists "", w. split; [reflexivity | left; reflexivity].
Qed.

(** X15: in a git working tree, when the fetch and the checkout both
    run, [_checkout_ref] succeeds exactly when the checkout returns 0,
    whatever the fetch returned; otherwise it raises a [ValueError]
    quoting the checkout's standard error. *)
Theorem checkout_ref_outcome (w : World) (r : string)
    (fetched checked_out : CompletedProcess) (d1 d2 : gmap string FsNode)
    (Hgit : has_git_dir (local_path (self w)) w = true)
    (Hfetch : subprocess_run ["git"; "fetch"; "origin"; r] (local_path (self w)) (disk w)
              = (Ret fetched, d1))
    (Hcheckout : subprocess_run ["git"; "checkout"; r] (local_path (self w)) d1
                 = (Ret checked_out, d2)) :
  _checkout_ref r w
  = (if returncode checked_out =? 0 then Ret tt
     else Raise (ValueError ("Failed to checkout ref '" +:+ r +:+ "': "
                             +:+ stderr checked_out)),
     set_disk d2 w).
Proof.
  unfold _checkout_ref, checkout_ref_at, bind, get_world. rewrite Hgit. cbn [negb].
  unfold run_checked, bind, run_unchecked. rewrite Hfetch. cbn [disk set_disk].
  rewrite Hcheckout. unfold ret, raise.
  destruct (returncode checked_out =? 0); reflexivity.
Qed.

(** X16: whatever [__init__] constructs is rooted at one path, keeps the
    ref it was given and starts with no repository map and no vector
    searcher.  For a local path without a ref (or with an empty one) it
    runs nothing and roots the repository at the absolute path; with a
    ref and no [.git] directory there it raises [ValueError]. *)
Theorem init_constructs (path : string) (token cache_dir : option string) (w : World) :
  (forall r repo w',
     __init__ path token cache_dir r w = (Ret repo, w') ->
     rooted repo /\ ref repo = r
     /\ mapper_cache (mapper repo) = None /\ vector_searcher repo = None)
  /\ (is_remote path = false ->
      forall r, given r = false ->
        __init__ path token cache_dir r w
        = (Ret (constructed (joinpath (cwd w) path) r), w))
  /\ (is_remote path = false ->
      __init__ path token cache_dir None w = (Ret (Repository_init (cwd w) path), w))
  /\ (is_remote path = false ->
      forall r, nonempty r = true ->
        has_git_dir (joinpath (cwd w) path) w = false ->
        __init__ path token cache_dir (Some r) w
        = (Raise (ValueError ("Cannot checkout ref '" +:+ r
                              +:+ "': not a git repository")), w)).
Proof.
  split.
  { intros r repo w' H. unfold __init__ in H.
    apply (bind_ret_inv _ (fun root => constructed root r)) in H.
    destruct H as (root & ->). unfold rooted. cbn. repeat split; reflexivity. }
  split.
  { intros Hlocal r Hr. unfold __init__, bind, get_world. rewrite Hlocal.
    destruct r as [r |]; [| reflexivity].
    cbn [given] in Hr. rewrite Hr. reflexivity. }
  split.
  { intros Hlocal. unfold __init__, bind, get_world. rewrite Hlocal. reflexivity. }
  intros Hlocal r Hr Hno. unfold __init__, bind, get_world. rewrite Hlocal, Hr.
  unfold checkout_ref_at, bind, get_world. rewrite Hno. reflexivity.
Qed.

(** X17: the cache directory name [_clone_github_repo] computes holds no
    slash, an empty ref counts as no ref, and a ref enters it only
    through its slashes replaced by dashes.  The clone directory, the
    cache root joined with the name, is therefore the cache root with
    the name as one more part, and the cache root itself when the name
    is empty or a dot. *)
Theorem clone_cache_name_flat (url : string) :
  (forall r, occurs "/" (clone_cache_name url r) = false)
  /\ clone_cache_name url (Some "") = clone_cache_name url None
  /\ (forall r,
        clone_cache_name url (Some r)
        = clone_cache_name url (Some (replace_char "/" "-" r)))
  /\ forall cache_root r,
       joinpath cache_root (clone_cache_name url r)
       = path_str (path_root cache_root)
           (path_parts cache_root
            ++ (if is_blank (clone_cache_name url r) then []
                else [clone_cache_name url r])).
Proof.
  assert (Hne : "/"%char <> "-"%char) by discriminate.
  assert (Hflat : forall r, occurs "/" (clone_cache_name url r) = false).
  { intros r. unfold clone_cache_name.
    destruct r as [r |]; [destruct (nonempty r) |];
      rewrite ?occurs_app, ?occurs_replace_char by exact Hne; reflexivity. }
  split; [exact Hflat |].
  split; [reflexivity |].
  split.
  { intros r. unfold clone_cache_name.
    rewrite nonempty_replace_char, replace_char_idem by exact Hne. reflexivity. }
  intros cache_root r. apply joinpath_name. apply Hflat.
Qed.

(** X18: what [_git_command] returns, and with it [current_sha],
    [current_sha_short] and [remote_url], is the output of a git command
    that ran in a working tree and returned 0 with a non-empty output,
    stripped: stripping it again changes nothing. *)
Theorem git_command_output_is_stripped (cmd : list string) (w w' : World) (out : string)
    (Hout : _git_command cmd w = (Ret (Some out), w')) :
  strip out = out
  /\ has_git_dir (local_path (self w)) w = true
  /\ exists p,
       subprocess_run cmd (repo_path (self w)) (disk w) = (Ret p, disk w')
       /\ returncode p = 0
       /\ stdout p <> ""
       /\ out = strip (stdout p).
Proof.
  destruct (has_git_dir (local_path (self w)) w) eqn:Hgit.
  - rewrite (git_command_runs cmd w Hgit) in Hout.
    destruct (subprocess_run cmd (repo_path (self w)) (disk w)) as [[p | e] d];
      [| discriminate Hout].
    destruct (Z.eqb_spec (returncode p) 0) as [Hrc | Hrc]; [| discriminate Hout].
    destruct (nonempty (stdout p)) eqn:Hne; [| discriminate Hout].
    cbn [andb] in Hout. injection Hout as <- <-.
    split; [apply strip_idem |]. split; [reflexivity |].
    exists p. split; [reflexivity |]. split; [exact Hrc |].
    split; [apply nonempty_true; exact Hne | reflexivity].
  - rewrite (git_command_outside cmd w Hgit) in Hout. discriminate Hout.
Qed.

End Kit.

(* ===================================================================== *)
(** ** The claims on the concrete repository                              *)
(* ===================================================================== *)

(** First use in the demo repository: without an embedding function the
    call raises and the world is untouched; with one, the searcher is
    built. *)
Lemma vector_searcher_first_use_demo :
  vector_searcher (self Demo.world) = None
  /\ get_vector_searcher None None None Demo.world
     = (Raise (ValueError embed_fn_required), Demo.world)
  /\ search_semantic Demo.cosine "foo" 5 None Demo.world
     = (Raise (ValueError embed_fn_required), Demo.world)
  /\ get_vector_searcher (Some Demo.embed) None None Demo.world
     = (Ret (Some Demo.searcher), Demo.configured_world).
Proof.
  destruct (vector_searcher_first_use Demo.cosine Demo.world None None eq_refl)
    as (Hnone & Hsem & Hsome & _).
  split; [reflexivity |]. split; [exact Hnone |]. split; [apply Hsem |].
  destruct (Hsome Demo.embed) as (Hbuilt & _). exact Hbuilt.
Defined.

(** A text hit for [foo] in the demo repository yields a usage entry
    without [type] and [name]: not every entry carries the five fields. *)
Lemma find_symbol_usages_hit_lacks_type :
  exists us w' u,
    find_symbol_usages Demo.parse Demo.glob_match Demo.line_matches Demo.utf8_decode
      "foo" None Demo.world = (Ret us, w')
    /\ us !! 1%nat = Some u
    /\ Py.keys u = ["file"; "line"; "context"]
    /\ Py.lookup_item "type" u = None
    /\ has_fields usage_fields u = false.
Proof.
  eexists. eexists. eexists.
  split; [apply find_symbol_usages_runs |].
  split; [vm_compute; reflexivity |].
  split; [reflexivity |]. split; reflexivity.
Defined.



(** A text search in the demo repository and in the same repository
    with one more file on the disk that the snapshot does not list. *)
Lemma search_text_two_runs_demo :
  same_snapshot Demo.world Demo.long_world
  /\ exists hits,
       search_text Demo.glob_match Demo.line_matches Demo.utf8_decode "foo" "*" Demo.world
       = (Ret hits, Demo.world)
       /\ search_text Demo.glob_match Demo.line_matches Demo.utf8_decode "foo" "*"
            Demo.long_world
          = (Ret hits, Demo.long_world)
       /\ map line_of hits = [1; 4; 1].
Proof.
  assert (Hsame : same_snapshot Demo.world Demo.long_world).
  { split; [reflexivity |]. split; [reflexivity |].
    repeat constructor. }
  split; [exact Hsame |].
  destruct (search_text_two_runs Demo.glob_match Demo.line_matches Demo.utf8_decode
              "foo" "*" Demo.world Demo.long_world Hsame) as (hits & H1 & H2 & _).
  exists hits. split; [exact H1 |]. split; [exact H2 |].
  assert (Hhits : Ret hits
                  = fst (search_text Demo.glob_match Demo.line_matches Demo.utf8_decode
                           "foo" "*" Demo.world))
    by (rewrite H1; reflexivity).
  vm_compute in Hhits. injection Hhits as ->. reflexivity.
Defined.

(** A semantic search with [top_k = -1] in the demo repository. *)
Lemma semantic_search_nonpositive_top_k_demo :
  -1 <= 0
  /\ (vector_searcher (self Demo.world) <> None \/ Some Demo.embed <> None)
  /\ fst (search_semantic Demo.cosine "foo" (-1) (Some Demo.embed) Demo.world) = Ret [].
Proof.
  assert (Hk : -1 <= 0) by lia.
  assert (Hcan : vector_searcher (self Demo.world) <> None \/ Some Demo.embed <> None)
    by (right; discriminate).
  destruct (semantic_search_nonpositive_top_k Demo.cosine Demo.world "foo" (-1)
              (Some Demo.embed) Hk Hcan) as (Hsem & _).
  split; [exact Hk |]. split; [exact Hcan |]. rewrite Hsem. reflexivity.
Defined.

(** The 120-line file of the demo repository cut with [max_lines = 50]. *)
Lemma chunk_file_by_lines_windows_demo :
  file_data (disk Demo.long_world) "/repo/long.txt" = Some Demo.long_txt
  /\ 0 < 50
  /\ fst (chunk_file_by_lines "long.txt" 50 Demo.long_world)
     = Ret (map chunk_content (line_chunks "long.txt" 50 Demo.long_txt))
  /\ map chunk_range (line_chunks "long.txt" 50 Demo.long_txt)
     = [(1, 50); (51, 100); (101, 120)]
  /\ map (fun text => length (lines_of text))
       (map chunk_content (line_chunks "long.txt" 50 Demo.long_txt))
     = [50; 50; 20]%nat.
Proof.
  assert (Hfile : file_data (disk Demo.long_world)
                    (joinpath (context_repo_path (context (self Demo.long_world))) "long.txt")
                  = Some Demo.long_txt)
    by (vm_compute; reflexivity).
  assert (Hpos : 0 < 50) by lia.
  destruct (chunk_file_by_lines_windows Demo.long_world "long.txt" Demo.long_txt 50
              Hfile Hpos) as (Hrun & _ & _ & _ & _ & _ & _ & Hexample).
  split; [exact Hfile |]. split; [exact Hpos |].
  split; [rewrite Hrun; reflexivity |].
  apply Hexample; [vm_compute; reflexivity | reflexivity].
Defined.

(** Line 5 of the four-line file [a.py] of the demo repository. *)
Lemma context_beyond_last_line_demo :
  file_data (disk Demo.world) "/repo/a.py" = Some Demo.a_py
  /\ Z.of_nat (length (lines_of Demo.a_py)) < 5
  /\ extract_context_around_line Demo.parse Demo.context_radius "a.py" 5 Demo.world
     = (Ret None, Demo.world).
Proof.
  assert (Hfile : file_data (disk Demo.world)
                    (joinpath (context_repo_path (context (self Demo.world))) "a.py")
                  = Some Demo.a_py)
    by (vm_compute; reflexivity).
  assert (Hbeyond : Z.of_nat (length (lines_of Demo.a_py)) < 5)
    by (vm_compute; reflexivity).
  split; [exact Hfile |]. split; [exact Hbeyond |].
  exact (context_beyond_last_line Demo.parse Demo.context_radius Demo.world "a.py"
           Demo.a_py 5 Hfile Hbeyond).
Defined.

(** In the demo repository with its searcher stored, a call with other
    arguments returns the stored searcher, and it is still there after a
    session of calls. *)
Lemma vector_searcher_never_replaced_demo :
  vector_searcher (self Demo.configured_world) = Some Demo.searcher
  /\ get_vector_searcher (Some Demo.failing_embed) (Some "chroma") (Some "/tmp/index")
       Demo.configured_world
     = (Ret (Some Demo.searcher), Demo.configured_world)
  /\ vector_searcher
       (self (session Demo.parse Demo.build_file_tree Demo.glob_match Demo.line_matches
                Demo.utf8_decode Demo.cosine Demo.json_dumps Demo.context_radius
                Demo.permissive
                [ call_index;
                  call_get_vector_searcher (Some Demo.failing_embed) None None;
                  call_write_symbols "symbols.json" None;
                  call_search_semantic "foo" 3 (Some Demo.failing_embed) ]
                Demo.configured_world))
     = Some Demo.searcher.
Proof.
  destruct (vector_searcher_never_replaced Demo.parse Demo.build_file_tree Demo.glob_match
              Demo.line_matches Demo.utf8_decode Demo.cosine Demo.json_dumps
              Demo.context_radius Demo.permissive Demo.configured_world Demo.searcher eq_refl)
    as (Hget & _ & Hsession & _).
  split; [reflexivity |]. split; [apply Hget | apply Hsession].
Defined.

(** The methods run on the demo repository. *)

Example extract_symbols_demo :
  fst (extract_symbols Demo.parse None Demo.world)
  = Ret (map symbol_value
           [ {| sym_name := "foo"; sym_kind := "function"; sym_file := "/repo/a.py";
                sym_start := 1; sym_end := 1; sym_parent := None;
                sym_context := Some "def foo" |};
             {| sym_name := "bar"; sym_kind := "function"; sym_file := "/repo/a.py";
                sym_start := 3; sym_end := 3; sym_parent := None;
                sym_context := Some "def bar" |} ]).
Proof. vm_compute. reflexivity. Qed.

Example search_text_demo :
  fst (search_text Demo.glob_match Demo.line_matches Demo.utf8_decode "foo" "*" Demo.world)
  = Ret (map hit_to_dict
           [ {| hit_file := "a.py"; hit_line := 1; hit_content := Demo.line "def foo" |};
             {| hit_file := "a.py"; hit_line := 4; hit_content := Demo.line "  return foo" |};
             {| hit_file := "notes.txt"; hit_line := 1;
                hit_content := Demo.line "foo is used here" |} ]).
Proof. vm_compute. reflexivity. Qed.

Example write_symbols_demo :
  file_data
    (disk (effect (write_symbols Demo.parse Demo.build_file_tree Demo.json_dumps
                     Demo.permissive "symbols.json" None) Demo.world))
    "/work/symbols.json"
  = Some "[2]".
Proof. vm_compute. reflexivity. Qed.

(** Opening for writing in the demo repository: a missing directory, a
    file used as a directory, a name with a trailing slash, the empty
    path, a protected file, and two names of one file. *)
Example opening_demo :
  opening Demo.permissive "no/such/dir/out.json" Demo.world
  = Raise (FileNotFoundError "no/such/dir/out.json")
  /\ opening Demo.permissive "/repo/a.py/out.json" Demo.world
     = Raise (NotADirectoryError "/repo/a.py/out.json")
  /\ opening Demo.permissive "out.json/" Demo.world = Raise (IsADirectoryError "out.json/")
  /\ opening Demo.permissive "" Demo.world = Raise (FileNotFoundError "")
  /\ opening Demo.read_only_repo "a.py" Demo.inside_world
     = Raise (PermissionError "/repo/a.py")
  /\ opening Demo.permissive "./a.py" Demo.inside_world = Ret "/repo/a.py"
  /\ opening Demo.permissive "sub/../a.py" Demo.inside_world = Ret "/repo/a.py".
Proof. repeat split; vm_compute; reflexivity. Qed.

Example write_symbols_missing_directory_demo :
  write_symbols Demo.parse Demo.build_file_tree Demo.json_dumps Demo.permissive
    "no/such/dir/out.json" (Some []) Demo.world
  = (Raise (FileNotFoundError "no/such/dir/out.json"), Demo.world).
Proof. vm_compute. reflexivity. Qed.

Example get_file_content_undecodable_demo :
  fst (get_file_content Demo.utf8_decode "data.bin" Demo.world)
  = Raise (IOError "Error reading file data.bin").
Proof. vm_compute. reflexivity. Qed.

(* ===================================================================== *)
(** ** The further properties on the concrete repository                  *)
(* ===================================================================== *)

(** The directory [/repo/sub] as target of the writing methods. *)
Lemma writes_to_directory_demo :
  stat (disk Demo.world) (cwd Demo.world) "/repo/sub" = Some Directory
  /\ write_index Demo.parse Demo.build_file_tree Demo.json_dumps Demo.permissive
       "/repo/sub" Demo.world
     = (Raise (IsADirectoryError "/repo/sub"), Demo.world)
  /\ mapper_cache
       (mapper (self (effect (write_symbols Demo.parse Demo.build_file_tree Demo.json_dumps
                                Demo.permissive "/repo/sub" None) Demo.world)))
     = Some (current_map Demo.parse Demo.world).
Proof.
  assert (Hdir : stat (disk Demo.world) (cwd Demo.world) "/repo/sub" = Some Directory)
    by (vm_compute; reflexivity).
  destruct (writes_to_directory Demo.parse Demo.build_file_tree Demo.glob_match
              Demo.line_matches Demo.utf8_decode Demo.json_dumps Demo.permissive
              Demo.world "/repo/sub" Hdir)
    as (Hindex & _ & _ & Hsymbols & _).
  split; [exact Hdir |]. split; [exact Hindex |].
  unfold effect. rewrite Hsymbols. reflexivity.
Defined.

(** Writing an explicit list to [symbols.json] from [/work]. *)
Lemma write_symbols_contents_demo :
  opening Demo.permissive "symbols.json" Demo.world = Ret "/work/symbols.json"
  /\ write_symbols Demo.parse Demo.build_file_tree Demo.json_dumps Demo.permissive
       "symbols.json" (Some [VInt 7]) Demo.world
     = (Ret tt, written "/work/symbols.json" "[1]" Demo.world).
Proof.
  assert (Hopen : opening Demo.permissive "symbols.json" Demo.world
                  = Ret "/work/symbols.json")
    by (vm_compute; reflexivity).
  destruct (write_symbols_contents Demo.parse Demo.build_file_tree Demo.glob_match
              Demo.line_matches Demo.utf8_decode Demo.json_dumps Demo.permissive
              Demo.world "symbols.json" "/work/symbols.json" Hopen) as (Hgiven & _).
  split; [exact Hopen | exact (Hgiven [VInt 7])].
Defined.

(** Writing the index over the source file [a.py], named [./a.py] from
    inside the repository: the file is indexed as the empty file it has
    become. *)
Lemma write_index_after_truncation_demo :
  opening Demo.permissive "./a.py" Demo.inside_world = Ret "/repo/a.py"
  /\ mapper_cache
       (mapper (self (effect (write_index Demo.parse Demo.build_file_tree Demo.json_dumps
                                Demo.permissive "./a.py") Demo.inside_world)))
     = Some [("/repo/a.py", [])].
Proof.
  assert (Hopen : opening Demo.permissive "./a.py" Demo.inside_world = Ret "/repo/a.py")
    by (vm_compute; reflexivity).
  destruct (write_index_after_truncation Demo.parse Demo.build_file_tree Demo.json_dumps
              Demo.permissive Demo.inside_world "./a.py" "/repo/a.py" Hopen)
    as (_ & Hcache & _).
  split; [exact Hopen |]. rewrite Hcache. vm_compute. reflexivity.
Defined.

(** Writing [symbols.json] from [/work] leaves the source file [a.py]
    as it was, under either of two of its names. *)
Lemma calls_touch_only_their_target_demo :
  builds_searcher (call_write_symbols "symbols.json" None) = false
  /\ stat (disk (perform Demo.parse Demo.build_file_tree Demo.glob_match Demo.line_matches
                   Demo.utf8_decode Demo.cosine Demo.json_dumps Demo.context_radius
                   Demo.permissive (call_write_symbols "symbols.json" None) Demo.world))
       "/repo" "./a.py"
     = Some (RegularFile Demo.a_py)
  /\ stat (disk (perform Demo.parse Demo.build_file_tree Demo.glob_match Demo.line_matches
                   Demo.utf8_decode Demo.cosine Demo.json_dumps Demo.context_radius
                   Demo.permissive (call_write_symbols "symbols.json" None) Demo.world))
       "/work" "../repo/sub/../a.py"
     = Some (RegularFile Demo.a_py).
Proof.
  assert (Hcore : builds_searcher (call_write_symbols "symbols.json" None) = false)
    by reflexivity.
  assert (Hopen : forall fp target,
             write_target (call_write_symbols "symbols.json" None) = Some fp ->
             opening Demo.permissive fp Demo.world = Ret target ->
             target = "/work/symbols.json").
  { intros fp target Hfp. injection Hfp as <-. vm_compute. intros H.
    injection H as <-. reflexivity. }
  destruct (calls_touch_only_their_target Demo.parse Demo.build_file_tree Demo.glob_match
              Demo.line_matches Demo.utf8_decode Demo.cosine Demo.json_dumps
              Demo.context_radius Demo.permissive (call_write_symbols "symbols.json" None)
              Demo.world Hcore) as (_ & _ & _ & Hstat).
  split; [exact Hcore |]. split.
  - rewrite (Hstat "/repo" "./a.py"); [vm_compute; reflexivity |].
    intros fp target Hfp Ht. rewrite (Hopen fp target Hfp Ht). vm_compute. discriminate.
  - rewrite (Hstat "/work" "../repo/sub/../a.py"); [vm_compute; reflexivity |].
    intros fp target Hfp Ht. rewrite (Hopen fp target Hfp Ht). vm_compute. discriminate.
Defined.

(** Writing below a directory that is not there, and over a protected
    file. *)
Lemma writes_fail_as_open_fails_demo :
  opening Demo.permissive "no/such/dir/out.json" Demo.world
  = Raise (FileNotFoundError "no/such/dir/out.json")
  /\ write_index Demo.parse Demo.build_file_tree Demo.json_dumps Demo.permissive
       "no/such/dir/out.json" Demo.world
     = (Raise (FileNotFoundError "no/such/dir/out.json"), Demo.world)
  /\ write_file_tree Demo.build_file_tree Demo.json_dumps Demo.read_only_repo
       "/repo/a.py" Demo.world
     = (Raise (PermissionError "/repo/a.py"), Demo.world).
Proof.
  assert (Hfail : opening Demo.permissive "no/such/dir/out.json" Demo.world
                  = Raise (FileNotFoundError "no/such/dir/out.json"))
    by (vm_compute; reflexivity).
  destruct (writes_fail_as_open_fails Demo.parse Demo.build_file_tree Demo.glob_match
              Demo.line_matches Demo.utf8_decode Demo.json_dumps Demo.permissive
              Demo.world "no/such/dir/out.json" _ Hfail) as (Hindex & _).
  split; [exact Hfail |]. split; [exact Hindex |].
  vm_compute. reflexivity.
Defined.

(** A first search with an embedding function that fails, then a search
    with a working one: the second still uses the first. *)
Lemma search_semantic_first_embed_fn_demo :
  vector_searcher (self Demo.world) = None
  /\ fst (search_semantic Demo.cosine "foo" 3 (Some Demo.failing_embed) Demo.world)
     = Raise (TypeError "no model")
  /\ fst (search_semantic Demo.cosine "foo" 2 (Some Demo.embed)
            (effect (search_semantic Demo.cosine "foo" 3 (Some Demo.failing_embed))
               Demo.world))
     = Raise (TypeError "no model").
Proof.
  split; [reflexivity |]. split; [reflexivity |].
  rewrite (search_semantic_first_embed_fn Demo.cosine Demo.world Demo.failing_embed
             "foo" 3 eq_refl (Some Demo.embed) "foo" 2).
  reflexivity.
Defined.

(** The demo repository has no [.git] directory. *)
Lemma outside_a_git_repository_demo :
  has_git_dir (local_path (self Demo.world)) Demo.world = false
  /\ tags Demo.git Demo.world = (Ret [], Demo.world)
  /\ is_dirty Demo.git Demo.world = (Ret false, Demo.world)
  /\ fst (__str__ Demo.build_file_tree Demo.git Demo.world)
     = Ret "<Repository path='/repo', files: 3>".
Proof.
  assert (Hno : has_git_dir (local_path (self Demo.world)) Demo.world = false)
    by (vm_compute; reflexivity).
  destruct (outside_a_git_repository Demo.build_file_tree Demo.git Demo.world Hno)
    as (_ & _ & _ & _ & _ & Htags & _ & Hdirty & Hstr & _).
  split; [exact Hno |]. split; [exact Htags |]. split; [exact Hdirty |].
  rewrite Hstr. vm_compute. reflexivity.
Defined.

(** The branch of the demo working tree. *)
Lemma current_branch_is_a_branch_demo :
  current_branch Demo.git Demo.git_world
  = (Ret (Some "main"), snd (current_branch Demo.git Demo.git_world))
  /\ "main" <> "HEAD"
  /\ "main" <> "".
Proof.
  assert (Hbranch : current_branch Demo.git Demo.git_world
                    = (Ret (Some "main"), snd (current_branch Demo.git Demo.git_world)))
    by (vm_compute; reflexivity).
  destruct (current_branch_is_a_branch Demo.git Demo.git_world _ "main" Hbranch)
    as (Hhead & Hempty & _).
  split; [exact Hbranch |]. split; [exact Hhead | exact Hempty].
Defined.

(** The tags of the demo working tree, joined again. *)
Lemma tags_and_branches_are_lines_demo :
  tags Demo.git Demo.git_world
  = (Ret ["v1.0"; "v1.1"], snd (tags Demo.git Demo.git_world))
  /\ Forall (fun name => occurs LF name = false) ["v1.0"; "v1.1"]
  /\ exists p,
       fst (Demo.git ["git"; "tag"; "--list"] (repo_path (self Demo.git_world))
              (disk Demo.git_world)) = Ret p
       /\ returncode p = 0
       /\ String.concat (String LF "") ["v1.0"; "v1.1"] = strip (stdout p).
Proof.
  assert (Htags : tags Demo.git Demo.git_world
                  = (Ret ["v1.0"; "v1.1"], snd (tags Demo.git Demo.git_world)))
    by (vm_compute; reflexivity).
  destruct (tags_and_branches_are_lines Demo.git Demo.git_world
              (snd (tags Demo.git Demo.git_world)) ["v1.0"; "v1.1"])
    as (Hlisted & _).
  destruct (Hlisted Htags) as (Hpieces & _ & Hjoin).
  split; [exact Htags |]. split; [exact Hpieces |]. apply Hjoin. discriminate.
Defined.

(** The demo working tree is dirty. *)
Lemma is_dirty_iff_demo :
  fst (is_dirty Demo.git Demo.git_world) = Ret true.
Proof.
  apply (is_dirty_iff Demo.git Demo.git_world).
  split; [vm_compute; reflexivity |].
  eexists. split; [vm_compute; reflexivity |]. split; reflexivity.
Defined.

(** [__str__] on a machine where git cannot be started. *)
Lemma str_never_raises_demo :
  exists ref_info w',
    __str__ Demo.build_file_tree Demo.no_git_program Demo.git_world
    = (Ret (repository_text "/repo" ref_info 3), w').
Proof.
  destruct (str_never_raises Demo.build_file_tree Demo.no_git_program Demo.git_world)
    as (ref_info & w' & Hrun & _).
  exists ref_info, w'. exact Hrun.
Defined.

(** A ref that git cannot check out in the demo working tree. *)
Lemma checkout_ref_outcome_demo :
  has_git_dir (local_path (self Demo.git_world)) Demo.git_world = true
  /\ fst (_checkout_ref Demo.git "nowhere" Demo.git_world)
     = Raise (ValueError "Failed to checkout ref 'nowhere': error: pathspec").
Proof.
  assert (Hgit : has_git_dir (local_path (self Demo.git_world)) Demo.git_world = true)
    by (vm_compute; reflexivity).
  split; [exact Hgit |].
  rewrite (checkout_ref_outcome Demo.git Demo.git_world "nowhere"
             (Demo.completed 128 "" "fatal: no remote") (Demo.completed 1 "" "error: pathspec")
             (disk Demo.git_world) (disk Demo.git_world) Hgit eq_refl eq_refl).
  reflexivity.
Defined.

(** Constructing the demo repository from [/work]. *)
Lemma init_constructs_demo :
  __init__ Demo.git Demo.clone "/repo" None None None Demo.world
  = (Ret (self Demo.world), Demo.world)
  /\ __init__ Demo.git Demo.clone "/repo" None None (Some "main") Demo.world
     = (Raise (ValueError "Cannot checkout ref 'main': not a git repository"), Demo.world).
Proof.
  destruct (init_constructs Demo.git Demo.clone "/repo" None None Demo.world)
    as (_ & _ & Hplain & Href).
  split; [exact (Hplain eq_refl) |].
  exact (Href eq_refl "main" eq_refl eq_refl).
Defined.

(** The runs behind the further properties. *)

Example init_in_working_directory_demo :
  fst (__init__ Demo.git Demo.clone "." None None None Demo.inside_world)
  = Ret (constructed "/repo" None)
  /\ fst (__init__ Demo.git Demo.clone "sub/..//a/./" None None None Demo.inside_world)
     = Ret (constructed "/repo/sub/../a" None).
Proof. split; vm_compute; reflexivity. Qed.

Example str_on_a_branch_demo :
  fst (__str__ Demo.build_file_tree Demo.git Demo.git_world)
  = Ret "<Repository path='/repo', branch: main, files: 3>".
Proof. vm_compute. reflexivity. Qed.

Example str_without_git_program_demo :
  fst (__str__ Demo.build_file_tree Demo.no_git_program Demo.git_world)
  = Ret "<Repository path='/repo', files: 3>".
Proof. vm_compute. reflexivity. Qed.

Example branches_demo :
  fst (branches Demo.git Demo.git_world) = Ret ["main"; "dev"].
Proof. vm_compute. reflexivity. Qed.

Example clone_cache_name_demo :
  clone_cache_name Demo.urlparse_path "https://github.com/owner/kit/" (Some "feature/x")
  = "owner-kit-feature-x"
  /\ joinpath "/tmp/kit-repo-cache"
       (clone_cache_name Demo.urlparse_path "https://github.com/owner/kit/" (Some "feature/x"))
     = "/tmp/kit-repo-cache/owner-kit-feature-x"
  /\ joinpath "/tmp/kit-repo-cache"
       (clone_cache_name Demo.urlparse_path "https://github.com/" None)
     = "/tmp/kit-repo-cache"
  /\ joinpath "/tmp/kit-repo-cache"
       (clone_cache_name Demo.urlparse_path "https://github.com/.." None)
     = "/tmp/kit-repo-cache/..".
Proof. repeat split; vm_compute; reflexivity. Qed.

Example strip_demo :
  strip (String LF (" main " +:+ String LF "")) = "main".
Proof. vm_compute. reflexivity. Qed.

(** The short commit of the demo working tree. *)
Lemma git_command_output_is_stripped_demo :
  current_sha_short Demo.git Demo.git_world
  = (Ret (Some "0a1b2c3"), snd (current_sha_short Demo.git Demo.git_world))
  /\ strip "0a1b2c3" = "0a1b2c3".
Proof.
  assert (Hout : _git_command Demo.git ["git"; "rev-parse"; "--short"; "HEAD"] Demo.git_world
                 = (Ret (Some "0a1b2c3"), snd (current_sha_short Demo.git Demo.git_world)))
    by (vm_compute; reflexivity).
  destruct (git_command_output_is_stripped Demo.git _ Demo.git_world _ "0a1b2c3" Hout)
    as (Hstripped & _).
  split; [exact Hout | exact Hstripped].
Defined.
